(** * Paper-agent frontend: the live progress client and the HTTP helper

    A shallow embedding of the two effects that run the reconnecting
    WebSocket client (in pages/TaskDetail.tsx and pages/Analysis.tsx), of
    the store they write (store/index.ts) and of [fetchApi] (lib/api.ts),
    followed by the properties the specification states about them.

    Conventions of the embedding:
    - values that the TypeScript handles as [any] (the parsed frame, the
      held snapshot, an error body) are [JSValue]s, with property access,
      truthiness and comparison as ECMAScript defines them; numbers are
      integers, which is all the client ever compares;
    - a handler is a computation over the state its closure can reach; a
      [throw] keeps the writes made before it;
    - the browser (sockets, timers) and React (the cleanup, the commit of a
      render) are part of the state and move it by events, so that a run
      of an effect is a list of events folded over its start state;
    - [console.log] calls are left out: they touch nothing the client
      reads. *)

From stdpp Require Import base option list strings pretty.
From Stdlib Require Import ZArith Lia.

Local Open Scope string_scope.
Local Open Scope Z_scope.

(** ** JavaScript values *)

Module JS.

#[local] Unset Elimination Schemes.
Inductive JSValue : Type :=
| JUndefined
| JNull
| JBool (b : bool)
| JNum (n : Z)                       (* the numbers the client computes with are counts *)
| JStr (s : string)
| JArr (items : list JSValue)
| JObj (fields : list (string * JSValue)).
#[local] Set Elimination Schemes.

Inductive Exn : Type :=
| SyntaxError                        (* JSON.parse, response.json() *)
| TypeError                          (* property of null/undefined; fetch's network failure *)
| InvalidStateError                  (* send() on a CONNECTING socket *)
| DOMException (name : string)       (* e.g. AbortError *)
| Error (message : string).          (* new Error(message) *)

(** [error instanceof TypeError] *)
Definition instanceof_TypeError (e : Exn) : bool :=
  match e with TypeError => true | _ => false end.

(** The conversions ECMAScript applies to operands that are not already of
    the wanted type (ToString of a non-string, the relational comparison of
    operands that are not two numbers). They are the language's, so they are
    taken as given. ToString can throw: on an object whose own [toString] is
    not callable, which a parsed JSON text can be, it throws a TypeError.
    The comparison is only made inside the handlers' [try], where a throw
    and [false] have the same effect, so it is given as a boolean. *)
Class Coercions : Type := {
  coerced_string : JSValue → Exn + string;
  coerced_gt : JSValue → JSValue → bool
}.

Fixpoint assoc (k : string) (fields : list (string * JSValue)) : option JSValue :=
  match fields with
  | [] => None
  | (k', v) :: rest => if String.eqb k k' then Some v else assoc k rest
  end.

(** [v.k] *)
Definition get (v : JSValue) (k : string) : Exn + JSValue :=
  match v with
  | JUndefined | JNull => inl TypeError
  | JObj fields => inr (default JUndefined (assoc k fields))
  | _ => inr JUndefined
  end.

(** ToBoolean *)
Definition truthy (v : JSValue) : bool :=
  match v with
  | JUndefined | JNull => false
  | JBool b => b
  | JNum n => negb (n =? 0)
  | JStr s => negb (String.eqb s EmptyString)
  | JArr _ | JObj _ => true
  end.

(** [a || b] on values already evaluated *)
Definition or (a b : JSValue) : JSValue := if truthy a then a else b.

(** [v === 'text'] *)
Definition is_string (v : JSValue) (text : string) : bool :=
  match v with JStr s => String.eqb s text | _ => false end.

Section WithCoercions.
Context `{Coercions}.

(** [a > b] *)
Definition gt (a b : JSValue) : bool :=
  match a, b with
  | JNum x, JNum y => x >? y
  | JUndefined, _ | _, JUndefined => false     (* ToNumber(undefined) is NaN *)
  | _, _ => coerced_gt a b
  end.

(** ToString, as a template literal and [new Error(..)] apply it *)
Definition to_string (v : JSValue) : Exn + string :=
  match v with
  | JStr s => inr s
  | _ => coerced_string v
  end.
End WithCoercions.

End JS.
Export JS.

(** ** lib/api.ts: [fetchApi] and the calls built on it *)

Module Api.

Definition API_BASE : string := "https://paper-agent-production.up.railway.app".

(** The part of [RequestInit] the callers fill in. In [headers] a later
    entry overrides an earlier one with the same name, as object spread does. *)
Record RequestInit : Type := {
  method : option string;
  body : option string;
  headers : list (string * string)
}.

Definition no_options : RequestInit :=
  {| method := None; body := None; headers := [] |}.

(** [{ ...options, headers: { 'Content-Type': 'application/json', ...options?.headers } }] *)
Definition with_json_header (options : option RequestInit) : RequestInit :=
  let o := default no_options options in
  {| method := method o;
     body := body o;
     headers := ("Content-Type", "application/json") :: headers o |}.

(** A [Response], as far as [fetchApi] looks at it; [json] is what
    [response.json()] settles to. *)
Record Response : Type := {
  ok : bool;
  status : Z;
  json : Exn + JSValue
}.

(** What [await fetch(..)] gives: it throws, or it yields a response. *)
Inductive Settled : Type :=
| Rejected (e : Exn)
| Fulfilled (response : Response).

(** The network, as the sequence of answers to successive calls of [fetch]. *)
Definition Network : Type := nat → Settled.

(** What [fetchApi] does to the outside, in order. *)
Inductive IO : Type :=
| Fetch (url : string) (init : RequestInit)
| Sleep (ms : Z).                    (* await new Promise(r => setTimeout(r, ms)) *)

(** How one pass through the [try] block ends. [return response.json()]
    hands the promise back without awaiting it, so a rejection of that
    promise settles the call directly and never reaches [catch]. *)
Inductive Completion : Type :=
| Returned (result : Exn + JSValue)
| Caught (error : Exn).

Section WithCoercions.
Context `{Coercions}.

Definition try_block (answer : Settled) : Completion :=
  match answer with
  | Rejected e => Caught e
  | Fulfilled response =>
      if negb (ok response) then
        let error :=
          match json response with
          | inr v => v
          | inl _ => JObj [("detail", JStr "Unknown error")]
          end in
        match get error "detail" with
        | inl e => Caught e
        | inr detail =>
            match to_string
                    (or detail (JStr ("HTTP error " +:+ pretty (status response)))) with
            | inl e => Caught e              (* new Error(..) converts its argument *)
            | inr message => Caught (Error message)
            end
        end
      else Returned (json response)
  end.

(** [for (let attempt = 0; attempt <= retries; attempt++) { .. }], then the
    [throw] after the loop. [fuel] bounds the rounds; [fetchApi] passes
    enough. *)
Fixpoint for_loop (fuel : nat) (url : string) (init : RequestInit)
    (retries : Z) (net : Network) (attempt : nat)
    : (Exn + JSValue) * list IO :=
  if Z.of_nat attempt <=? retries then
    match fuel with
    | O => (inl (Error "Failed after retries"), [])
    | S fuel' =>
        match try_block (net attempt) with
        | Returned result => (result, [Fetch url init])
        | Caught error =>
            if (Z.of_nat attempt <? retries) && instanceof_TypeError error then
              let '(result, io) :=
                for_loop fuel' url init retries net (S attempt) in
              (result, Fetch url init :: Sleep 1000 :: io)
            else (inl error, [Fetch url init])
        end
    end
  else (inl (Error "Failed after retries"), []).

(** [fetchApi(endpoint, options?, retries = 2)] *)
Definition fetchApi (endpoint : string) (options : option RequestInit)
    (retries : option Z) (net : Network) : (Exn + JSValue) * list IO :=
  let retries := default 2 retries in
  let url := API_BASE +:+ endpoint in
  for_loop (Z.to_nat (retries + 1)) url (with_json_header options) retries net 0%nat.

(** [await fetchApi(..)] as the last statement of a function that returns
    nothing: the value is dropped, a rejection is the caller's. *)
Definition awaited (settled : (Exn + JSValue) * list IO) : (Exn + JSValue) * list IO :=
  (match settled.1 with
   | inr _ => inr JUndefined
   | inl e => inl e
   end, settled.2).

(** The exported calls. None passes [retries]. [getTasks] receives the
    query string its [URLSearchParams] renders to. *)
Inductive ApiCall : Type :=
| checkHealth
| startAnalysis (request_json : string)
| getTasks (params : string)
| getTaskStatus (taskId : string)
| getTaskResults (taskId : string)
| getTaskAnalytics (taskId : string)
| deleteTask (taskId : string)
| cancelTask (taskId : string)
| evaluateTask (request_json : string)
| getDataSources
| getQueryExamples
| getActiveTask.

Definition with_method (m : string) (b : option string) : option RequestInit :=
  Some {| method := Some m; body := b; headers := [] |}.

Definition call (c : ApiCall) (net : Network) : (Exn + JSValue) * list IO :=
  match c with
  | checkHealth => fetchApi "/health" None None net
  | startAnalysis request => fetchApi "/api/analyze" (with_method "POST" (Some request)) None net
  | getTasks params => fetchApi ("/api/tasks?" +:+ params) None None net
  | getTaskStatus taskId => fetchApi ("/api/tasks/" +:+ taskId) None None net
  | getTaskResults taskId => fetchApi ("/api/tasks/" +:+ taskId +:+ "/results") None None net
  | getTaskAnalytics taskId => fetchApi ("/api/tasks/" +:+ taskId +:+ "/analytics") None None net
  | deleteTask taskId =>
      awaited (fetchApi ("/api/tasks/" +:+ taskId) (with_method "DELETE" None) None net)
  | cancelTask taskId =>
      awaited (fetchApi ("/api/tasks/" +:+ taskId +:+ "/cancel") (with_method "POST" None)
                 None net)
  | evaluateTask request => fetchApi "/api/evaluate" (with_method "POST" (Some request)) None net
  | getDataSources => fetchApi "/api/data-sources" None None net
  | getQueryExamples => fetchApi "/api/query-examples" None None net
  | getActiveTask => fetchApi "/api/active-task" None None net
  end.
End WithCoercions.

(** How an attempt ends for the caller if it is the last one, whether
    the loop goes round again after it, and the trace of a call that made
    [k] retries. *)
Definition ends `{Coercions} (answer : Settled) : Exn + JSValue :=
  match try_block answer with
  | Returned result => result
  | Caught error => inl error
  end.

Definition asks_retry `{Coercions} (answer : Settled) : bool :=
  match try_block answer with
  | Returned _ => false
  | Caught error => instanceof_TypeError error
  end.

Fixpoint trace_of (request : IO) (k : nat) : list IO :=
  match k with
  | O => [request]
  | S k' => request :: Sleep 1000 :: trace_of request k'
  end.

(** What a call gives its caller when [fetchApi] settled to [result]:
    [deleteTask] and [cancelTask] give nothing back. *)
Definition given (c : ApiCall) (result : Exn + JSValue) : Exn + JSValue :=
  match c, result with
  | (deleteTask _ | cancelTask _), inr _ => inr JUndefined
  | _, _ => result
  end.

(** The message of the error a response that is not [ok] is turned into:
    the body's [detail] when it has one that is truthy, "HTTP error" and the
    status when it has none, and "Unknown error" when the body is not JSON.
    There is no message where building the error throws: reading [detail]
    off a body that is [null], or converting a [detail] to a string. *)
Definition error_message `{Coercions} (response : Response) : Exn + string :=
  match json response with
  | inl _ => inr "Unknown error"
  | inr body =>
      match get body "detail" with
      | inr detail =>
          if truthy detail then to_string detail
          else inr ("HTTP error " +:+ pretty (status response))
      | inl e => inl e
      end
  end.

(** What an attempt that received a response that is not [ok] throws. *)
Definition thrown `{Coercions} (response : Response) : Exn :=
  match error_message response with
  | inr message => Error message
  | inl e => e
  end.

(** The body is JSON [null] (or, in the model only, [undefined]): reading
    its [detail] throws. *)
Definition nullish_body (response : Response) : Prop :=
  json response = inr JNull ∨ json response = inr JUndefined.

(** [createWebSocket(taskId)] opens this address. *)
Definition ws_url (taskId : string) : string :=
  "wss://paper-agent-production.up.railway.app" +:+ "/ws/" +:+ taskId.

End Api.

(** ** Handlers as computations: state, and exceptions that keep it *)

Module Eff.

Definition Run (S A : Type) : Type := S → S * (Exn + A).

Definition ret {S A} (a : A) : Run S A := λ s, (s, inr a).

Definition bind {S A B} (m : Run S A) (f : A → Run S B) : Run S B :=
  λ s, match m s with
       | (s', inl e) => (s', inl e)
       | (s', inr a) => f a s'
       end.

(** an expression that may throw and touches no state *)
Definition eval {S A} (r : Exn + A) : Run S A := λ s, (s, r).

Definition read {S A} (f : S → A) : Run S A := λ s, (s, inr (f s)).

Definition write {S} (f : S → S) : Run S unit := λ s, (f s, inr tt).

(** [try { m } catch (e) { h e }]: what [m] wrote before throwing stays *)
Definition try_catch {S A} (m : Run S A) (h : Exn → Run S A) : Run S A :=
  λ s, match m s with
       | (s', inl e) => h e s'
       | (s', inr a) => (s', inr a)
       end.

Declare Scope run_scope.
Delimit Scope run_scope with run.
Notation "x ←! m ; k" := (bind m (λ x, k))
  (at level 100, m at next level, right associativity) : run_scope.
Notation "m ;! k" := (bind m (λ _, k))
  (at level 100, right associativity) : run_scope.

End Eff.
Export Eff.

(** ** The browser side: sockets and timers, with the effect's own variables *)

Module Browser.

Inductive ReadyState : Type := CONNECTING | OPEN | CLOSING | CLOSED.

#[export] Instance ReadyState_eq_dec : EqDecision ReadyState.
Proof. solve_decision. Defined.

(** A socket, as far as the client can tell it apart: where it points, how
    far it is, and whether the [onclose] the client assigned is still in
    place. [onopen], [onmessage] and [onerror] are assigned once in
    [connect] and never removed. *)
Record WebSocket : Type := {
  url : string;
  readyState : ReadyState;
  onclose : bool
}.

(** One run of the effect: the sockets it has created (oldest first; a
    socket is named by its position), the timeouts it has pending, what it
    has handed to the transport, and the three variables its closures
    share. *)
Record Conn : Type := {
  sockets : list WebSocket;
  timers : list (positive * Z);        (* id, delay in ms *)
  next_timer : positive;               (* the id setTimeout returns next *)
  sent : list (nat * string);          (* socket, text *)
  ws : option nat;                     (* let ws: WebSocket | null *)
  reconnectTimeout : option positive;  (* let reconnectTimeout *)
  isMounted : bool                     (* let isMounted *)
}.

Definition set_sockets (l : list WebSocket) (c : Conn) : Conn :=
  {| sockets := l; timers := timers c; next_timer := next_timer c; sent := sent c;
     ws := ws c; reconnectTimeout := reconnectTimeout c; isMounted := isMounted c |}.
Definition set_timers (l : list (positive * Z)) (c : Conn) : Conn :=
  {| sockets := sockets c; timers := l; next_timer := next_timer c; sent := sent c;
     ws := ws c; reconnectTimeout := reconnectTimeout c; isMounted := isMounted c |}.
Definition set_next_timer (n : positive) (c : Conn) : Conn :=
  {| sockets := sockets c; timers := timers c; next_timer := n; sent := sent c;
     ws := ws c; reconnectTimeout := reconnectTimeout c; isMounted := isMounted c |}.
Definition set_sent (l : list (nat * string)) (c : Conn) : Conn :=
  {| sockets := sockets c; timers := timers c; next_timer := next_timer c; sent := l;
     ws := ws c; reconnectTimeout := reconnectTimeout c; isMounted := isMounted c |}.
Definition set_ws (w : option nat) (c : Conn) : Conn :=
  {| sockets := sockets c; timers := timers c; next_timer := next_timer c; sent := sent c;
     ws := w; reconnectTimeout := reconnectTimeout c; isMounted := isMounted c |}.
Definition set_reconnectTimeout (t : option positive) (c : Conn) : Conn :=
  {| sockets := sockets c; timers := timers c; next_timer := next_timer c; sent := sent c;
     ws := ws c; reconnectTimeout := t; isMounted := isMounted c |}.
Definition set_isMounted (b : bool) (c : Conn) : Conn :=
  {| sockets := sockets c; timers := timers c; next_timer := next_timer c; sent := sent c;
     ws := ws c; reconnectTimeout := reconnectTimeout c; isMounted := b |}.

(** The variables as the effect declares them, in a browser whose next
    timer id is [n]. *)
Definition fresh (n : positive) : Conn :=
  {| sockets := []; timers := []; next_timer := n; sent := [];
     ws := None; reconnectTimeout := None; isMounted := true |}.

(** [new WebSocket(url)]: a socket in CONNECTING, no handler yet. *)
Definition new_WebSocket (u : string) (c : Conn) : Conn * nat :=
  (set_sockets (sockets c ++ [{| url := u; readyState := CONNECTING; onclose := false |}]) c,
   length (sockets c)).

Definition set_readyState (i : nat) (r : ReadyState) (c : Conn) : Conn :=
  set_sockets (alter (λ s, {| url := url s; readyState := r; onclose := onclose s |}) i (sockets c)) c.

(** [socket.onclose = handler] ([true]) or [socket.onclose = null] ([false]) *)
Definition assign_onclose (i : nat) (b : bool) (c : Conn) : Conn :=
  set_sockets (alter (λ s, {| url := url s; readyState := readyState s; onclose := b |}) i (sockets c)) c.

Definition state_of (i : nat) (c : Conn) : option ReadyState :=
  readyState <$> sockets c !! i.

(** [socket.send(text)]: throws while CONNECTING, transmits while OPEN, and
    is dropped without an error once the socket is closing or closed. *)
Definition send (i : nat) (text : string) (c : Conn) : Conn * (Exn + unit) :=
  match state_of i c with
  | Some CONNECTING => (c, inl InvalidStateError)
  | Some OPEN => (set_sent (sent c ++ [(i, text)]) c, inr tt)
  | _ => (c, inr tt)
  end.

(** [socket.close()]: starts the closing handshake; nothing happens on a
    socket that is already closing or closed. The close event comes later,
    from the transport. *)
Definition close (i : nat) (c : Conn) : Conn :=
  match state_of i c with
  | Some CONNECTING | Some OPEN => set_readyState i CLOSING c
  | _ => c
  end.

(** [setTimeout(callback, ms)]; the only callback the effect ever passes is
    the one that calls [connect]. *)
Definition setTimeout (ms : Z) (c : Conn) : Conn * positive :=
  (set_next_timer (Pos.succ (next_timer c)) (set_timers (timers c ++ [(next_timer c, ms)]) c),
   next_timer c).

Definition clearTimeout (t : positive) (c : Conn) : Conn :=
  set_timers (filter (λ p, p.1 ≠ t) (timers c)) c.

Definition is_pending (t : positive) (c : Conn) : bool :=
  bool_decide (t ∈ (timers c).*1).

End Browser.
Export Browser.

(** ** What both pages share: frames, events, what the owner is told *)

Inductive TaskStatus : Type := pending | running | completed | failed | cancelled.

Definition is_running (s : option TaskStatus) : bool :=
  match s with Some running => true | _ => false end.

(** [event.data], the text of a frame, by what the handler's tests make of
    it: the two keep-alive texts, a text [JSON.parse] accepts (with the value
    it yields), and any other text. *)
Inductive MessageData : Type :=
| Text_ping
| Text_pong
| Text_JSON (v : JSValue)
| Text_other.

Definition is_ping (d : MessageData) : bool :=
  match d with Text_ping => true | _ => false end.

Definition is_pong (d : MessageData) : bool :=
  match d with Text_pong => true | _ => false end.

Definition JSON_parse (d : MessageData) : Exn + JSValue :=
  match d with Text_JSON v => inr v | _ => inl SyntaxError end.

(** What reaches one run of the effect from outside: the transport's events
    on socket [i], the expiry of timeout [t], React running the cleanup, and
    React committing a render (which runs the effects that depend on what
    was rendered). *)
Inductive Event : Type :=
| Ev_open (i : nat)
| Ev_message (i : nat) (data : MessageData) (now : string)   (* [now]: new Date().toISOString() *)
| Ev_error (i : nat)
| Ev_close (i : nat)
| Ev_timeout (t : positive)
| Ev_cleanup
| Ev_commit.

(** What the client tells its owner: writes to the progress state, writes to
    the connectivity flag, and requests to the query cache. *)
Inductive Notice : Type :=
| Set_taskProgress (v : JSValue)
| Set_wsConnected (b : bool)
| Invalidate (queryKey : list string)      (* queryClient.invalidateQueries({ queryKey }) *)
| Refetch_activeTask.                       (* refetchActiveTask() *)

(** The payload of a frame that is a "progress" message. *)
Definition progress_of (d : MessageData) : option JSValue :=
  match d with
  | Text_JSON message =>
      match get message "type", get message "data" with
      | inr type, inr payload => if is_string type "progress" then Some payload else None
      | _, _ => None
      end
  | _ => None
  end.

(** A JSON value the handler has no branch for: its [type] is none of
    "progress", "status" and "completed" (an "error" message, an object
    without [type], a number, a string, an array), or reading its [type]
    throws ([null]). *)
Definition other_kind (message : JSValue) : bool :=
  match get message "type" with
  | inr type =>
      negb (is_string type "progress") && negb (is_string type "status") &&
      negb (is_string type "completed")
  | inl _ => true
  end.

(** Frames that cannot displace a held snapshot that has processed [N]
    papers, once the guard can see it: keep-alives, texts that are not JSON
    or are not an object, messages of a kind other than progress, status and
    completed, and status messages that have processed no more than [N]. *)
Definition superseded (N : Z) (d : MessageData) : bool :=
  match d with
  | Text_JSON message =>
      match get message "type", get message "data" with
      | inr type, inr payload =>
          if is_string type "status" then
            match get payload "processed_papers" with
            | inr (JNum n) => n <=? N
            | _ => false
            end
          else negb (is_string type "progress") && negb (is_string type "completed")
      | _, _ => true
      end
  | _ => true
  end.

(** Frames arriving on socket [i] one at a time, React committing the
    render after each before the next arrives. *)
Definition in_turn (i : nat) (now : string) (frames : list MessageData) : list Event :=
  frames ≫= λ d, [Ev_message i d now; Ev_commit].

(** The snapshot both pages build from a "status" payload. The property
    reads happen in the order of the object literal; on a payload that is
    [null] or [undefined] the first of them throws, on any other none does,
    which leaves the conversion of the title in the template literal as the
    one other thing that can throw. *)
Definition snapshot_of_status `{Coercions} (statusData : JSValue) (now : string)
    : Exn + JSValue :=
  match get statusData "task_id", get statusData "stage", get statusData "progress",
        get statusData "current_paper_title", get statusData "processed_papers",
        get statusData "total_papers", get statusData "updated_at" with
  | inr task_id, inr stage, inr progress, inr title, inr processed_papers,
    inr total_papers, inr updated_at =>
      match to_string (or title (JStr "...")) with
      | inr text =>
          inr (JObj [("task_id", task_id);
                     ("stage", stage);
                     ("progress", progress);
                     ("message", JStr ("Processing " +:+ text));
                     ("current_paper", title);
                     ("processed", processed_papers);
                     ("total", total_papers);
                     ("timestamp", or updated_at (JStr now))])
      | inl e => inl e
      end
  | _, _, _, _, _, _, _ => inl TypeError
  end.

(** ** pages/TaskDetail.tsx: the effect that keeps the socket *)

Module TaskDetail.

(** The store ([useTaskStore]) fields the effect writes, and what it has
    told its owner so far. *)
Record State : Type := {
  conn : Conn;
  taskProgress : JSValue;              (* useTaskStore: taskProgress *)
  wsConnected : bool;                  (* useTaskStore: wsConnected *)
  notices : list Notice
}.

Definition on_conn (f : Conn → Conn) (st : State) : State :=
  {| conn := f (conn st); taskProgress := taskProgress st;
     wsConnected := wsConnected st; notices := notices st |}.

Definition setTaskProgress (v : JSValue) (st : State) : State :=
  {| conn := conn st; taskProgress := v; wsConnected := wsConnected st;
     notices := notices st ++ [Set_taskProgress v] |}.

Definition setWsConnected (b : bool) (st : State) : State :=
  {| conn := conn st; taskProgress := taskProgress st; wsConnected := b;
     notices := notices st ++ [Set_wsConnected b] |}.

Definition invalidateQueries (queryKey : list string) (st : State) : State :=
  {| conn := conn st; taskProgress := taskProgress st; wsConnected := wsConnected st;
     notices := notices st ++ [Invalidate queryKey] |}.

Section Effect.
Context `{Coercions}.
Variable taskId : string.
Variable status : option TaskStatus.     (* status?.status, as the effect captured it *)

Definition connect (st : State) : State :=
  if negb (isMounted (conn st)) then st
  else
    let '(c, i) := new_WebSocket (Api.ws_url taskId) (conn st) in
    on_conn (λ _, assign_onclose i true (set_ws (Some i) c)) st.

Definition onopen (st : State) : State := setWsConnected true st.

(** [ws.send(text)], on whatever socket [ws] names at that moment *)
Definition ws_send (text : string) : Run State unit :=
  λ st, match ws (conn st) with
        | Some i => let '(c, r) := send i text (conn st) in (on_conn (λ _, c) st, r)
        | None => (st, inl TypeError)
        end.

Definition onmessage (data : MessageData) (now : string) : Run State unit :=
  if is_ping data || is_pong data then
    (w ←! read (λ st, ws (conn st));
     if is_ping data && bool_decide (is_Some w) then ws_send "pong" else ret tt)%run
  else
    try_catch
      (message ←! eval (JSON_parse data);
       type ←! eval (get message "type");
       if is_string type "progress" then
         (payload ←! eval (get message "data");
          write (setTaskProgress payload))
       else if is_string type "status" then
         (statusData ←! eval (get message "data");
          currentProgress ←! read taskProgress;
          accept ←! (if negb (truthy currentProgress) then ret true
                     else (a ←! eval (get statusData "processed_papers");
                           b ←! eval (get currentProgress "processed");
                           ret (gt a b)));
          if accept : bool then
            (snapshot ←! eval (snapshot_of_status statusData now);
             write (setTaskProgress snapshot))
          else ret tt)
       else if is_string type "completed" then
         (write (invalidateQueries ["taskStatus"; taskId]);!
          write (invalidateQueries ["taskResults"; taskId]);!
          write (invalidateQueries ["taskAnalytics"; taskId]);!
          write (invalidateQueries ["activeTask"]))
       else ret tt)%run
      (λ _, ret tt).

Definition onerror (st : State) : State := st.

Definition onclose (st : State) : State :=
  let st := setWsConnected false st in
  if isMounted (conn st) && is_running status then
    let '(c, t) := setTimeout 2000 (conn st) in
    on_conn (λ _, set_reconnectTimeout (Some t) c) st
  else st.

(** the function the effect returns *)
Definition cleanup (st : State) : State :=
  let c := set_isMounted false (conn st) in
  let c := match reconnectTimeout c with
           | Some t => clearTimeout t c
           | None => c
           end in
  let c := match ws c with
           | Some i => close i (assign_onclose i false c)
           | None => c
           end in
  on_conn (λ _, c) st.

(** The browser delivers an event only where it can occur: open on a
    connecting socket, a message on an open one, close once per socket, a
    timeout while it is pending. Anything else leaves the state alone. *)
Definition step (st : State) (ev : Event) : State :=
  match ev with
  | Ev_open i =>
      match state_of i (conn st) with
      | Some CONNECTING => onopen (on_conn (set_readyState i OPEN) st)
      | _ => st
      end
  | Ev_message i data now =>
      match state_of i (conn st) with
      | Some OPEN => (onmessage data now st).1
      | _ => st
      end
  | Ev_error i => onerror st
  | Ev_close i =>
      match sockets (conn st) !! i with
      | Some s =>
          match readyState s with
          | CLOSED => st
          | _ =>
              let st' := on_conn (set_readyState i CLOSED) st in
              if Browser.onclose s then onclose st' else st'
          end
      | None => st
      end
  | Ev_timeout t =>
      if is_pending t (conn st) then connect (on_conn (clearTimeout t) st) else st
  | Ev_cleanup => cleanup st
  | Ev_commit => st
  end.

Definition run (st : State) (evs : list Event) : State := fold_left step evs st.
End Effect.

(** The store as [create] builds it, around a run of the effect that has
    not connected yet. *)
Definition init (n : positive) : State :=
  {| conn := fresh n; taskProgress := JNull; wsConnected := false; notices := [] |}.

(** The body of the effect, for the [taskId] and [status?.status] of the
    render it belongs to. [st] carries the store; the effect's own variables
    start afresh (where the guard returns early there is no socket and no
    timeout, which is what [fresh] says). *)
Definition effect `{Coercions} (taskId : option string) (status : option TaskStatus)
    (st : State) : State :=
  let st := on_conn (λ c, fresh (next_timer c)) st in
  match taskId with
  | Some id =>
      if String.eqb id EmptyString || negb (is_running status)
      then setWsConnected false st
      else connect id st
  | None => setWsConnected false st
  end.

End TaskDetail.

(** ** pages/Analysis.tsx: the effect that keeps the socket *)

Module Analysis.

(** The component's progress state ([useState]), the ref that mirrors it
    ([useRef]), and what the effect has told its owner so far.
    [taskProgress] is the value the last [setTaskProgress] asked for;
    [taskProgressRef] changes only when React commits. *)
Record State : Type := {
  conn : Conn;
  taskProgress : JSValue;
  taskProgressRef : JSValue;           (* taskProgressRef.current *)
  notices : list Notice
}.

Definition on_conn (f : Conn → Conn) (st : State) : State :=
  {| conn := f (conn st); taskProgress := taskProgress st;
     taskProgressRef := taskProgressRef st; notices := notices st |}.

Definition setTaskProgress (v : JSValue) (st : State) : State :=
  {| conn := conn st; taskProgress := v; taskProgressRef := taskProgressRef st;
     notices := notices st ++ [Set_taskProgress v] |}.

Definition refetchActiveTask (st : State) : State :=
  {| conn := conn st; taskProgress := taskProgress st;
     taskProgressRef := taskProgressRef st;
     notices := notices st ++ [Refetch_activeTask] |}.

Definition invalidateQueries (queryKey : list string) (st : State) : State :=
  {| conn := conn st; taskProgress := taskProgress st;
     taskProgressRef := taskProgressRef st;
     notices := notices st ++ [Invalidate queryKey] |}.

(** [useEffect(() => { taskProgressRef.current = taskProgress }, [taskProgress])],
    run by React when it commits a render *)
Definition sync_ref (st : State) : State :=
  {| conn := conn st; taskProgress := taskProgress st;
     taskProgressRef := taskProgress st; notices := notices st |}.

Section Effect.
Context `{Coercions}.
Variable task_id : string.               (* activeTask.task_id *)
Variable status : TaskStatus.            (* activeTask.status, as the effect captured it *)

Definition connect (st : State) : State :=
  if negb (isMounted (conn st)) then st
  else
    let '(c, i) := new_WebSocket (Api.ws_url task_id) (conn st) in
    on_conn (λ _, assign_onclose i true (set_ws (Some i) c)) st.

Definition onopen (st : State) : State := st.

(** [ws.send(text)], on whatever socket [ws] names at that moment *)
Definition ws_send (text : string) : Run State unit :=
  λ st, match ws (conn st) with
        | Some i => let '(c, r) := send i text (conn st) in (on_conn (λ _, c) st, r)
        | None => (st, inl TypeError)
        end.

Definition onmessage (data : MessageData) (now : string) : Run State unit :=
  if is_ping data || is_pong data then
    (w ←! read (λ st, ws (conn st));
     if is_ping data && bool_decide (is_Some w) then ws_send "pong" else ret tt)%run
  else
    try_catch
      (message ←! eval (JSON_parse data);
       type ←! eval (get message "type");
       if is_string type "progress" then
         (payload ←! eval (get message "data");
          write (setTaskProgress payload))
       else if is_string type "status" then
         (statusData ←! eval (get message "data");
          currentProgress ←! read taskProgressRef;
          accept ←! (if negb (truthy currentProgress) then ret true
                     else (a ←! eval (get statusData "processed_papers");
                           b ←! eval (get currentProgress "processed");
                           ret (gt a b)));
          if accept : bool then
            (snapshot ←! eval (snapshot_of_status statusData now);
             write (setTaskProgress snapshot))
          else ret tt)
       else if is_string type "completed" then
         (write (setTaskProgress JNull);!
          write refetchActiveTask;!
          write (invalidateQueries ["tasks"]))
       else ret tt)%run
      (λ _, ret tt).

Definition onerror (st : State) : State := st.

Definition onclose (st : State) : State :=
  if isMounted (conn st) && is_running (Some status) then
    let '(c, t) := setTimeout 2000 (conn st) in
    on_conn (λ _, set_reconnectTimeout (Some t) c) st
  else st.

(** the function the effect returns *)
Definition cleanup (st : State) : State :=
  let c := set_isMounted false (conn st) in
  let c := match reconnectTimeout c with
           | Some t => clearTimeout t c
           | None => c
           end in
  let c := match ws c with
           | Some i => close i (assign_onclose i false c)
           | None => c
           end in
  on_conn (λ _, c) st.

Definition step (st : State) (ev : Event) : State :=
  match ev with
  | Ev_open i =>
      match state_of i (conn st) with
      | Some CONNECTING => onopen (on_conn (set_readyState i OPEN) st)
      | _ => st
      end
  | Ev_message i data now =>
      match state_of i (conn st) with
      | Some OPEN => (onmessage data now st).1
      | _ => st
      end
  | Ev_error i => onerror st
  | Ev_close i =>
      match sockets (conn st) !! i with
      | Some s =>
          match readyState s with
          | CLOSED => st
          | _ =>
              let st' := on_conn (set_readyState i CLOSED) st in
              if Browser.onclose s then onclose st' else st'
          end
      | None => st
      end
  | Ev_timeout t =>
      if is_pending t (conn st) then connect (on_conn (clearTimeout t) st) else st
  | Ev_cleanup => cleanup st
  | Ev_commit => sync_ref st
  end.

Definition run (st : State) (evs : list Event) : State := fold_left step evs st.
End Effect.

(** The component as it mounts: [useState(null)], [useRef(null)]. *)
Definition init (n : positive) : State :=
  {| conn := fresh n; taskProgress := JNull; taskProgressRef := JNull; notices := [] |}.

(** The body of the effect, for the [activeTask] of the render it belongs
    to (its [task_id] and [status], when there is one). *)
Definition effect `{Coercions} (activeTask : option (string * TaskStatus))
    (st : State) : State :=
  let st := on_conn (λ c, fresh (next_timer c)) st in
  match activeTask with
  | Some (task_id, status) =>
      if String.eqb task_id EmptyString || negb (is_running (Some status))
      then setTaskProgress JNull st
      else connect task_id st
  | None => setTaskProgress JNull st
  end.

End Analysis.

(** ** The connection, seen apart from the page

    Both pages write the same [connect], the same reconnect on close and
    the same cleanup; they differ in what they tell their owner. [Link]
    is that common part, on the connection alone; each page's [step] is
    shown below to move its connection exactly as [Link.step] does. *)

Module Link.

Section Link.
Variable task : string.
Variable task_running : bool.            (* the captured status is 'running' *)

Definition connect (c : Conn) : Conn :=
  if negb (isMounted c) then c
  else
    let '(c', i) := new_WebSocket (Api.ws_url task) c in
    assign_onclose i true (set_ws (Some i) c').

Definition pong (c : Conn) : Conn :=
  match ws c with
  | Some i => (send i "pong" c).1
  | None => c
  end.

Definition onclose (c : Conn) : Conn :=
  if isMounted c && task_running then
    let '(c', t) := setTimeout 2000 c in
    set_reconnectTimeout (Some t) c'
  else c.

Definition cleanup (c : Conn) : Conn :=
  let c := set_isMounted false c in
  let c := match reconnectTimeout c with
           | Some t => clearTimeout t c
           | None => c
           end in
  match ws c with
  | Some i => close i (assign_onclose i false c)
  | None => c
  end.

Definition step (c : Conn) (ev : Event) : Conn :=
  match ev with
  | Ev_open i =>
      match state_of i c with
      | Some CONNECTING => set_readyState i OPEN c
      | _ => c
      end
  | Ev_message i data _ =>
      match state_of i c with
      | Some OPEN => if is_ping data then pong c else c
      | _ => c
      end
  | Ev_error _ => c
  | Ev_close i =>
      match sockets c !! i with
      | Some s =>
          match readyState s with
          | CLOSED => c
          | _ =>
              let c' := set_readyState i CLOSED c in
              if Browser.onclose s then onclose c' else c'
          end
      | None => c
      end
  | Ev_timeout t =>
      if is_pending t c then connect (clearTimeout t c) else c
  | Ev_cleanup => cleanup c
  | Ev_commit => c
  end.

Definition run (c : Conn) (evs : list Event) : Conn := fold_left step evs c.
End Link.

Definition live (s : WebSocket) : Prop := readyState s ≠ CLOSED.

(** What holds of the connection from [connect] on, whatever arrives:
    - only the socket [ws] names can be other than CLOSED;
    - at most one timeout is pending, it is the one [reconnectTimeout]
      holds, it was set for 2000 ms, and while it is pending every socket
      is CLOSED and the effect is mounted;
    - while the effect is mounted, every socket still has its [onclose];
    - every socket points at the task's address. *)
Record Steady (task : string) (c : Conn) : Prop := {
  steady_live : ∀ i s, sockets c !! i = Some s → live s → ws c = Some i;
  steady_timer :
    timers c = [] ∨
    ∃ t, timers c = [(t, 2000)] ∧ reconnectTimeout c = Some t ∧
         Forall (λ s, readyState s = CLOSED) (sockets c) ∧ isMounted c = true;
  steady_handlers :
    isMounted c = true → Forall (λ s, Browser.onclose s = true) (sockets c);
  steady_url : Forall (λ s, url s = Api.ws_url task) (sockets c)
}.

(** Said of the connection before and after an event: a close that
    schedules exactly one reconnect, two seconds out; a close that schedules
    nothing; the reconnect itself, one new socket for the same task. *)
Definition one_reconnect_scheduled (before after : Conn) : Prop :=
  timers after = [(next_timer before, 2000)] ∧
  reconnectTimeout after = Some (next_timer before) ∧
  length (sockets after) = length (sockets before).

Definition nothing_scheduled (before after : Conn) : Prop :=
  timers after = timers before ∧
  next_timer after = next_timer before ∧
  length (sockets after) = length (sockets before).

Definition reconnected (task : string) (before after : Conn) : Prop :=
  timers after = [] ∧
  sockets after =
    (sockets before ++ [{| url := Api.ws_url task; readyState := CONNECTING;
                           Browser.onclose := true |}])%list ∧
  ws after = Some (length (sockets before)).

(** After the cleanup: unmounted, nothing pending. *)
Definition Stopped (c : Conn) : Prop := isMounted c = false ∧ timers c = [].

(** [k] rounds of "the socket drops, two seconds pass": the events that
    close socket [j] and then fire the timeout set for it, for [j] from
    [first] on; [t] is the id the first timeout gets. *)
Fixpoint drops (k : nat) (first : nat) (t : positive) : list Event :=
  match k with
  | O => []
  | S k' => Ev_close first :: Ev_timeout t :: drops k' (S first) (Pos.succ t)
  end.

End Link.

(** ** Sample data, used where a statement is run on a concrete input *)

Module Samples.

(** One choice of the language's conversions, right on objects: one that
    has a [toString] of its own cannot be converted to a string (in a parsed
    JSON text it is never a function), any other reads "[object Object]".
    The samples below reach no other case. *)
Definition sample_coercions : Coercions :=
  {| coerced_string := λ v,
       match v with
       | JObj fields =>
           match assoc "toString" fields with
           | Some _ => inl TypeError
           | None => inr "[object Object]"
           end
       | _ => inr "[object Object]"
       end;
     coerced_gt := λ _ _, false |}.

Definition envelope (type : string) (data : JSValue) : JSValue :=
  JObj [("type", JStr type); ("data", data)].

(** a [TaskProgress] that has processed [n] papers *)
Definition progress_payload (n : Z) : JSValue :=
  JObj [("task_id", JStr "t1"); ("stage", JStr "parsing"); ("progress", JNum 50);
        ("message", JStr "Parsing"); ("processed", JNum n); ("total", JNum 10);
        ("timestamp", JStr "2024-01-01T00:00:00Z")].

(** a [TaskStatusResponse] that has processed [n] papers *)
Definition status_payload (n : Z) : JSValue :=
  JObj [("task_id", JStr "t1"); ("status", JStr "running"); ("stage", JStr "parsing");
        ("progress", JNum 40); ("total_papers", JNum 10); ("processed_papers", JNum n);
        ("current_paper_title", JStr "A paper")].

(** what the clock reads when a frame arrives *)
Definition noon : string := "2024-01-01T12:00:00Z".

Definition progress_frame (n : Z) : MessageData :=
  Text_JSON (envelope "progress" (progress_payload n)).

Definition status_frame (n : Z) : MessageData :=
  Text_JSON (envelope "status" (status_payload n)).

Definition completed_frame : MessageData :=
  Text_JSON (envelope "completed" (JStr "Task completed")).

Definition error_frame : MessageData :=
  Text_JSON (envelope "error" (JStr "Task failed")).

(** the backend unreachable at every attempt *)
Definition always_down : Api.Network := λ _, Api.Rejected TypeError.

(** the backend unreachable twice, then answering *)
Definition up_at_third : Api.Network :=
  λ k, match k with
       | 0%nat | 1%nat => Api.Rejected TypeError
       | _ => Api.Fulfilled {| Api.ok := true; Api.status := 200;
                               Api.json := inr (JObj [("status", JStr "healthy")]) |}
       end.


(** a 500 whose body is the JSON text [null] *)
Definition null_body : Api.Response :=
  {| Api.ok := false; Api.status := 500; Api.json := inr JNull |}.

(** a 422 whose [detail] is an object that cannot be converted to a string *)
Definition unreadable_detail : Api.Response :=
  {| Api.ok := false; Api.status := 422;
     Api.json := inr (JObj [("detail", JObj [("toString", JNum 1)])]) |}.

(** a "progress" message that has no [data] *)
Definition bare_progress : JSValue := JObj [("type", JStr "progress")].

(** a "status" message for [n] papers whose title is an object that cannot
    be converted to a string *)
Definition unreadable_title (n : Z) : MessageData :=
  Text_JSON (envelope "status"
    (JObj [("task_id", JStr "t1"); ("processed_papers", JNum n);
           ("current_paper_title", JObj [("toString", JNum 1)])])).

(** a 409 from the backend, with its [detail] *)
Definition conflict : Api.Response :=
  {| Api.ok := false; Api.status := 409;
     Api.json := inr (JObj [("detail", JStr "A task is already running")]) |}.

(** the two pages, for task "t1" while it runs, with the sample conversions *)
Definition td_start : TaskDetail.State :=
  @TaskDetail.effect sample_coercions (Some "t1") (Some running) (TaskDetail.init 1).

Definition td_run (st : TaskDetail.State) (evs : list Event) : TaskDetail.State :=
  @TaskDetail.run sample_coercions "t1" (Some running) st evs.

Definition an_start : Analysis.State :=
  @Analysis.effect sample_coercions (Some ("t1", running)) (Analysis.init 1).

Definition an_run (st : Analysis.State) (evs : list Event) : Analysis.State :=
  @Analysis.run sample_coercions "t1" running st evs.

End Samples.


(** ** Two sentences of the specification, as it words them

    Kept apart from the code's own definitions: these say what the
    specification promises, so that the code can be held against them. *)

Module AsStated.

(** "retry once on a transient network-level failure with a fixed 1-second
    delay before propagating the error": with the first attempt and the
    retry both failing, the call is over after two requests. *)
Definition retries_once `{Coercions} (c : Api.ApiCall) (net : Api.Network) : Prop :=
  net 0%nat = Api.Rejected TypeError → net 1%nat = Api.Rejected TypeError →
  ∃ request, Api.call c net = (inl TypeError, [request; Api.Sleep 1000; request]).



End AsStated.

(** ** Runs of the effects, told apart by what they contain *)

(** The processed count a frame carries when it is a "status" message
    that has one and a snapshot can be built from it: the title it carries,
    if any, can be converted to a string. *)
Definition status_count `{Coercions} (d : MessageData) : option Z :=
  match d with
  | Text_JSON message =>
      match get message "type", get message "data" with
      | inr type, inr statusData =>
          if is_string type "status" then
            match get statusData "processed_papers",
                  get statusData "current_paper_title" with
            | inr (JNum n), inr title =>
                match to_string (or title (JStr "...")) with
                | inr _ => Some n
                | inl _ => None
                end
            | _, _ => None
            end
          else None
      | _, _ => None
      end
  | _ => None
  end.

(** Frames arriving on socket [i] back to back, with no render in between. *)
Definition back_to_back (i : nat) (now : string) (frames : list MessageData) : list Event :=
  (λ d, Ev_message i d now) <$> frames.

Definition is_ping_event (ev : Event) : bool :=
  match ev with Ev_message _ d _ => is_ping d | _ => false end.

Definition is_timeout_event (ev : Event) : bool :=
  match ev with Ev_timeout _ => true | _ => false end.

Definition is_cleanup_event (ev : Event) : bool :=
  match ev with Ev_cleanup => true | _ => false end.

Fixpoint count {A : Type} (p : A → bool) (l : list A) : nat :=
  match l with
  | [] => 0%nat
  | x :: rest => ((if p x then 1 else 0) + count p rest)%nat
  end.

(** A connection nothing can come out of: no timeout pending, and every
    socket closed, or closing with its [onclose] removed. *)
Definition Silent (c : Conn) : Prop :=
  timers c = [] ∧
  Forall (λ s, readyState s = CLOSED ∨
               (readyState s = CLOSING ∧ Browser.onclose s = false)) (sockets c).

(** A connection that is being kept up: mounted, and either the socket
    [ws] names is not closed or a timeout is pending. *)
Definition Kept (c : Conn) : Prop :=
  isMounted c = true ∧
  ((∃ i s, ws c = Some i ∧ sockets c !! i = Some s ∧ readyState s ≠ CLOSED) ∨
   timers c ≠ []).

(** The socket [ws] names is open. *)
Definition current_open (c : Conn) : Prop :=
  ∃ i, ws c = Some i ∧ state_of i c = Some OPEN.

(** ** lib/utils.ts: [truncate], and the chart rows of pages/TaskDetail.tsx

    A string is the sequence of its code units; [length] and the indices of
    [slice] are integers. *)

Module Utils.

(** An index of [slice], brought into [0 .. len]: counted from the end
    when negative. *)
Definition relative_index (len i : Z) : Z :=
  if i <? 0 then Z.max (len + i) 0 else Z.min i len.

(** [str.slice(start, end)], [str.slice(start)] *)
Definition slice (str : string) (start : Z) (end_ : option Z) : string :=
  let len := Z.of_nat (String.length str) in
  let from := relative_index len start in
  let to := relative_index len (default len end_) in
  String.substring (Z.to_nat from) (Z.to_nat (Z.max (to - from) 0)) str.

Definition truncate (str : string) (length : Z) : string :=
  if Z.of_nat (String.length str) <=? length then str
  else slice str 0 (Some length) +:+ "...".

(** [str.charAt(0)] *)
Definition charAt_0 (str : string) : string :=
  match str with
  | EmptyString => EmptyString
  | String a _ => String a EmptyString
  end.

(** [str.replace(pattern, replacement)] for a pattern of one code unit and
    a replacement without [$]: the first occurrence only. *)
Fixpoint replace (pattern : Ascii.ascii) (replacement : string) (str : string) : string :=
  match str with
  | EmptyString => EmptyString
  | String a rest =>
      if Ascii.eqb a pattern then replacement +:+ rest
      else String a (replace pattern replacement rest)
  end.

(** [str.includes(searchString)] *)
Fixpoint includes (str searchString : string) : bool :=
  String.prefix searchString str ||
  match str with
  | EmptyString => false
  | String _ rest => includes rest searchString
  end.

Fixpoint occurrences (a : Ascii.ascii) (str : string) : nat :=
  match str with
  | EmptyString => 0%nat
  | String b rest => ((if Ascii.eqb b a then 1 else 0) + occurrences a rest)%nat
  end.

End Utils.

Module Charts.
Import Stdlib.Strings.Ascii.

(** [OrganizationStats], the fields the page reads *)
Record OrganizationStats : Type := {
  name : string;
  author_count : Z
}.

(** a row of the organizations chart *)
Record Row : Type := {
  row_name : string;                   (* name *)
  value : Z;
  fullName : string
}.

(** [analytics?.top_organizations.slice(0, 10).map(org => ..) || []], for
    the [top_organizations] of the analytics when there are any *)
Definition topOrgsData (top_organizations : option (list OrganizationStats)) : list Row :=
  match top_organizations with
  | Some orgs =>
      (λ org, {| row_name := Utils.truncate (name org) 20;
                 value := author_count org;
                 fullName := name org |}) <$> take 10 orgs
  | None => []
  end.

(** The name of an organization type in the chart:
    [org_type.charAt(0).toUpperCase() + org_type.slice(1).replace('_', ' ')].
    [toUpperCase] is the language's. *)
Definition org_type_label (toUpperCase : string → string) (org_type : string) : string :=
  toUpperCase (Utils.charAt_0 org_type) +:+
  Utils.replace "_"%char " " (Utils.slice org_type 1 None).

End Charts.

(** ** store/index.ts: [useThemeStore], and the effect of Layout.tsx that
    initializes it *)

Module Theme.

(** The store's [theme], the [theme] item of [localStorage], and whether
    the document element has the class [dark]. *)
Record Page : Type := {
  theme : string;
  stored : option string;
  dark : bool
}.

(** The store as [create] builds it, in a browser window:
    [localStorage.getItem('theme') || 'dark']. *)
Definition create (saved : option string) (dark_class : bool) : Page :=
  {| theme := match saved with
              | Some s => if String.eqb s EmptyString then "dark" else s
              | None => "dark"
              end;
     stored := saved;
     dark := dark_class |}.

Definition toggleTheme (p : Page) : Page :=
  let newTheme := if String.eqb (theme p) "light" then "dark" else "light" in
  {| theme := newTheme; stored := Some newTheme; dark := String.eqb newTheme "dark" |}.

Definition setTheme (t : string) (p : Page) : Page :=
  {| theme := t; stored := Some t; dark := String.eqb t "dark" |}.

(** Layout's effect on mount; [prefers_dark] is what
    [matchMedia('(prefers-color-scheme: dark)').matches] gives. *)
Definition initialize (prefers_dark : bool) (p : Page) : Page :=
  match stored p with
  | Some savedTheme =>
      if negb (String.eqb savedTheme EmptyString) then setTheme savedTheme p
      else if prefers_dark then setTheme "dark" p
      else p
  | None => if prefers_dark then setTheme "dark" p else p
  end.

(** A page load: the store is created from what is stored, then Layout
    mounts. *)
Definition load (saved : option string) (dark_class prefers_dark : bool) : Page :=
  initialize prefers_dark (create saved dark_class).

End Theme.

(** ** pages/Analysis.tsx: what the form's mutation does with a failure *)

Module Submit.

(** What the handlers do to the page. *)
Inductive Told : Type :=
| Toast (destructive : bool) (title description : string)
| RefetchActiveTask.

Section Mutation.
Context `{Coercions}.
(** the message the browser gives an error of its own *)
Variable native_message : Exn → string.

(** [error.message] *)
Definition message (error : Exn) : string :=
  match error with
  | Error m => m
  | _ => native_message error
  end.

Definition onError (error : Exn) : list Told :=
  if Utils.includes (message error) "already running" then
    [Toast true "Task Already Running" "Please wait for the current task to complete";
     RefetchActiveTask]
  else [Toast true "Error" (message error)].

(** [mutation.mutate(formData)] where the mutation function,
    [startAnalysis], is called once and rejects: the requests that call
    made, and what [onError] does with its error. [None] when the call is
    fulfilled. *)
Definition failed_submit (request_json : string) (net : Api.Network)
    : option (list Told * list Api.IO) :=
  match Api.call (Api.startAnalysis request_json) net with
  | (inl error, io) => Some (onError error, io)
  | (inr _, _) => None
  end.
End Mutation.

End Submit.

Module MoreSamples.

(** a 409 whose body a proxy has replaced by a page that is not JSON *)
Definition conflict_without_body : Api.Response :=
  {| Api.ok := false; Api.status := 409; Api.json := inl SyntaxError |}.

(** a response that is [ok] with a body that is not JSON *)
Definition ok_without_body : Api.Response :=
  {| Api.ok := true; Api.status := 200; Api.json := inl SyntaxError |}.

(** a "status" message that has no [data] *)
Definition bare_status : JSValue := JObj [("type", JStr "status")].

(** the backend unreachable once, then answering 200 with a body that is
    not JSON *)
Definition down_then_unreadable : Api.Network :=
  λ k, match k with
       | 0%nat => Api.Rejected TypeError
       | _ => Api.Fulfilled ok_without_body
       end.

(** [toUpperCase] on the letters a to z *)
Definition upper_unit (a : Ascii.ascii) : Ascii.ascii :=
  let n := Ascii.nat_of_ascii a in
  if (97 <=? n)%nat && (n <=? 122)%nat then Ascii.ascii_of_nat (n - 32) else a.

Fixpoint ascii_upper (s : string) : string :=
  match s with
  | EmptyString => EmptyString
  | String a rest => String (upper_unit a) (ascii_upper rest)
  end.

Definition sample_orgs : list Charts.OrganizationStats :=
  [{| Charts.name := "MIT"; Charts.author_count := 12 |};
   {| Charts.name := "Massachusetts Institute of Technology"; Charts.author_count := 7 |}].

(** the browser's messages, as one browser words them *)
Definition sample_native_message (e : Exn) : string :=
  match e with
  | TypeError => "Failed to fetch"
  | _ => "error"
  end.

End MoreSamples.

(** * Properties *)

(** ** [fetchApi] *)

Section ApiFacts.
Context `{Coercions}.
Import Api.

(** The loop, for any [retries] that is not negative: it makes [k] retries
    for some [k ≤ retries], a second apart, each after an attempt that ended
    in a TypeError, and the call ends as attempt [k] ends. The [throw] after
    the loop is not reached. *)
Lemma for_loop_runs fuel url init retries net attempt :
  Z.of_nat attempt ≤ retries →
  (Z.to_nat (retries - Z.of_nat attempt) < fuel)%nat →
  ∃ k : nat,
    for_loop fuel url init retries net attempt =
      (ends (net (attempt + k)%nat), trace_of (Fetch url init) k) ∧
    Z.of_nat (attempt + k) ≤ retries ∧
    (∀ j, (j < k)%nat → asks_retry (net (attempt + j)%nat) = true) ∧
    (Z.of_nat (attempt + k) < retries → asks_retry (net (attempt + k)%nat) = false).
Proof.
  revert attempt. induction fuel as [|fuel IH]; intros attempt Hle Hfuel; [lia|].
  cbn [for_loop]. rewrite (proj2 (Z.leb_le _ _) Hle).
  unfold ends, asks_retry in *.
  destruct (try_block (net attempt)) as [result|error] eqn:Htry.
  { exists 0%nat. rewrite Nat.add_0_r, Htry. split_and!; [done | lia | intros; lia | done]. }
  destruct ((Z.of_nat attempt <? retries) && instanceof_TypeError error) eqn:Hgo.
  - apply andb_prop in Hgo as [Hlt Hty]. apply Z.ltb_lt in Hlt.
    destruct (IH (S attempt)) as (k & Hrun & Hk & Hbefore & Hlast); [lia | lia |].
    exists (S k). rewrite Hrun. replace (attempt + S k)%nat with (S attempt + k)%nat by lia.
    split_and!; [done | done | | done].
    intros [|j] Hj.
    + by rewrite Nat.add_0_r, Htry.
    + replace (attempt + S j)%nat with (S attempt + j)%nat by lia. apply Hbefore. lia.
  - exists 0%nat. rewrite Nat.add_0_r, Htry. split_and!; [done | lia | intros; lia |].
    intros Hlt. apply Z.ltb_lt in Hlt. rewrite Hlt in Hgo. done.
Qed.

(** [fetchApi] gives its loop enough fuel. *)
Lemma fetchApi_runs endpoint options retries net :
  0 ≤ retries →
  ∃ k : nat,
    fetchApi endpoint options (Some retries) net =
      (ends (net k), trace_of (Fetch (API_BASE +:+ endpoint) (with_json_header options)) k) ∧
    Z.of_nat k ≤ retries ∧
    (∀ j, (j < k)%nat → asks_retry (net j) = true) ∧
    (Z.of_nat k < retries → asks_retry (net k) = false).
Proof.
  intros Hretries. unfold fetchApi. simpl.
  destruct (for_loop_runs (Z.to_nat (retries + 1)) (API_BASE +:+ endpoint)
              (with_json_header options) retries net 0%nat) as (k & Hrun & Hk & Hbefore & Hlast);
    [lia | lia |].
  exists k. by rewrite Hrun.
Qed.

(** The same for the default, [retries = 2], written out. *)
Lemma for_loop_default url init net :
  for_loop 3 url init 2 net 0%nat =
    let request := Fetch url init in
    if asks_retry (net 0%nat) then
      if asks_retry (net 1%nat) then
        (ends (net 2%nat), [request; Sleep 1000; request; Sleep 1000; request])
      else (ends (net 1%nat), [request; Sleep 1000; request])
    else (ends (net 0%nat), [request]).
Proof.
  unfold asks_retry, ends. cbn [for_loop].
  change (Z.of_nat 0 <=? 2) with true. change (Z.of_nat 0 <? 2) with true.
  change (Z.of_nat 1 <=? 2) with true. change (Z.of_nat 1 <? 2) with true.
  change (Z.of_nat 2 <=? 2) with true. change (Z.of_nat 2 <? 2) with false.
  cbv iota. cbn [andb].
  destruct (try_block (net 0%nat)) as [r0|e0]; [done|].
  destruct (instanceof_TypeError e0); [|done].
  destruct (try_block (net 1%nat)) as [r1|e1]; [done|].
  destruct (instanceof_TypeError e1); [|done].
  by destruct (try_block (net 2%nat)) as [r2|e2].
Qed.

(** Every exported call is [fetchApi] with [retries] left to its default;
    [deleteTask] and [cancelTask] drop the value it gives. *)
Lemma call_is_fetchApi c :
  ∃ endpoint options, ∀ net,
    call c net =
      (given c (fetchApi endpoint options None net).1,
       (fetchApi endpoint options None net).2).
Proof.
  destruct c; eexists _, _; intros net; unfold call, awaited; cbn [given];
    match goal with |- context [fetchApi ?e ?o None net] =>
      by destruct (fetchApi e o None net) as [[?|?] ?] end.
Qed.

Lemma call_default c :
  ∃ request, (∃ url init, request = Fetch url init) ∧ ∀ net,
    call c net =
      if asks_retry (net 0%nat) then
        if asks_retry (net 1%nat) then
          (given c (ends (net 2%nat)),
           [request; Sleep 1000; request; Sleep 1000; request])
        else (given c (ends (net 1%nat)), [request; Sleep 1000; request])
      else (given c (ends (net 0%nat)), [request]).
Proof.
  destruct (call_is_fetchApi c) as (endpoint & options & Hcall).
  exists (Fetch (API_BASE +:+ endpoint) (with_json_header options)).
  split; [by eexists _, _|]. intros net. rewrite Hcall.
  unfold fetchApi. cbn [default]. change (Z.to_nat (2 + 1)) with 3%nat.
  rewrite for_loop_default. cbv zeta.
  by destruct (asks_retry (net 0%nat)), (asks_retry (net 1%nat)).
Qed.

(** An error is the caller's as it is, whatever the call. *)
Lemma given_error c e : given c (inl e) = inl e.
Proof. by destruct c. Qed.

Lemma asks_retry_network_failure : asks_retry (Rejected TypeError) = true.
Proof. done. Qed.

Lemma ends_rejected e : ends (Rejected e) = inl e.
Proof. done. Qed.

(** A response that is not [ok] ends the attempt in the error built from
    it, or in what building it threw. *)
Lemma try_block_not_ok response :
  ok response = false → try_block (Fulfilled response) = Caught (thrown response).
Proof.
  intros Hok. unfold try_block, thrown, error_message. rewrite Hok. simpl.
  destruct (json response) as [e|body]; simpl; [done|].
  destruct (get body "detail") as [e|detail]; [done|].
  unfold or. destruct (truthy detail); [|done].
  by destruct (to_string detail).
Qed.

End ApiFacts.

(** ** The connection *)

Section LinkFacts.
Variable task : string.
Variable task_running : bool.


Lemma state_of_set_readyState i j r c :
  state_of j (set_readyState i r c) =
    if decide (i = j) then (λ _, r) <$> state_of j c else state_of j c.
Proof.
  unfold state_of, set_readyState. simpl.
  destruct (decide (i = j)) as [->|Hne].
  - rewrite list_lookup_alter_eq. by destruct (sockets c !! j).
  - by rewrite list_lookup_alter_ne.
Qed.

Lemma filter_timer_idem t (l : list (positive * Z)) :
  filter (λ p, p.1 ≠ t) (filter (λ p, p.1 ≠ t) l) = filter (λ p, p.1 ≠ t) l.
Proof. rewrite list_filter_filter. apply list_filter_iff. intros p. tauto. Qed.

Lemma cleanup_idempotent c : Link.cleanup (Link.cleanup c) = Link.cleanup c.
Proof.
  destruct c as [socks tms nxt snt w rt mnt].
  unfold Link.cleanup. simpl.
  destruct rt as [t|], w as [i|]; simpl; try done.
  - unfold close, state_of, assign_onclose, clearTimeout. simpl.
    rewrite list_lookup_alter_eq.
    destruct (socks !! i) as [[u [] oc]|] eqn:Hi; simpl.
    all: unfold set_readyState, set_sockets, set_timers; simpl.
    all: rewrite ?list_lookup_alter_eq, ?Hi; simpl.
    all: rewrite ?filter_timer_idem; try done.
    all: f_equal.
    all: apply list_eq; intros j; destruct (decide (i = j)) as [<-|];
      rewrite ?list_lookup_alter_eq, ?list_lookup_alter_ne, ?Hi by done; done.
  - unfold clearTimeout, set_timers; simpl. by rewrite filter_timer_idem.
  - unfold close, state_of, assign_onclose. simpl.
    rewrite list_lookup_alter_eq.
    destruct (socks !! i) as [[u [] oc]|] eqn:Hi; simpl.
    all: unfold set_readyState, set_sockets, set_timers; simpl.
    all: rewrite ?list_lookup_alter_eq, ?Hi; simpl; try done.
    all: f_equal.
    all: apply list_eq; intros j; destruct (decide (i = j)) as [<-|];
      rewrite ?list_lookup_alter_eq, ?list_lookup_alter_ne, ?Hi by done; done.
Qed.

Lemma connect_mounted c :
  isMounted c = true →
  Link.connect task c =
    set_ws (Some (length (sockets c)))
      (set_sockets (sockets c ++ [{| url := Api.ws_url task; readyState := CONNECTING;
                                      onclose := true |}]) c).
Proof.
  intros Hm. unfold Link.connect, new_WebSocket, assign_onclose. rewrite Hm. simpl.
  unfold set_ws, set_sockets. simpl. f_equal.
  replace (length (sockets c)) with (length (sockets c) + 0)%nat by lia.
  by rewrite alter_app_r.
Qed.

Lemma connect_unmounted c : isMounted c = false → Link.connect task c = c.
Proof. intros Hm. unfold Link.connect. by rewrite Hm. Qed.

Lemma steady_fresh n : Link.Steady task (fresh n).
Proof. split; simpl; [done | by left | by constructor | by constructor]. Qed.

(** Established: the first [connect], on the variables as declared. *)
Lemma steady_start n : Link.Steady task (Link.connect task (fresh n)).
Proof.
  rewrite connect_mounted by done. split; simpl.
  - intros [|i] s Hs _; simpl in Hs; [done|]. by destruct i.
  - by left.
  - intros _. by repeat constructor.
  - by repeat constructor.
Qed.

Lemma steady_connect c :
  Link.Steady task c → isMounted c = true → timers c = [] →
  Forall (λ s, readyState s = CLOSED) (sockets c) →
  Link.Steady task (Link.connect task c).
Proof.
  intros [Hlive Htimer Hhand Hurl] Hm Ht Hclosed.
  rewrite connect_mounted by done. split; simpl.
  - intros i s Hs Hl. apply lookup_app_Some in Hs as [Hs|[Hge Hs]].
    + exfalso. apply Hl. by eapply (Forall_lookup_1 _ _ _ _ Hclosed).
    + f_equal. apply list_lookup_singleton_Some in Hs as [Hi _]. lia.
  - by left.
  - intros _. apply Forall_app. split; [by apply Hhand | by repeat constructor].
  - apply Forall_app. split; [done | by repeat constructor].
Qed.

Lemma lookup_set_readyState i j r c s' :
  sockets (set_readyState i r c) !! j = Some s' →
  ∃ s, sockets c !! j = Some s ∧ url s' = url s ∧ Browser.onclose s' = Browser.onclose s ∧
       (if decide (i = j) then readyState s' = r else s' = s).
Proof.
  unfold set_readyState. simpl. destruct (decide (i = j)) as [->|Hne].
  - rewrite list_lookup_alter_eq. destruct (sockets c !! j) as [s|]; [|done].
    simpl. intros [= <-]. by exists s.
  - rewrite list_lookup_alter_ne by done. intros Hs. by exists s'.
Qed.

Lemma lookup_assign_onclose i j b c s' :
  sockets (assign_onclose i b c) !! j = Some s' →
  ∃ s, sockets c !! j = Some s ∧ url s' = url s ∧ readyState s' = readyState s ∧
       (if decide (i = j) then Browser.onclose s' = b else s' = s).
Proof.
  unfold assign_onclose. simpl. destruct (decide (i = j)) as [->|Hne].
  - rewrite list_lookup_alter_eq. destruct (sockets c !! j) as [s|]; [|done].
    simpl. intros [= <-]. by exists s.
  - rewrite list_lookup_alter_ne by done. intros Hs. by exists s'.
Qed.

(** Moving a live socket on (to any state) keeps the connection steady,
    and nothing can be pending while a socket is live. *)
Lemma steady_no_timer_while_live c i s :
  Link.Steady task c → sockets c !! i = Some s → Link.live s → timers c = [].
Proof.
  intros [_ [Ht|(t & _ & _ & Hclosed & _)] _ _] Hs Hl; [done|].
  exfalso. apply Hl. by eapply (Forall_lookup_1 _ _ _ _ Hclosed).
Qed.

Lemma steady_set_readyState c i s r :
  Link.Steady task c → sockets c !! i = Some s → Link.live s →
  Link.Steady task (set_readyState i r c).
Proof.
  intros HS Hs Hl. pose proof (steady_no_timer_while_live c i s HS Hs Hl) as Ht.
  destruct HS as [Hlive _ Hhand Hurl]. split.
  - intros j s' Hs' Hl'. apply lookup_set_readyState in Hs' as (s0 & Hs0 & _ & _ & Hcase).
    destruct (decide (i = j)) as [<-|Hne]; [exact (Hlive _ _ Hs Hl)|].
    subst s'. exact (Hlive _ _ Hs0 Hl').
  - by left.
  - intros Hm. apply Forall_lookup. intros j s' Hs'.
    apply lookup_set_readyState in Hs' as (s0 & Hs0 & _ & -> & _).
    eapply (Forall_lookup_1 _ _ _ _ (Hhand Hm)); eauto.
  - apply Forall_lookup. intros j s' Hs'.
    apply lookup_set_readyState in Hs' as (s0 & Hs0 & -> & _ & _).
    eapply (Forall_lookup_1 _ _ _ _ Hurl); eauto.
Qed.

(** Once the one live socket has closed, all are closed. *)
Lemma all_closed_after_close c i s :
  Link.Steady task c → sockets c !! i = Some s → Link.live s →
  Forall (λ s, readyState s = CLOSED) (sockets (set_readyState i CLOSED c)).
Proof.
  intros [Hlive _ _ _] Hs Hl. apply Forall_lookup. intros j s' Hs'.
  apply lookup_set_readyState in Hs' as (s0 & Hs0 & _ & _ & Hcase).
  destruct (decide (i = j)) as [<-|Hne]; [done|]. subst s'.
  destruct (decide (readyState s0 = CLOSED)) as [|Hl0]; [done|].
  pose proof (Hlive _ _ Hs Hl) as Hi. pose proof (Hlive _ _ Hs0 Hl0) as Hj. congruence.
Qed.

Lemma steady_onclose c :
  Link.Steady task c → timers c = [] →
  Forall (λ s, readyState s = CLOSED) (sockets c) →
  Link.Steady task (Link.onclose task_running c).
Proof.
  intros HS Ht Hclosed. unfold Link.onclose.
  destruct (isMounted c && task_running) eqn:Hgo; [|done].
  destruct HS as [Hlive _ Hhand Hurl].
  apply andb_prop in Hgo as [Hm _]. split; simpl; try done.
  right. exists (next_timer c). by rewrite Ht.
Qed.

Lemma timers_cleared c :
  Link.Steady task c →
  timers (match reconnectTimeout c with
          | Some t => clearTimeout t (set_isMounted false c)
          | None => set_isMounted false c
          end) = [].
Proof.
  intros [_ [Ht|(t & Ht & -> & _)] _ _]; simpl.
  - destruct (reconnectTimeout c); simpl; by rewrite Ht.
  - rewrite Ht. simpl. rewrite filter_cons, decide_False; [done|]. simpl. tauto.
Qed.

Lemma steady_detach_close c i :
  Link.Steady task c → timers c = [] → isMounted c = false →
  Link.Steady task (close i (assign_onclose i false c)).
Proof.
  intros [Hlive _ _ Hurl] Ht Hm.
  assert (HS : Link.Steady task (assign_onclose i false c)).
  { split; simpl.
    - intros j s' Hs' Hl'. apply lookup_assign_onclose in Hs' as (s0 & Hs0 & _ & Hr & _).
      apply (Hlive j s0 Hs0). unfold Link.live in *. congruence.
    - by left.
    - by rewrite Hm.
    - apply Forall_lookup. intros j s' Hs'.
      apply lookup_assign_onclose in Hs' as (s0 & Hs0 & -> & _ & _).
      eapply (Forall_lookup_1 _ _ _ _ Hurl); eauto. }
  unfold close, state_of.
  destruct (sockets (assign_onclose i false c) !! i) as [s|] eqn:Hs; simpl; [|done].
  destruct (readyState s) eqn:Hr; try done.
  all: eapply steady_set_readyState; eauto; unfold Link.live; congruence.
Qed.

Lemma steady_cleanup c : Link.Steady task c → Link.Steady task (Link.cleanup c).
Proof.
  intros HS. pose proof (timers_cleared c HS) as Ht.
  unfold Link.cleanup. simpl.
  set (c2 := match reconnectTimeout c with
             | Some t => clearTimeout t (set_isMounted false c)
             | None => set_isMounted false c
             end) in *.
  assert (Hs2 : sockets c2 = sockets c) by (subst c2; by destruct (reconnectTimeout c)).
  assert (Hw2 : ws c2 = ws c) by (subst c2; by destruct (reconnectTimeout c)).
  assert (Hm2 : isMounted c2 = false) by (subst c2; by destruct (reconnectTimeout c)).
  assert (HS2 : Link.Steady task c2).
  { destruct HS as [Hlive _ _ Hurl]. split; rewrite ?Hs2, ?Hw2, ?Hm2; try done. by left. }
  destruct (ws c2) as [i|]; [|done]. by apply steady_detach_close.
Qed.

Lemma stopped_cleanup c : Link.Steady task c → Link.Stopped (Link.cleanup c).
Proof.
  intros HS. pose proof (timers_cleared c HS) as Ht.
  unfold Link.cleanup, Link.Stopped. simpl.
  set (c2 := match reconnectTimeout c with
             | Some t => clearTimeout t (set_isMounted false c)
             | None => set_isMounted false c
             end) in *.
  assert (Hm2 : isMounted c2 = false) by (subst c2; by destruct (reconnectTimeout c)).
  destruct (ws c2) as [i|]; [|done].
  unfold close. by destruct (state_of i (assign_onclose i false c2)) as [[]|].
Qed.

(** Preserved: every event keeps the connection steady. *)
Lemma steady_step c ev : Link.Steady task c → Link.Steady task (Link.step task task_running c ev).
Proof.
  intros HS. destruct ev as [i|i data now|i|i|t| |]; simpl; try done.
  - unfold state_of. destruct (sockets c !! i) as [s|] eqn:Hs; simpl; [|done].
    destruct (readyState s) eqn:Hr; try done.
    eapply steady_set_readyState; eauto. unfold Link.live. congruence.
  - destruct (state_of i c) as [[]|]; try done.
    destruct (is_ping data); [|done]. unfold Link.pong.
    destruct (ws c) as [j|]; [|done]. unfold send.
    destruct (state_of j c) as [[]|]; simpl; try done.
    destruct HS. by split.
  - destruct (sockets c !! i) as [s|] eqn:Hs; [|done].
    destruct (decide (readyState s = CLOSED)) as [Hr|Hl]; [by rewrite Hr|].
    assert (Link.Steady task
      (let c' := set_readyState i CLOSED c in
       if Browser.onclose s then Link.onclose task_running c' else c')) as Hgoal.
    { simpl. pose proof (steady_set_readyState c i s CLOSED HS Hs Hl) as HS'.
      destruct (Browser.onclose s); [|done].
      apply steady_onclose; [done|..].
      - simpl. by eapply steady_no_timer_while_live.
      - by eapply all_closed_after_close. }
    by destruct (readyState s).
  - unfold is_pending. case_bool_decide as Hp; [|done].
    destruct HS as [Hlive [Ht|(t' & Ht & Hrt & Hclosed & Hm)] Hhand Hurl].
    { rewrite Ht in Hp. simpl in Hp. by apply elem_of_nil in Hp. }
    rewrite Ht in Hp. simpl in Hp. apply list_elem_of_singleton in Hp as ->.
    apply steady_connect; simpl; try done.
    + split; simpl; try done. left. rewrite Ht. unfold filter. simpl.
      rewrite decide_False; [done|]. simpl. tauto.
    + rewrite Ht. simpl. rewrite filter_cons, decide_False; [done|]. simpl. tauto.
  - by apply steady_cleanup.
Qed.

Lemma steady_run c evs : Link.Steady task c → Link.Steady task (Link.run task task_running c evs).
Proof.
  revert c. induction evs as [|ev evs IH]; intros c HS; [done|].
  simpl. apply IH. by apply steady_step.
Qed.
(** Once stopped, always stopped: no event schedules a timeout or creates
    a socket. *)
Lemma stopped_step c ev :
  Link.Stopped c →
  Link.Stopped (Link.step task task_running c ev) ∧
  length (sockets (Link.step task task_running c ev)) = length (sockets c).
Proof.
  intros [Hm Ht]. unfold Link.Stopped.
  destruct ev as [i|i data now|i|i|t| |]; simpl; try done.
  - destruct (state_of i c) as [[]|]; simpl; try done.
    by rewrite length_alter.
  - destruct (state_of i c) as [[]|]; try done.
    destruct (is_ping data); [|done]. unfold Link.pong.
    destruct (ws c) as [j|]; [|done]. unfold send.
    by destruct (state_of j c) as [[]|].
  - destruct (sockets c !! i) as [s|]; [|done].
    assert (∀ c', isMounted c' = false → Link.onclose task_running c' = c') as Hoff.
    { intros c' Hm'. unfold Link.onclose. by rewrite Hm'. }
    destruct (readyState s), (Browser.onclose s); rewrite ?Hoff; simpl;
      by rewrite ?length_alter.
  - unfold is_pending. rewrite Ht. simpl. done.
  - unfold Link.cleanup. simpl.
    set (c2 := match reconnectTimeout c with
               | Some t => clearTimeout t (set_isMounted false c)
               | None => set_isMounted false c
               end).
    assert (isMounted c2 = false ∧ timers c2 = [] ∧ sockets c2 = sockets c) as (Hm2 & Ht2 & Hs2).
    { subst c2. destruct (reconnectTimeout c); simpl; by rewrite ?Ht. }
    destruct (ws c2) as [i|]; [|by rewrite Hs2].
    unfold close. destruct (state_of i (assign_onclose i false c2)) as [[]|]; simpl;
      by rewrite ?length_alter, ?Hs2.
Qed.

Lemma stopped_run c evs :
  Link.Stopped c →
  Link.Stopped (Link.run task task_running c evs) ∧
  length (sockets (Link.run task task_running c evs)) = length (sockets c).
Proof.
  revert c. induction evs as [|ev evs IH]; intros c Hc; [done|].
  simpl. destruct (stopped_step c ev Hc) as [Hc' Hlen].
  destruct (IH _ Hc') as [Hend Hlen']. split; [done | congruence].
Qed.

(** What the cleanup leaves of the socket [ws] names: no [onclose], and a
    state from which no message can arrive. *)
Lemma cleanup_detaches c i s :
  ws c = Some i → sockets (Link.cleanup c) !! i = Some s →
  Browser.onclose s = false ∧ (readyState s = CLOSING ∨ readyState s = CLOSED).
Proof.
  intros Hw. unfold Link.cleanup. simpl.
  set (c2 := match reconnectTimeout c with
             | Some t => clearTimeout t (set_isMounted false c)
             | None => set_isMounted false c
             end).
  assert (ws c2 = Some i) as -> by (subst c2; by destruct (reconnectTimeout c)).
  assert (∀ s0, sockets (assign_onclose i false c2) !! i = Some s0 →
            Browser.onclose s0 = false) as Hoff.
  { intros s0 Hs0. apply lookup_assign_onclose in Hs0 as (s1 & _ & _ & _ & Hoff).
    by rewrite decide_True in Hoff. }
  unfold close.
  destruct (state_of i (assign_onclose i false c2)) as [r|] eqn:Hst.
  2: { unfold state_of in Hst. intros Hs. by rewrite Hs in Hst. }
  destruct r; intros Hs.
  1,2: apply lookup_set_readyState in Hs as (s1 & Hs1 & _ & Hon & Hr);
       rewrite decide_True in Hr by done;
       split; [rewrite Hon; by apply Hoff | by left].
  all: unfold state_of in Hst; rewrite Hs in Hst; injection Hst as Hst;
       split; [by apply Hoff | rewrite Hst; eauto].
Qed.

(** A live socket drops while the effect is mounted and the task is
    running: one timeout, of 2000 ms, and it is the only one pending. *)
Lemma close_schedules c i s :
  Link.Steady task c → isMounted c = true → task_running = true →
  sockets c !! i = Some s → Link.live s →
  Link.step task task_running c (Ev_close i) =
    set_reconnectTimeout (Some (next_timer c))
      (set_next_timer (Pos.succ (next_timer c))
        (set_timers [(next_timer c, 2000)] (set_readyState i CLOSED c))).
Proof.
  intros HS Hm Hrun Hs Hl. pose proof (steady_no_timer_while_live c i s HS Hs Hl) as Ht.
  destruct HS as [_ _ Hhand _].
  pose proof (Forall_lookup_1 _ _ _ _ (Hhand Hm) Hs) as Hon. simpl in Hon.
  simpl. rewrite Hs, Hon. unfold Link.onclose, setTimeout. simpl. rewrite Hm, Hrun, Ht. simpl.
  unfold Link.live in Hl. by destruct (readyState s).
Qed.

(** The socket drops after the cleanup, or for a task that is not running,
    or with its handler removed: nothing is scheduled. *)
Lemma close_schedules_nothing c i :
  isMounted c = false ∨ task_running = false ∨
    Browser.onclose <$> sockets c !! i = Some false →
  timers (Link.step task task_running c (Ev_close i)) = timers c ∧
  next_timer (Link.step task task_running c (Ev_close i)) = next_timer c ∧
  reconnectTimeout (Link.step task task_running c (Ev_close i)) = reconnectTimeout c ∧
  length (sockets (Link.step task task_running c (Ev_close i))) = length (sockets c).
Proof.
  intros Hoff. simpl. destruct (sockets c !! i) as [s|] eqn:Hs; [|done].
  assert (Browser.onclose s = false ∨
          Link.onclose task_running (set_readyState i CLOSED c) = set_readyState i CLOSED c)
    as Hcase.
  { destruct Hoff as [Hm|[Hrun|Hon]].
    - right. unfold Link.onclose. simpl. by rewrite Hm.
    - right. unfold Link.onclose. rewrite Hrun. by rewrite andb_false_r.
    - left. simpl in Hon. congruence. }
  destruct (readyState s); try done.
  all: destruct Hcase as [->| ->]; [|destruct (Browser.onclose s)]; simpl;
    by rewrite ?length_alter.
Qed.

(** The timeout fires: one new socket, to the same address, connecting. *)
Lemma timeout_connects c t :
  Link.Steady task c → is_pending t c = true →
  Link.step task task_running c (Ev_timeout t) =
    set_ws (Some (length (sockets c)))
      (set_sockets (sockets c ++ [{| url := Api.ws_url task; readyState := CONNECTING;
                                      onclose := true |}])
        (set_timers [] c)).
Proof.
  intros [_ Htimer _ _] Hp. simpl. rewrite Hp.
  unfold is_pending in Hp. apply bool_decide_eq_true_1 in Hp.
  destruct Htimer as [Ht|(t' & Ht & _ & _ & Hm)].
  { rewrite Ht in Hp. by apply elem_of_nil in Hp. }
  rewrite Ht in Hp. simpl in Hp. apply list_elem_of_singleton in Hp as ->.
  rewrite connect_mounted by done. simpl. unfold clearTimeout. rewrite Ht. simpl.
  rewrite filter_cons, decide_False; [done|]. simpl. tauto.
Qed.

Lemma run_cons c ev evs :
  Link.run task task_running c (ev :: evs) =
    Link.run task task_running (Link.step task task_running c ev) evs.
Proof. done. Qed.

Lemma run_app c evs evs' :
  Link.run task task_running c (evs ++ evs') =
    Link.run task task_running (Link.run task task_running c evs) evs'.
Proof. apply fold_left_app. Qed.

(** After any number of drops the effect is where it was after the first
    [connect]: mounted, nothing pending, one fresh socket connecting. *)
Lemma drops_reconnect n k :
  task_running = true →
  let c := Link.run task task_running (Link.connect task (fresh n)) (Link.drops k 0 n) in
  Link.Steady task c ∧ isMounted c = true ∧ timers c = [] ∧
  length (sockets c) = S k ∧ state_of k c = Some CONNECTING ∧
  next_timer c = Pos.of_nat (Pos.to_nat n + k).
Proof.
  intros Hrun.
  assert (∀ k c first t,
    Link.Steady task c → isMounted c = true → timers c = [] →
    length (sockets c) = S first → state_of first c = Some CONNECTING → next_timer c = t →
    let c' := Link.run task task_running c (Link.drops k first t) in
    Link.Steady task c' ∧ isMounted c' = true ∧ timers c' = [] ∧
    length (sockets c') = S (first + k) ∧ state_of (first + k) c' = Some CONNECTING ∧
    next_timer c' = Pos.of_nat (Pos.to_nat t + k)) as Hgen.
  { clear n k. intros k. induction k as [|k IH]; intros c first t HS Hm Ht Hlen Hst Hnext.
    - cbv zeta. cbn [Link.drops Link.run fold_left]. rewrite !Nat.add_0_r, Pos2Nat.id. done.
    - cbv zeta. cbn [Link.drops]. rewrite !run_cons.
      unfold state_of in Hst. destruct (sockets c !! first) as [s|] eqn:Hs; [|done].
      simpl in Hst. injection Hst as Hst.
      assert (Link.live s) as Hl by (unfold Link.live; congruence).
      pose proof (close_schedules c first s HS Hm Hrun Hs Hl) as Hclose.
      pose proof (steady_step c (Ev_close first) HS) as HS1.
      set (c1 := Link.step task task_running c (Ev_close first)) in *.
      assert (is_pending t c1 = true) as Hp.
      { rewrite Hclose. unfold is_pending. simpl. rewrite Hnext.
        apply bool_decide_eq_true_2, list_elem_of_singleton. done. }
      pose proof (timeout_connects c1 t HS1 Hp) as Hfire.
      pose proof (steady_step c1 (Ev_timeout t) HS1) as HS2.
      set (c2 := Link.step task task_running c1 (Ev_timeout t)) in *.
      assert (length (sockets c1) = S first) as Hlen1.
      { rewrite Hclose. simpl. by rewrite length_alter. }
      destruct (IH c2 (S first) (Pos.succ t)) as (H1 & H2 & H3 & H4 & H5 & H6); try done.
      + rewrite Hfire. simpl. rewrite Hclose. done.
      + by rewrite Hfire.
      + rewrite Hfire. simpl. rewrite length_app, Hlen1. simpl. lia.
      + rewrite Hfire. unfold state_of. simpl.
        rewrite lookup_app_r by lia. by rewrite Hlen1, Nat.sub_diag.
      + rewrite Hfire. simpl. rewrite Hclose. simpl. by rewrite Hnext.
      + replace (first + S k)%nat with (S first + k)%nat by lia.
        split_and!; try done. rewrite H6. f_equal. lia. }
  intros c. subst c.
  apply (Hgen k (Link.connect task (fresh n)) 0%nat n); try done.
  apply steady_start.
Qed.
End LinkFacts.


(** ** The message handler, read off case by case *)

Ltac run_handler :=
  unfold TaskDetail.onmessage, Analysis.onmessage, try_catch, bind, eval, read, write, ret;
  simpl.

(** The snapshot built from a status payload carries the payload's
    processed count. *)
Lemma snapshot_of_status_processed `{Coercions} statusData now n snapshot :
  get statusData "processed_papers" = inr (JNum n) →
  snapshot_of_status statusData now = inr snapshot →
  get snapshot "processed" = inr (JNum n).
Proof.
  destruct statusData as [| |b|m|s|items|fields]; simpl; try done.
  intros [= Hn]. unfold snapshot_of_status. cbn [get].
  destruct (to_string (or (default JUndefined (assoc "current_paper_title" fields))
                          (JStr "..."))); [done|].
  intros [= <-]. simpl. by rewrite Hn.
Qed.

(** A status payload that carries a processed count is an object, so the
    snapshot is built as soon as its title can be converted to a string. *)
Lemma snapshot_of_status_builds `{Coercions} statusData now n title text :
  get statusData "processed_papers" = inr (JNum n) →
  get statusData "current_paper_title" = inr title →
  to_string (or title (JStr "...")) = inr text →
  ∃ snapshot, snapshot_of_status statusData now = inr snapshot.
Proof.
  destruct statusData as [| |b|m|s|items|fields]; try done.
  intros _ Htitle Htext. unfold snapshot_of_status. rewrite Htitle. cbn [get].
  rewrite Htext. by eexists.
Qed.

(** A value that has a processed count is an object, hence truthy. *)
Lemma truthy_of_processed v N : get v "processed" = inr (JNum N) → truthy v = true.
Proof. by destruct v. Qed.

Section TaskDetailFacts.
Context `{Coercions}.
Variable taskId : string.
Variable status : option TaskStatus.
Import TaskDetail.

Lemma td_onmessage_progress message payload now st :
  get message "type" = inr (JStr "progress") →
  get message "data" = inr payload →
  onmessage taskId (Text_JSON message) now st = (setTaskProgress payload st, inr tt).
Proof. intros Ht Hd. run_handler. by rewrite Ht, Hd. Qed.

Lemma td_onmessage_status_first message statusData snapshot now st :
  get message "type" = inr (JStr "status") →
  get message "data" = inr statusData →
  truthy (taskProgress st) = false →
  snapshot_of_status statusData now = inr snapshot →
  onmessage taskId (Text_JSON message) now st = (setTaskProgress snapshot st, inr tt).
Proof.
  intros Ht Hd Hc Hsnap. run_handler. rewrite Ht, Hd. simpl. rewrite Hc. simpl.
  by rewrite Hsnap.
Qed.

Lemma td_onmessage_status_held message statusData snapshot n N now st :
  get message "type" = inr (JStr "status") →
  get message "data" = inr statusData →
  get statusData "processed_papers" = inr (JNum n) →
  get (taskProgress st) "processed" = inr (JNum N) →
  snapshot_of_status statusData now = inr snapshot →
  onmessage taskId (Text_JSON message) now st =
    if n >? N then (setTaskProgress snapshot st, inr tt) else (st, inr tt).
Proof.
  intros Ht Hd Ha Hb Hsnap. run_handler. rewrite Ht, Hd. simpl.
  rewrite (truthy_of_processed _ _ Hb). simpl. rewrite Ha, Hb. simpl.
  destruct (n >? N); simpl; [|done]. by rewrite Hsnap.
Qed.

Lemma td_onmessage_completed message now st :
  get message "type" = inr (JStr "completed") →
  onmessage taskId (Text_JSON message) now st =
    (invalidateQueries ["activeTask"]
       (invalidateQueries ["taskAnalytics"; taskId]
          (invalidateQueries ["taskResults"; taskId]
             (invalidateQueries ["taskStatus"; taskId] st))), inr tt).
Proof. intros Ht. run_handler. by rewrite Ht. Qed.

Lemma td_onmessage_other_kind message now st :
  other_kind message = true →
  onmessage taskId (Text_JSON message) now st = (st, inr tt).
Proof.
  unfold other_kind. intros Hk. run_handler.
  destruct (get message "type") as [e|type]; simpl; [done|].
  apply andb_prop in Hk as [Hk Hc]. apply andb_prop in Hk as [Hp Hs].
  apply negb_true_iff in Hp, Hs, Hc. by rewrite Hp, Hs, Hc.
Qed.

Lemma td_onmessage_unparseable data e now st :
  is_ping data = false → is_pong data = false → JSON_parse data = inl e →
  onmessage taskId data now st = (st, inr tt).
Proof. by destruct data. Qed.

(** Whatever the frame, past the keep-alive test nothing is thrown to the
    caller. *)
Lemma td_onmessage_never_throws data now st :
  is_ping data = false → (onmessage taskId data now st).2 = inr tt.
Proof.
  intros Hping. unfold onmessage. rewrite Hping. simpl.
  destruct (is_pong data).
  - unfold bind, read. simpl. done.
  - unfold try_catch.
    match goal with |- context [match ?m with _ => _ end] => by destruct m as [st' [e|[]]] end.
Qed.

(** The handler moves the connection only to answer a ping, and never
    touches the connectivity flag. *)
Lemma td_onmessage_conn data now st :
  conn (onmessage taskId data now st).1 =
    if is_ping data then Link.pong (conn st) else conn st.
Proof.
  destruct data as [| |message|].
  - unfold onmessage, bind, read, ws_send, Link.pong. simpl.
    destruct (ws (conn st)) as [i|] eqn:Hw; simpl; [|done].
    rewrite Hw. by destruct (send i "pong" (conn st)).
  - done.
  - run_handler.
    destruct (get message "type") as [|type]; simpl; [done|].
    destruct (is_string type "progress"); simpl.
    { by destruct (get message "data"). }
    destruct (is_string type "status"); simpl.
    { destruct (get message "data") as [|statusData]; simpl; [done|].
      destruct (truthy (taskProgress st)); simpl.
      - destruct (get statusData "processed_papers") as [|a]; simpl; [done|].
        destruct (get (taskProgress st) "processed") as [|b]; simpl; [done|].
        destruct (gt a b); simpl; [|done].
        by destruct (snapshot_of_status statusData now).
      - by destruct (snapshot_of_status statusData now). }
    by destruct (is_string type "completed").
  - done.
Qed.

Lemma td_onmessage_flag data now st :
  wsConnected (onmessage taskId data now st).1 = wsConnected st.
Proof.
  destruct data as [| |message|].
  - unfold onmessage, bind, read, ws_send. simpl.
    destruct (ws (conn st)) as [i|] eqn:Hw; simpl; [|done].
    rewrite Hw. by destruct (send i "pong" (conn st)).
  - done.
  - run_handler.
    destruct (get message "type") as [|type]; simpl; [done|].
    destruct (is_string type "progress"); simpl.
    { by destruct (get message "data"). }
    destruct (is_string type "status"); simpl.
    { destruct (get message "data") as [|statusData]; simpl; [done|].
      destruct (truthy (taskProgress st)); simpl.
      - destruct (get statusData "processed_papers") as [|a]; simpl; [done|].
        destruct (get (taskProgress st) "processed") as [|b]; simpl; [done|].
        destruct (gt a b); simpl; [|done].
        by destruct (snapshot_of_status statusData now).
      - by destruct (snapshot_of_status statusData now). }
    by destruct (is_string type "completed").
  - done.
Qed.

(** The page moves its connection as [Link] does. *)
Lemma td_connect_conn st : conn (connect taskId st) = Link.connect taskId (conn st).
Proof.
  unfold connect, Link.connect. destruct (isMounted (conn st)); [|done]. done.
Qed.

Lemma td_step_conn st ev :
  conn (step taskId status st ev) = Link.step taskId (is_running status) (conn st) ev.
Proof.
  destruct ev as [i|i data now|i|i|t| |]; simpl; try done.
  - by destruct (state_of i (conn st)) as [[]|].
  - destruct (state_of i (conn st)) as [[]|]; try done. apply td_onmessage_conn.
  - destruct (sockets (conn st) !! i) as [s|]; [|done].
    assert (conn (onclose status (on_conn (set_readyState i CLOSED) st)) =
            Link.onclose (is_running status) (set_readyState i CLOSED (conn st))) as Hclose.
    { unfold onclose, Link.onclose. simpl.
      by destruct (isMounted (conn st) && is_running status). }
    destruct (readyState s); try done; by destruct (Browser.onclose s).
  - destruct (is_pending t (conn st)); [|done]. by rewrite td_connect_conn.
Qed.

Lemma td_run_conn st evs :
  conn (run taskId status st evs) = Link.run taskId (is_running status) (conn st) evs.
Proof.
  revert st. induction evs as [|ev evs IH]; intros st; [done|].
  simpl. by rewrite IH, td_step_conn.
Qed.

Lemma td_run_app st evs evs' :
  run taskId status st (evs ++ evs') = run taskId status (run taskId status st evs) evs'.
Proof. apply fold_left_app. Qed.

(** From the effect's start on, the connection is steady. *)
Lemma td_effect_steady st0 : Link.Steady taskId (conn (effect (Some taskId) status st0)).
Proof.
  unfold effect.
  destruct (String.eqb taskId EmptyString || negb (is_running status)).
  - apply steady_fresh.
  - rewrite td_connect_conn. apply steady_start.
Qed.

Lemma td_reachable_steady st0 evs :
  Link.Steady taskId (conn (run taskId status (effect (Some taskId) status st0) evs)).
Proof. rewrite td_run_conn. apply steady_run, td_effect_steady. Qed.

(** The guard of the status branch, at this page: it reads the store. A
    message that passes it is taken when the snapshot can be built, and
    dropped when building it throws. *)
Lemma td_recency_guard message statusData n now st :
  get message "type" = inr (JStr "status") →
  get message "data" = inr statusData →
  get statusData "processed_papers" = inr (JNum n) →
  let taken :=
    match snapshot_of_status statusData now with
    | inr snapshot => (setTaskProgress snapshot st, inr tt)
    | inl _ => (st, inr tt)
    end in
  (∀ snapshot, snapshot_of_status statusData now = inr snapshot →
     get snapshot "processed" = inr (JNum n)) ∧
  (taskProgress st = JNull →
     onmessage taskId (Text_JSON message) now st = taken) ∧
  (∀ N, get (taskProgress st) "processed" = inr (JNum N) →
     onmessage taskId (Text_JSON message) now st =
       if n >? N then taken else (st, inr tt)).
Proof.
  intros Ht Hd Hn taken. subst taken. split_and!.
  - intros snapshot. by apply snapshot_of_status_processed.
  - intros Hnull. run_handler. rewrite Ht, Hd. simpl. rewrite Hnull. simpl.
    by destruct (snapshot_of_status statusData now).
  - intros N HN. run_handler. rewrite Ht, Hd. simpl.
    rewrite (truthy_of_processed _ _ HN). simpl. rewrite Hn, HN. simpl.
    destruct (n >? N); simpl; [|done].
    by destruct (snapshot_of_status statusData now).
Qed.
End TaskDetailFacts.


Section AnalysisFacts.
Context `{Coercions}.
Variable task_id : string.
Variable status : TaskStatus.
Import Analysis.

Lemma an_onmessage_progress message payload now st :
  get message "type" = inr (JStr "progress") →
  get message "data" = inr payload →
  onmessage (Text_JSON message) now st = (setTaskProgress payload st, inr tt).
Proof. intros Ht Hd. run_handler. by rewrite Ht, Hd. Qed.

Lemma an_onmessage_status_first message statusData snapshot now st :
  get message "type" = inr (JStr "status") →
  get message "data" = inr statusData →
  truthy (taskProgressRef st) = false →
  snapshot_of_status statusData now = inr snapshot →
  onmessage (Text_JSON message) now st = (setTaskProgress snapshot st, inr tt).
Proof.
  intros Ht Hd Hc Hsnap. run_handler. rewrite Ht, Hd. simpl. rewrite Hc. simpl.
  by rewrite Hsnap.
Qed.

Lemma an_onmessage_status_held message statusData snapshot n N now st :
  get message "type" = inr (JStr "status") →
  get message "data" = inr statusData →
  get statusData "processed_papers" = inr (JNum n) →
  get (taskProgressRef st) "processed" = inr (JNum N) →
  snapshot_of_status statusData now = inr snapshot →
  onmessage (Text_JSON message) now st =
    if n >? N then (setTaskProgress snapshot st, inr tt) else (st, inr tt).
Proof.
  intros Ht Hd Ha Hb Hsnap. run_handler. rewrite Ht, Hd. simpl.
  rewrite (truthy_of_processed _ _ Hb). simpl. rewrite Ha, Hb. simpl.
  destruct (n >? N); simpl; [|done]. by rewrite Hsnap.
Qed.

Lemma an_onmessage_completed message now st :
  get message "type" = inr (JStr "completed") →
  onmessage (Text_JSON message) now st =
    (invalidateQueries ["tasks"] (refetchActiveTask (setTaskProgress JNull st)), inr tt).
Proof. intros Ht. run_handler. by rewrite Ht. Qed.

Lemma an_onmessage_other_kind message now st :
  other_kind message = true →
  onmessage (Text_JSON message) now st = (st, inr tt).
Proof.
  unfold other_kind. intros Hk. run_handler.
  destruct (get message "type") as [e|type]; simpl; [done|].
  apply andb_prop in Hk as [Hk Hc]. apply andb_prop in Hk as [Hp Hs].
  apply negb_true_iff in Hp, Hs, Hc. by rewrite Hp, Hs, Hc.
Qed.

Lemma an_onmessage_unparseable data e now st :
  is_ping data = false → is_pong data = false → JSON_parse data = inl e →
  onmessage data now st = (st, inr tt).
Proof. by destruct data. Qed.

Lemma an_onmessage_never_throws data now st :
  is_ping data = false → (onmessage data now st).2 = inr tt.
Proof.
  intros Hping. unfold onmessage. rewrite Hping. simpl.
  destruct (is_pong data).
  - unfold bind, read. simpl. done.
  - unfold try_catch.
    match goal with |- context [match ?m with _ => _ end] => by destruct m as [st' [e|[]]] end.
Qed.

(** The handler moves the connection only to answer a ping, and never
    writes the ref. *)
Lemma an_onmessage_conn data now st :
  conn (onmessage data now st).1 =
    if is_ping data then Link.pong (conn st) else conn st.
Proof.
  destruct data as [| |message|].
  - unfold onmessage, bind, read, ws_send, Link.pong. simpl.
    destruct (ws (conn st)) as [i|] eqn:Hw; simpl; [|done].
    rewrite Hw. by destruct (send i "pong" (conn st)).
  - done.
  - run_handler.
    destruct (get message "type") as [|type]; simpl; [done|].
    destruct (is_string type "progress"); simpl.
    { by destruct (get message "data"). }
    destruct (is_string type "status"); simpl.
    { destruct (get message "data") as [|statusData]; simpl; [done|].
      destruct (truthy (taskProgressRef st)); simpl.
      - destruct (get statusData "processed_papers") as [|a]; simpl; [done|].
        destruct (get (taskProgressRef st) "processed") as [|b]; simpl; [done|].
        destruct (gt a b); simpl; [|done].
        by destruct (snapshot_of_status statusData now).
      - by destruct (snapshot_of_status statusData now). }
    by destruct (is_string type "completed").
  - done.
Qed.

Lemma an_onmessage_ref data now st :
  taskProgressRef (onmessage data now st).1 = taskProgressRef st.
Proof.
  destruct data as [| |message|].
  - unfold onmessage, bind, read, ws_send. simpl.
    destruct (ws (conn st)) as [i|] eqn:Hw; simpl; [|done].
    rewrite Hw. by destruct (send i "pong" (conn st)).
  - done.
  - run_handler.
    destruct (get message "type") as [|type]; simpl; [done|].
    destruct (is_string type "progress"); simpl.
    { by destruct (get message "data"). }
    destruct (is_string type "status"); simpl.
    { destruct (get message "data") as [|statusData]; simpl; [done|].
      destruct (truthy (taskProgressRef st)); simpl.
      - destruct (get statusData "processed_papers") as [|a]; simpl; [done|].
        destruct (get (taskProgressRef st) "processed") as [|b]; simpl; [done|].
        destruct (gt a b); simpl; [|done].
        by destruct (snapshot_of_status statusData now).
      - by destruct (snapshot_of_status statusData now). }
    by destruct (is_string type "completed").
  - done.
Qed.

(** Keep-alives keep the progress state. *)
Lemma an_onmessage_keepalive data now st :
  is_ping data || is_pong data = true →
  taskProgress (onmessage data now st).1 = taskProgress st ∧
  notices (onmessage data now st).1 = notices st.
Proof.
  intros Hk. unfold onmessage. rewrite Hk. unfold bind, read, ws_send. simpl.
  destruct (is_ping data && bool_decide (is_Some (ws (conn st)))); [|done].
  destruct (ws (conn st)) as [i|]; [|done]. by destruct (send i "pong" (conn st)).
Qed.

(** With the ref showing a snapshot that has processed [N] papers, a frame
    that is [superseded N] changes nothing at all. *)
Lemma an_onmessage_superseded N data now st :
  superseded N data = true →
  get (taskProgressRef st) "processed" = inr (JNum N) →
  taskProgress (onmessage data now st).1 = taskProgress st.
Proof.
  intros Hsup HN. destruct data as [| |message|]; try done.
  - by apply an_onmessage_keepalive.
  - simpl in Hsup. run_handler.
    destruct (get message "type") as [|type] eqn:Ht; simpl; [done|].
    destruct (get message "data") as [|payload] eqn:Hd; simpl.
    { exfalso. destruct message; simpl in *; congruence. }
    destruct (is_string type "status") eqn:Hst.
    + assert (is_string type "progress" = false) as ->.
      { destruct type; try done. simpl in *. apply String.eqb_eq in Hst as ->. done. }
      simpl. rewrite (truthy_of_processed _ _ HN). simpl.
      destruct (get payload "processed_papers") as [|[| |b|n|s| |]]; try done.
      rewrite HN. simpl. apply Z.leb_le in Hsup.
      by rewrite Z.gtb_ltb, (proj2 (Z.ltb_ge _ _)) by lia.
    + apply andb_prop in Hsup as [Hp Hc]. apply negb_true_iff in Hp, Hc.
      by rewrite Hp, Hc.
Qed.

(** The page moves its connection as [Link] does. *)
Lemma an_connect_conn st : conn (connect task_id st) = Link.connect task_id (conn st).
Proof.
  unfold connect, Link.connect. destruct (isMounted (conn st)); [|done]. done.
Qed.

Lemma an_step_conn st ev :
  conn (step task_id status st ev) =
    Link.step task_id (is_running (Some status)) (conn st) ev.
Proof.
  destruct ev as [i|i data now|i|i|t| |]; simpl; try done.
  - by destruct (state_of i (conn st)) as [[]|].
  - destruct (state_of i (conn st)) as [[]|]; try done. apply an_onmessage_conn.
  - destruct (sockets (conn st) !! i) as [s|]; [|done].
    assert (conn (onclose status (on_conn (set_readyState i CLOSED) st)) =
            Link.onclose (is_running (Some status)) (set_readyState i CLOSED (conn st)))
      as Hclose.
    { unfold onclose, Link.onclose. simpl. by destruct (isMounted (conn st)), status. }
    destruct (readyState s); try done; by destruct (Browser.onclose s).
  - destruct (is_pending t (conn st)); [|done]. by rewrite an_connect_conn.
Qed.

Lemma an_run_conn st evs :
  conn (run task_id status st evs) =
    Link.run task_id (is_running (Some status)) (conn st) evs.
Proof.
  revert st. induction evs as [|ev evs IH]; intros st; [done|].
  simpl. by rewrite IH, an_step_conn.
Qed.

Lemma an_run_app st evs evs' :
  run task_id status st (evs ++ evs') = run task_id status (run task_id status st evs) evs'.
Proof. apply fold_left_app. Qed.

Lemma an_effect_steady st0 :
  Link.Steady task_id (conn (effect (Some (task_id, status)) st0)).
Proof.
  unfold effect.
  destruct (String.eqb task_id EmptyString || negb (is_running (Some status))).
  - apply steady_fresh.
  - rewrite an_connect_conn. apply steady_start.
Qed.

Lemma an_reachable_steady st0 evs :
  Link.Steady task_id
    (conn (run task_id status (effect (Some (task_id, status)) st0) evs)).
Proof. rewrite an_run_conn. apply steady_run, an_effect_steady. Qed.

(** The guard of the status branch, at this page: it reads the ref, which
    shows the held snapshot only once React has committed it. A message
    that passes it is taken when the snapshot can be built, and dropped
    when building it throws. *)
Lemma an_recency_guard message statusData n now st :
  get message "type" = inr (JStr "status") →
  get message "data" = inr statusData →
  get statusData "processed_papers" = inr (JNum n) →
  let taken :=
    match snapshot_of_status statusData now with
    | inr snapshot => (setTaskProgress snapshot st, inr tt)
    | inl _ => (st, inr tt)
    end in
  (∀ snapshot, snapshot_of_status statusData now = inr snapshot →
     get snapshot "processed" = inr (JNum n)) ∧
  (taskProgressRef st = JNull →
     onmessage (Text_JSON message) now st = taken) ∧
  (∀ N, get (taskProgressRef st) "processed" = inr (JNum N) →
     onmessage (Text_JSON message) now st =
       if n >? N then taken else (st, inr tt)).
Proof.
  intros Ht Hd Hn taken. subst taken. split_and!.
  - intros snapshot. by apply snapshot_of_status_processed.
  - intros Hnull. run_handler. rewrite Ht, Hd. simpl. rewrite Hnull. simpl.
    by destruct (snapshot_of_status statusData now).
  - intros N HN. run_handler. rewrite Ht, Hd. simpl.
    rewrite (truthy_of_processed _ _ HN). simpl. rewrite Hn, HN. simpl.
    destruct (n >? N); simpl; [|done].
    by destruct (snapshot_of_status statusData now).
Qed.
End AnalysisFacts.

(** ** The claims about [fetchApi] *)

Section ApiClaims.
Context `{Coercions}.
Import Api.

(** C6, as amended. Every call made through [fetchApi] makes up to three
    attempts: it goes round again only after an attempt that ended in a
    TypeError (which is how [fetch] reports a network failure), at most
    twice, one second after the failure each time; what the caller gets is
    what the last attempt ended in (for [deleteTask] and [cancelTask], which
    return nothing, [undefined] where that is a value); with the backend
    unreachable at all three attempts, the error of the third is the
    caller's. *)
Theorem C6_fetchApi_retries_twice (c : ApiCall) :
  ∃ request, (∃ url init, request = Fetch url init) ∧ ∀ net : Network,
    call c net =
      (if asks_retry (net 0%nat) then
         if asks_retry (net 1%nat) then
           (given c (ends (net 2%nat)),
            [request; Sleep 1000; request; Sleep 1000; request])
         else (given c (ends (net 1%nat)), [request; Sleep 1000; request])
       else (given c (ends (net 0%nat)), [request])) ∧
    (∀ e, net 0%nat = Rejected TypeError → net 1%nat = Rejected TypeError →
          net 2%nat = Rejected e →
          call c net = (inl e, [request; Sleep 1000; request; Sleep 1000; request])).
Proof.
  destruct (call_default c) as (request & Hreq & Hcall).
  exists request. split; [done|]. intros net. split; [apply Hcall|].
  intros e H0 H1 H2. rewrite Hcall, H0, H1, H2.
  rewrite asks_retry_network_failure, ends_rejected. by rewrite given_error.
Qed.

End ApiClaims.

(** C6 as the specification words it fails where the backend comes up at
    the third attempt: the first attempt and the retry both fail, and the
    call does not end in their error but asks again and succeeds. *)
Lemma C6_second_retry_made :
  Samples.up_at_third 0%nat = Api.Rejected TypeError ∧
  Samples.up_at_third 1%nat = Api.Rejected TypeError ∧
  (∃ request,
     @Api.call Samples.sample_coercions Api.checkHealth Samples.up_at_third =
       (inr (JObj [("status", JStr "healthy")]),
        [request; Api.Sleep 1000; request; Api.Sleep 1000; request])) ∧
  ¬ @AsStated.retries_once Samples.sample_coercions Api.checkHealth Samples.up_at_third.
Proof.
  split_and!; try done.
  - by eexists.
  - intros Hclaim. destruct Hclaim as [request Hcall]; done.
Qed.

(** The backend down at all three attempts; and [deleteTask] where it comes
    up at the third: the body of the answer is dropped. *)
Lemma C6_fetchApi_retries_twice_witness :
  Samples.always_down 0%nat = Api.Rejected TypeError ∧
  Samples.always_down 1%nat = Api.Rejected TypeError ∧
  Samples.always_down 2%nat = Api.Rejected TypeError ∧
  (∃ request,
     @Api.call Samples.sample_coercions Api.getActiveTask Samples.always_down =
       (inl TypeError, [request; Api.Sleep 1000; request; Api.Sleep 1000; request])) ∧
  (∃ request,
     @Api.call Samples.sample_coercions (Api.deleteTask "t1") Samples.up_at_third =
       (inr JUndefined, [request; Api.Sleep 1000; request; Api.Sleep 1000; request])).
Proof.
  split_and!; try reflexivity.
  - destruct (@C6_fetchApi_retries_twice Samples.sample_coercions Api.getActiveTask)
      as (request & _ & Hnet).
    exists request. apply (Hnet Samples.always_down); reflexivity.
  - destruct (@C6_fetchApi_retries_twice Samples.sample_coercions (Api.deleteTask "t1"))
      as (request & _ & Hnet).
    exists request. rewrite (proj1 (Hnet Samples.up_at_third)). reflexivity.
Defined.


(** What the amended C10 leaves aside: reading [detail] off a body that is
    JSON [null] throws a TypeError inside the [try], and so does building
    the error from a [detail] that cannot be converted to a string; the
    [catch] takes either for a network failure. *)
Lemma null_error_body_is_retried :
  ∃ request,
    @Api.call Samples.sample_coercions Api.checkHealth (λ _, Api.Fulfilled Samples.null_body) =
      (inl TypeError, [request; Api.Sleep 1000; request; Api.Sleep 1000; request]).
Proof. by eexists. Qed.

Lemma unreadable_detail_is_retried :
  @Api.error_message Samples.sample_coercions Samples.unreadable_detail = inl TypeError ∧
  ∃ request,
    @Api.call Samples.sample_coercions Api.checkHealth
        (λ _, Api.Fulfilled Samples.unreadable_detail) =
      (inl TypeError, [request; Api.Sleep 1000; request; Api.Sleep 1000; request]).
Proof. split; [done | by eexists]. Qed.



(** ** The claims about the connection: teardown, reconnection, keep-alive *)

Section LinkClaims.
Variable task : string.
Variable task_running : bool.

Lemma cleanup_length c : length (sockets (Link.cleanup c)) = length (sockets c).
Proof.
  unfold Link.cleanup. simpl.
  set (c2 := match reconnectTimeout c with
             | Some t => clearTimeout t (set_isMounted false c)
             | None => set_isMounted false c
             end).
  assert (sockets c2 = sockets c) as Hs2 by (subst c2; by destruct (reconnectTimeout c)).
  destruct (ws c2) as [i|]; [|by rewrite Hs2].
  unfold close. destruct (state_of i (assign_onclose i false c2)) as [[]|]; simpl;
    by rewrite ?length_alter, ?Hs2.
Qed.

(** Teardown, on the connection: from a steady connection, the cleanup and
    anything after it leave nothing pending and create no socket. *)
Lemma link_cleanup_final c after :
  Link.Steady task c →
  let later := Link.run task task_running (Link.cleanup c) after in
  isMounted later = false ∧ timers later = [] ∧
  length (sockets later) = length (sockets c).
Proof.
  intros HS later.
  destruct (stopped_run task task_running (Link.cleanup c) after (stopped_cleanup task c HS))
    as [[Hm Ht] Hlen].
  subst later. split_and!; try done. by rewrite Hlen, cleanup_length.
Qed.

Lemma link_close_reconnects c i s :
  Link.Steady task c → isMounted c = true → task_running = true →
  sockets c !! i = Some s → Link.live s →
  let closed := Link.step task task_running c (Ev_close i) in
  Link.one_reconnect_scheduled c closed ∧
  Link.reconnected task closed (Link.step task task_running closed (Ev_timeout (next_timer c))).
Proof.
  intros HS Hm Hrun Hs Hl closed.
  pose proof (close_schedules task task_running c i s HS Hm Hrun Hs Hl) as Hclose.
  pose proof (steady_step task task_running c (Ev_close i) HS) as HS1.
  fold closed in Hclose, HS1.
  assert (is_pending (next_timer c) closed = true) as Hp.
  { rewrite Hclose. unfold is_pending. simpl.
    apply bool_decide_eq_true_2, list_elem_of_singleton. done. }
  rewrite (timeout_connects task task_running closed _ HS1 Hp).
  unfold Link.one_reconnect_scheduled, Link.reconnected. rewrite Hclose. simpl.
  by rewrite length_alter.
Qed.

Lemma link_drop_again c i :
  Link.Steady task c → isMounted c = true → state_of i c = Some CONNECTING →
  Link.one_reconnect_scheduled c (Link.step task true c (Ev_close i)).
Proof.
  intros HS Hm Hst. unfold state_of in Hst.
  destruct (sockets c !! i) as [s|] eqn:Hs; [|done]. simpl in Hst. injection Hst as Hst.
  assert (Link.live s) as Hl by (unfold Link.live; congruence).
  pose proof (close_schedules task true c i s HS Hm eq_refl Hs Hl) as Hclose.
  unfold Link.one_reconnect_scheduled. rewrite Hclose. simpl. by rewrite length_alter.
Qed.

Lemma link_ping_pong c i :
  Link.Steady task c → state_of i c = Some OPEN →
  ws c = Some i ∧ send i "pong" c = (set_sent (sent c ++ [(i, "pong")]) c, inr tt).
Proof.
  intros [Hlive _ _ _] Hopen. split.
  - unfold state_of in Hopen. destruct (sockets c !! i) as [s|] eqn:Hs; [|done].
    simpl in Hopen. apply (Hlive i s Hs). unfold Link.live. congruence.
  - unfold send. by rewrite Hopen.
Qed.
End LinkClaims.

Section LifecycleClaims.
Context `{Coercions}.

Lemma td_cleanup_link taskId status st :
  TaskDetail.step taskId status st Ev_cleanup =
    TaskDetail.on_conn (λ _, Link.cleanup (TaskDetail.conn st)) st.
Proof. done. Qed.

Lemma an_cleanup_link task_id status st :
  Analysis.step task_id status st Ev_cleanup =
    Analysis.on_conn (λ _, Link.cleanup (Analysis.conn st)) st.
Proof. done. Qed.

Lemma td_effect_running taskId st0 :
  taskId ≠ EmptyString →
  TaskDetail.conn (TaskDetail.effect (Some taskId) (Some running) st0) =
    Link.connect taskId (fresh (next_timer (TaskDetail.conn st0))).
Proof.
  intros Hid. unfold TaskDetail.effect. apply String.eqb_neq in Hid. rewrite Hid.
  cbn [orb negb is_running]. by rewrite td_connect_conn.
Qed.

Lemma an_effect_running task_id st0 :
  task_id ≠ EmptyString →
  Analysis.conn (Analysis.effect (Some (task_id, running)) st0) =
    Link.connect task_id (fresh (next_timer (Analysis.conn st0))).
Proof.
  intros Hid. unfold Analysis.effect. apply String.eqb_neq in Hid. rewrite Hid.
  cbn [orb negb is_running]. by rewrite an_connect_conn.
Qed.

(** C4. At both pages: once the cleanup has run, at whatever point (before
    the socket has opened too), no timeout is pending and none is ever set
    again, no socket is ever created again, and the effect stays unmounted,
    whatever events follow; the socket the effect held has lost its
    [onclose] and is closing or closed; and running the cleanup a second
    time changes nothing. *)
Theorem C4_cleanup_stops_reconnection :
  (∀ taskId status st0 before after,
     let mounted :=
       TaskDetail.run taskId status (TaskDetail.effect (Some taskId) status st0) before in
     let stopped := TaskDetail.step taskId status mounted Ev_cleanup in
     let later := TaskDetail.run taskId status stopped after in
     (isMounted (TaskDetail.conn later) = false ∧
      timers (TaskDetail.conn later) = [] ∧
      length (sockets (TaskDetail.conn later)) = length (sockets (TaskDetail.conn mounted))) ∧
     (∀ i s, ws (TaskDetail.conn mounted) = Some i →
             sockets (TaskDetail.conn stopped) !! i = Some s →
             Browser.onclose s = false ∧ (readyState s = CLOSING ∨ readyState s = CLOSED)) ∧
     TaskDetail.step taskId status stopped Ev_cleanup = stopped) ∧
  (∀ task_id status st0 before after,
     let mounted :=
       Analysis.run task_id status (Analysis.effect (Some (task_id, status)) st0) before in
     let stopped := Analysis.step task_id status mounted Ev_cleanup in
     let later := Analysis.run task_id status stopped after in
     (isMounted (Analysis.conn later) = false ∧
      timers (Analysis.conn later) = [] ∧
      length (sockets (Analysis.conn later)) = length (sockets (Analysis.conn mounted))) ∧
     (∀ i s, ws (Analysis.conn mounted) = Some i →
             sockets (Analysis.conn stopped) !! i = Some s →
             Browser.onclose s = false ∧ (readyState s = CLOSING ∨ readyState s = CLOSED)) ∧
     Analysis.step task_id status stopped Ev_cleanup = stopped).
Proof.
  split.
  - intros taskId status st0 before after mounted stopped later.
    pose proof (td_reachable_steady taskId status st0 before) as HS. fold mounted in HS.
    split; [|split].
    + subst later stopped. rewrite td_run_conn, td_step_conn.
      by apply link_cleanup_final.
    + intros i s Hw Hs. subst stopped. rewrite td_step_conn in Hs.
      by eapply cleanup_detaches.
    + subst stopped. rewrite !td_cleanup_link. unfold TaskDetail.on_conn. simpl.
      by rewrite cleanup_idempotent.
  - intros task_id status st0 before after mounted stopped later.
    pose proof (an_reachable_steady task_id status st0 before) as HS. fold mounted in HS.
    split; [|split].
    + subst later stopped. rewrite an_run_conn, an_step_conn.
      by apply link_cleanup_final.
    + intros i s Hw Hs. subst stopped. rewrite an_step_conn in Hs.
      by eapply cleanup_detaches.
    + subst stopped. rewrite !an_cleanup_link. unfold Analysis.on_conn. simpl.
      by rewrite cleanup_idempotent.
Qed.

(** C5. At both pages: when a socket's close event fires while the effect
    is mounted and the captured status is "running", exactly one timeout is
    set, for 2000 ms, and when it fires exactly one socket is opened, for
    the same task; this is so after any number of earlier drops, with the
    same delay each time; and when the effect is unmounted or the captured
    status is not "running", the close event sets no timeout and opens no
    socket. *)
Theorem C5_reconnect_after_close :
  (∀ taskId status st0 evs i s,
     let st := TaskDetail.run taskId status (TaskDetail.effect (Some taskId) status st0) evs in
     sockets (TaskDetail.conn st) !! i = Some s → readyState s ≠ CLOSED →
     isMounted (TaskDetail.conn st) = true → is_running status = true →
     let closed := TaskDetail.step taskId status st (Ev_close i) in
     let again :=
       TaskDetail.step taskId status closed (Ev_timeout (next_timer (TaskDetail.conn st))) in
     Link.one_reconnect_scheduled (TaskDetail.conn st) (TaskDetail.conn closed) ∧
     Link.reconnected taskId (TaskDetail.conn closed) (TaskDetail.conn again)) ∧
  (∀ taskId st0 k,
     taskId ≠ EmptyString →
     let st := TaskDetail.run taskId (Some running)
                 (TaskDetail.effect (Some taskId) (Some running) st0)
                 (Link.drops k 0 (next_timer (TaskDetail.conn st0))) in
     isMounted (TaskDetail.conn st) = true ∧
     length (sockets (TaskDetail.conn st)) = S k ∧
     state_of k (TaskDetail.conn st) = Some CONNECTING ∧
     Link.one_reconnect_scheduled (TaskDetail.conn st)
       (TaskDetail.conn (TaskDetail.step taskId (Some running) st (Ev_close k)))) ∧
  (∀ taskId status st i,
     isMounted (TaskDetail.conn st) = false ∨ is_running status = false →
     Link.nothing_scheduled (TaskDetail.conn st)
       (TaskDetail.conn (TaskDetail.step taskId status st (Ev_close i)))) ∧
  (∀ task_id status st0 evs i s,
     let st := Analysis.run task_id status (Analysis.effect (Some (task_id, status)) st0) evs in
     sockets (Analysis.conn st) !! i = Some s → readyState s ≠ CLOSED →
     isMounted (Analysis.conn st) = true → status = running →
     let closed := Analysis.step task_id status st (Ev_close i) in
     let again :=
       Analysis.step task_id status closed (Ev_timeout (next_timer (Analysis.conn st))) in
     Link.one_reconnect_scheduled (Analysis.conn st) (Analysis.conn closed) ∧
     Link.reconnected task_id (Analysis.conn closed) (Analysis.conn again)) ∧
  (∀ task_id st0 k,
     task_id ≠ EmptyString →
     let st := Analysis.run task_id running
                 (Analysis.effect (Some (task_id, running)) st0)
                 (Link.drops k 0 (next_timer (Analysis.conn st0))) in
     isMounted (Analysis.conn st) = true ∧
     length (sockets (Analysis.conn st)) = S k ∧
     state_of k (Analysis.conn st) = Some CONNECTING ∧
     Link.one_reconnect_scheduled (Analysis.conn st)
       (Analysis.conn (Analysis.step task_id running st (Ev_close k)))) ∧
  (∀ task_id status st i,
     isMounted (Analysis.conn st) = false ∨ status ≠ running →
     Link.nothing_scheduled (Analysis.conn st)
       (Analysis.conn (Analysis.step task_id status st (Ev_close i)))).
Proof.
  split_and!.
  - intros taskId status st0 evs i s st Hs Hl Hm Hrun closed again.
    subst again closed. rewrite !td_step_conn.
    eapply link_close_reconnects; eauto. apply td_reachable_steady.
  - intros taskId st0 k Hid st. rewrite td_step_conn.
    subst st. rewrite td_run_conn, td_effect_running by done.
    destruct (drops_reconnect taskId true (next_timer (TaskDetail.conn st0)) k eq_refl)
      as (HS & Hm & _ & Hlen & Hst & _).
    split_and!; try done. by apply link_drop_again.
  - intros taskId status st i Hoff. rewrite td_step_conn.
    destruct (close_schedules_nothing taskId (is_running status) (TaskDetail.conn st) i)
      as (H1 & H2 & H3 & H4); [tauto|]. done.
  - intros task_id status st0 evs i s st Hs Hl Hm -> closed again.
    subst again closed. rewrite !an_step_conn.
    eapply link_close_reconnects; eauto. apply an_reachable_steady.
  - intros task_id st0 k Hid st. rewrite an_step_conn.
    subst st. rewrite an_run_conn, an_effect_running by done.
    destruct (drops_reconnect task_id true (next_timer (Analysis.conn st0)) k eq_refl)
      as (HS & Hm & _ & Hlen & Hst & _).
    split_and!; try done. by apply link_drop_again.
  - intros task_id status st i Hoff. rewrite an_step_conn.
    destruct (close_schedules_nothing task_id (is_running (Some status)) (Analysis.conn st) i)
      as (H1 & H2 & H3 & H4); [|done].
    destruct Hoff as [Hm|Hst]; [tauto|]. right. left. by destruct status.
Qed.

(** C7. At both pages, in any state the effect can reach: a "ping" frame
    on an open socket is answered by exactly one "pong" on that socket and
    changes nothing else (held snapshot, ref, connectivity flag, notices,
    sockets, timeouts); a "pong" frame changes nothing and sends nothing;
    neither throws. *)
Theorem C7_ping_pong :
  (∀ taskId status st0 evs i now,
     let st := TaskDetail.run taskId status (TaskDetail.effect (Some taskId) status st0) evs in
     state_of i (TaskDetail.conn st) = Some OPEN →
     TaskDetail.onmessage taskId Text_ping now st =
       (TaskDetail.on_conn (set_sent (sent (TaskDetail.conn st) ++ [(i, "pong")])) st, inr tt) ∧
     TaskDetail.onmessage taskId Text_pong now st = (st, inr tt)) ∧
  (∀ task_id status st0 evs i now,
     let st := Analysis.run task_id status (Analysis.effect (Some (task_id, status)) st0) evs in
     state_of i (Analysis.conn st) = Some OPEN →
     Analysis.onmessage Text_ping now st =
       (Analysis.on_conn (set_sent (sent (Analysis.conn st) ++ [(i, "pong")])) st, inr tt) ∧
     Analysis.onmessage Text_pong now st = (st, inr tt)).
Proof.
  split.
  - intros taskId status st0 evs i now st Hopen.
    pose proof (td_reachable_steady taskId status st0 evs) as HS. fold st in HS.
    clearbody st. destruct (link_ping_pong taskId (TaskDetail.conn st) i HS Hopen) as [Hw Hsend].
    split.
    + unfold TaskDetail.onmessage, bind, read, TaskDetail.ws_send. simpl.
      rewrite Hw. rewrite bool_decide_eq_true_2 by eauto. simpl. by rewrite ?Hw, Hsend.
    + unfold TaskDetail.onmessage, bind, read. simpl. by destruct st as [c p f l].
  - intros task_id status st0 evs i now st Hopen.
    pose proof (an_reachable_steady task_id status st0 evs) as HS. fold st in HS.
    clearbody st. destruct (link_ping_pong task_id (Analysis.conn st) i HS Hopen) as [Hw Hsend].
    split.
    + unfold Analysis.onmessage, bind, read, Analysis.ws_send. simpl.
      rewrite Hw. rewrite bool_decide_eq_true_2 by eauto. simpl. by rewrite ?Hw, Hsend.
    + unfold Analysis.onmessage, bind, read. simpl. by destruct st as [c p f l].
Qed.
End LifecycleClaims.


(** ** The claims about the message handler and the connectivity flag *)

Lemma is_string_true v text : is_string v text = true → v = JStr text.
Proof.
  destruct v; try done. simpl. intros Heq. apply String.eqb_eq in Heq. by subst.
Qed.

Lemma progress_of_Some frame payload :
  progress_of frame = Some payload →
  ∃ message, frame = Text_JSON message ∧
             get message "type" = inr (JStr "progress") ∧
             get message "data" = inr payload.
Proof.
  destruct frame as [| |message|]; try done. simpl.
  destruct (get message "type") as [|type] eqn:Hget; [done|].
  destruct (get message "data") as [|data] eqn:Hdata; [done|].
  destruct (is_string type "progress") eqn:Hty; [|done].
  intros [= <-]. apply is_string_true in Hty as ->. by exists message.
Qed.

Section MessageClaims.
Context `{Coercions}.

Lemma an_step_message task_id status st i data now :
  state_of i (Analysis.conn st) = Some OPEN →
  Analysis.step task_id status st (Ev_message i data now) =
    (Analysis.onmessage data now st).1.
Proof. intros Hopen. simpl. by rewrite Hopen. Qed.

Lemma td_step_message taskId status st i data now :
  state_of i (TaskDetail.conn st) = Some OPEN →
  TaskDetail.step taskId status st (Ev_message i data now) =
    (TaskDetail.onmessage taskId data now st).1.
Proof. intros Hopen. simpl. by rewrite Hopen. Qed.

(** Once React has committed a snapshot that has processed [N] papers,
    frames it supersedes, each committed in turn, leave it in place. *)
Lemma an_in_turn_keeps task_id status N payload i now later st :
  get payload "processed" = inr (JNum N) →
  Analysis.taskProgress st = payload → Analysis.taskProgressRef st = payload →
  forallb (superseded N) later = true →
  Analysis.taskProgress (Analysis.run task_id status st (in_turn i now later)) = payload.
Proof.
  intros HN. revert st. induction later as [|d later IH]; intros st Hheld Href Hsup; [done|].
  simpl in Hsup. apply andb_prop in Hsup as [Hd Hlater].
  unfold in_turn. rewrite bind_cons. fold (in_turn i now later).
  rewrite an_run_app. apply IH; [| |done].
  - simpl. destruct (state_of i (Analysis.conn st)) as [[]|]; simpl; try done.
    rewrite an_onmessage_superseded with (N := N); [done|done|]. by rewrite Href.
  - simpl. destruct (state_of i (Analysis.conn st)) as [[]|]; simpl; try done.
    rewrite an_onmessage_superseded with (N := N); [done|done|]. by rewrite Href.
Qed.

(** C2, as amended. At the Analysis page a "progress" message replaces the
    held snapshot unconditionally: right after the handler has run the held
    snapshot is the message's payload, whatever was received before; and it
    is still that payload at the end of any sequence that continues with
    frames the payload supersedes (keep-alives, frames that do not parse,
    messages of other kinds, status messages whose processed count does not
    exceed the payload's), each frame handled after React has committed the
    result of the one before. *)
Theorem C2_last_progress_kept task_id status st i now frame payload :
  state_of i (Analysis.conn st) = Some OPEN →
  progress_of frame = Some payload →
  Analysis.taskProgress (Analysis.step task_id status st (Ev_message i frame now)) = payload ∧
  (∀ N later,
     get payload "processed" = inr (JNum N) → forallb (superseded N) later = true →
     Analysis.taskProgress
       (Analysis.run task_id status st (in_turn i now (frame :: later))) = payload).
Proof.
  intros Hopen Hframe.
  destruct (progress_of_Some frame payload Hframe) as (message & -> & Hty & Hdata).
  assert (Analysis.step task_id status st (Ev_message i (Text_JSON message) now) =
          Analysis.setTaskProgress payload st) as Hstep.
  { rewrite an_step_message by done. by rewrite (an_onmessage_progress message payload). }
  split; [by rewrite Hstep|].
  intros N later HN Hsup. unfold in_turn. rewrite bind_cons. fold (in_turn i now later).
  rewrite an_run_app. apply an_in_turn_keeps with (N := N); try done.
  - unfold Analysis.run. cbn [fold_left]. by rewrite Hstep.
  - unfold Analysis.run. cbn [fold_left]. by rewrite Hstep.
Qed.

(** C3, as amended. On a "completed" message the handler asks its owner to
    refresh, each request exactly once, and fetches nothing itself: at the
    Analysis page it clears the held snapshot, calls [refetchActiveTask]
    once and invalidates the "tasks" query once; at the TaskDetail page it
    invalidates the four queries "taskStatus", "taskResults",
    "taskAnalytics" and "activeTask" once each and leaves the held snapshot
    as it is. Nothing else changes, and nothing is thrown. *)
Theorem C3_completed_refresh message now :
  get message "type" = inr (JStr "completed") →
  (∀ st, Analysis.onmessage (Text_JSON message) now st =
     ({| Analysis.conn := Analysis.conn st;
         Analysis.taskProgress := JNull;
         Analysis.taskProgressRef := Analysis.taskProgressRef st;
         Analysis.notices :=
           Analysis.notices st ++
             [Set_taskProgress JNull; Refetch_activeTask; Invalidate ["tasks"]] |},
      inr tt)) ∧
  (∀ taskId st, TaskDetail.onmessage taskId (Text_JSON message) now st =
     ({| TaskDetail.conn := TaskDetail.conn st;
         TaskDetail.taskProgress := TaskDetail.taskProgress st;
         TaskDetail.wsConnected := TaskDetail.wsConnected st;
         TaskDetail.notices :=
           TaskDetail.notices st ++
             [Invalidate ["taskStatus"; taskId]; Invalidate ["taskResults"; taskId];
              Invalidate ["taskAnalytics"; taskId]; Invalidate ["activeTask"]] |},
      inr tt)).
Proof.
  intros Hty. split.
  - intros st. rewrite an_onmessage_completed by done.
    unfold Analysis.invalidateQueries, Analysis.refetchActiveTask, Analysis.setTaskProgress.
    simpl. by rewrite <- !app_assoc.
  - intros taskId st. rewrite td_onmessage_completed by done.
    unfold TaskDetail.invalidateQueries. simpl. by rewrite <- !app_assoc.
Qed.

(** C8, as amended. At both pages: a frame that is not a keep-alive and
    that [JSON.parse] rejects leaves the whole state as it was (held
    snapshot, ref, connectivity flag, notices, sockets and timeouts: the
    connection is not closed) and the handler returns normally; so does a
    frame that parses to a value the handler has no branch for (a type other
    than "progress", "status" and "completed", no type, not an object); and
    whatever the frame, once past the keep-alive test the handler throws
    nothing to its caller. (A frame that parses to a message of a type the
    handler has a branch for is handled as such, whatever its payload; that
    is left aside.) *)
Theorem C8_unparseable_frame_ignored data e now :
  is_ping data = false → is_pong data = false → JSON_parse data = inl e →
  (∀ taskId st, TaskDetail.onmessage taskId data now st = (st, inr tt)) ∧
  (∀ taskId status st i, TaskDetail.step taskId status st (Ev_message i data now) = st) ∧
  (∀ st, Analysis.onmessage data now st = (st, inr tt)) ∧
  (∀ task_id status st i, Analysis.step task_id status st (Ev_message i data now) = st) ∧
  (∀ message taskId (st : TaskDetail.State) (st' : Analysis.State),
     other_kind message = true →
     TaskDetail.onmessage taskId (Text_JSON message) now st = (st, inr tt) ∧
     Analysis.onmessage (Text_JSON message) now st' = (st', inr tt)) ∧
  (∀ frame taskId (st : TaskDetail.State) (st' : Analysis.State),
     is_ping frame = false →
     (TaskDetail.onmessage taskId frame now st).2 = inr tt ∧
     (Analysis.onmessage frame now st').2 = inr tt).
Proof.
  intros Hping Hpong Hparse. split_and!.
  - intros taskId st. by eapply td_onmessage_unparseable.
  - intros taskId status st i. simpl.
    destruct (state_of i (TaskDetail.conn st)) as [[]|]; try done.
    by erewrite td_onmessage_unparseable.
  - intros st. by eapply an_onmessage_unparseable.
  - intros task_id status st i. simpl.
    destruct (state_of i (Analysis.conn st)) as [[]|]; try done.
    by erewrite an_onmessage_unparseable.
  - intros message taskId st st' Hkind. split.
    + by apply td_onmessage_other_kind.
    + by apply an_onmessage_other_kind.
  - intros frame taskId st st' Hframe. split.
    + by apply td_onmessage_never_throws.
    + by apply an_onmessage_never_throws.
Qed.

(** C9, as amended. At the TaskDetail page, when a socket's open event
    fires the connectivity flag becomes true and the owner is told so, and
    when a socket's close event fires while its [onclose] is in place (that
    is, until the cleanup) the flag becomes false and the owner is told so.
    The Analysis page keeps no connectivity flag: there the open and close
    events tell the owner nothing and leave the progress state alone. *)
Theorem C9_connectivity_flag :
  (∀ taskId status st i,
     state_of i (TaskDetail.conn st) = Some CONNECTING →
     let st' := TaskDetail.step taskId status st (Ev_open i) in
     TaskDetail.wsConnected st' = true ∧
     TaskDetail.notices st' = (TaskDetail.notices st ++ [Set_wsConnected true])%list ∧
     TaskDetail.taskProgress st' = TaskDetail.taskProgress st) ∧
  (∀ taskId status st i s,
     sockets (TaskDetail.conn st) !! i = Some s → readyState s ≠ CLOSED →
     Browser.onclose s = true →
     let st' := TaskDetail.step taskId status st (Ev_close i) in
     TaskDetail.wsConnected st' = false ∧
     TaskDetail.notices st' = (TaskDetail.notices st ++ [Set_wsConnected false])%list ∧
     TaskDetail.taskProgress st' = TaskDetail.taskProgress st) ∧
  (∀ task_id status st i,
     let opened := Analysis.step task_id status st (Ev_open i) in
     let closed := Analysis.step task_id status st (Ev_close i) in
     Analysis.notices opened = Analysis.notices st ∧
     Analysis.taskProgress opened = Analysis.taskProgress st ∧
     Analysis.notices closed = Analysis.notices st ∧
     Analysis.taskProgress closed = Analysis.taskProgress st).
Proof.
  split_and!.
  - intros taskId status st i Hst st'. subst st'. simpl. by rewrite Hst.
  - intros taskId status st i s Hs Hl Hon st'. subst st'. simpl. rewrite Hs, Hon.
    unfold TaskDetail.onclose. simpl.
    destruct (readyState s); try done;
      by destruct (isMounted (TaskDetail.conn st) && is_running status).
  - intros task_id status st i opened closed. subst opened closed. simpl. split_and!.
    + by destruct (state_of i (Analysis.conn st)) as [[]|].
    + by destruct (state_of i (Analysis.conn st)) as [[]|].
    + destruct (sockets (Analysis.conn st) !! i) as [s|]; [|done].
      unfold Analysis.onclose. simpl.
      destruct (readyState s), (Browser.onclose s); try done;
        by destruct (isMounted (Analysis.conn st)), status.
    + destruct (sockets (Analysis.conn st) !! i) as [s|]; [|done].
      unfold Analysis.onclose. simpl.
      destruct (readyState s), (Browser.onclose s); try done;
        by destruct (isMounted (Analysis.conn st)), status.
Qed.
End MessageClaims.


(** ** The claims on concrete runs

    Task "t1" running, the effect started from a freshly created store
    ([td_start]) or a freshly mounted component ([an_start]); socket 0 is
    the first socket, timeout 1 the first timeout. *)

Import Samples.

(** C1. The guard is right at the TaskDetail page, which reads the store
    ([td_recency_guard]). At the Analysis page it reads the ref
    ([an_recency_guard]), and the ref lags: with a snapshot that has
    processed 5 papers held, and not yet committed by React, a status
    message that has processed 4 replaces it. The same frames at the
    TaskDetail page leave the 5 in place. *)
Theorem C1_status_guard_reads_stale_ref :
  let held := an_run an_start [Ev_open 0; Ev_message 0 (progress_frame 5) noon] in
  let late := an_run held [Ev_message 0 (status_frame 4) noon] in
  get (Analysis.taskProgress held) "processed" = inr (JNum 5) ∧
  Analysis.taskProgressRef held = JNull ∧
  get (Analysis.taskProgress late) "processed" = inr (JNum 4) ∧
  get (TaskDetail.taskProgress
         (td_run td_start [Ev_open 0; Ev_message 0 (progress_frame 5) noon;
                           Ev_message 0 (status_frame 4) noon])) "processed" = inr (JNum 5).
Proof. by vm_compute. Qed.

(** C2 as the specification words it fails on progress(5) followed by
    status(7), each committed in turn: the last progress message carried 5,
    the held snapshot ends at 7. *)
Lemma C2_newer_status_displaces_progress :
  let frames := [progress_frame 5; status_frame 7] in
  let st := an_run an_start (Ev_open 0 :: in_turn 0 noon frames) in
  last (omap progress_of frames) = Some (progress_payload 5) ∧
  get (Analysis.taskProgress st) "processed" = inr (JNum 7) ∧
  Analysis.taskProgress st ≠ progress_payload 5.
Proof. by vm_compute. Qed.

(** status(3), progress(5), status(4), each committed in turn: 5 stays. *)
Lemma C2_last_progress_kept_witness :
  let st := an_run an_start (Ev_open 0 :: in_turn 0 noon [status_frame 3]) in
  let later := [status_frame 4; Text_ping; Text_other] in
  state_of 0 (Analysis.conn st) = Some OPEN ∧
  progress_of (progress_frame 5) = Some (progress_payload 5) ∧
  get (progress_payload 5) "processed" = inr (JNum 5) ∧
  forallb (superseded 5) later = true ∧
  get (Analysis.taskProgress st) "processed" = inr (JNum 3) ∧
  Analysis.taskProgress (an_run st (in_turn 0 noon (progress_frame 5 :: later))) =
    progress_payload 5.
Proof.
  cbv zeta. repeat (split; [reflexivity|]).
  apply (@C2_last_progress_kept sample_coercions "t1" running _ 0%nat noon
           (progress_frame 5) (progress_payload 5)); reflexivity.
Defined.

(** C3 as the specification words it fails at the TaskDetail page: a
    snapshot held when "completed" arrives is still held afterwards. *)
Lemma C3_taskdetail_keeps_snapshot :
  let st := td_run td_start [Ev_open 0; Ev_message 0 (progress_frame 5) noon] in
  let st' := td_run st [Ev_message 0 completed_frame noon] in
  TaskDetail.taskProgress st = progress_payload 5 ∧
  TaskDetail.taskProgress st' = progress_payload 5 ∧
  TaskDetail.taskProgress st' ≠ JNull.
Proof. by vm_compute. Qed.

Lemma C3_completed_refresh_witness :
  let message := envelope "completed" (JStr "Task completed") in
  let st := an_run an_start [Ev_open 0; Ev_message 0 (progress_frame 5) noon] in
  get message "type" = inr (JStr "completed") ∧
  Analysis.taskProgress st = progress_payload 5 ∧
  Analysis.taskProgress
    (@Analysis.onmessage sample_coercions (Text_JSON message) noon st).1 = JNull ∧
  TaskDetail.notices
    (@TaskDetail.onmessage sample_coercions "t1" (Text_JSON message) noon td_start).1 =
    [Invalidate ["taskStatus"; "t1"]; Invalidate ["taskResults"; "t1"];
     Invalidate ["taskAnalytics"; "t1"]; Invalidate ["activeTask"]].
Proof.
  cbv zeta. do 2 (split; [reflexivity|]). split.
  - rewrite (proj1 (@C3_completed_refresh sample_coercions
                      (envelope "completed" (JStr "Task completed")) noon eq_refl)).
    reflexivity.
  - rewrite (proj2 (@C3_completed_refresh sample_coercions
                      (envelope "completed" (JStr "Task completed")) noon eq_refl)).
    reflexivity.
Defined.

(** The cleanup run before the socket has opened; then the close event,
    the first timeout's id, and the cleanup once more. *)
Lemma C4_cleanup_stops_reconnection_witness :
  let stopped := td_run td_start [Ev_cleanup] in
  let later := td_run stopped [Ev_close 0; Ev_timeout 1; Ev_cleanup] in
  let held := {| url := Api.ws_url "t1"; readyState := CLOSING; onclose := false |} in
  state_of 0 (TaskDetail.conn td_start) = Some CONNECTING ∧
  ws (TaskDetail.conn td_start) = Some 0%nat ∧
  sockets (TaskDetail.conn stopped) !! 0%nat = Some held ∧
  td_run stopped [Ev_cleanup] = stopped ∧
  (onclose held = false ∧ (readyState held = CLOSING ∨ readyState held = CLOSED)) ∧
  (isMounted (TaskDetail.conn later) = false ∧
   timers (TaskDetail.conn later) = [] ∧
   length (sockets (TaskDetail.conn later)) = length (sockets (TaskDetail.conn td_start))).
Proof.
  cbv zeta. do 3 (split; [reflexivity|]).
  pose proof (proj1 (@C4_cleanup_stops_reconnection sample_coercions)
                "t1" (Some running) (TaskDetail.init 1) []
                [Ev_close 0%nat; Ev_timeout 1; Ev_cleanup]) as (Hlater & Hheld & Htwice).
  split; [exact Htwice|]. split; [|exact Hlater].
  apply (Hheld 0%nat); reflexivity.
Defined.

(** The first socket, open, drops; and three drops in a row; and a drop
    after the cleanup. *)
Lemma C5_reconnect_after_close_witness :
  let st := td_run td_start [Ev_open 0] in
  let s := {| url := Api.ws_url "t1"; readyState := OPEN; onclose := true |} in
  let stopped := td_run st [Ev_cleanup] in
  sockets (TaskDetail.conn st) !! 0%nat = Some s ∧
  readyState s ≠ CLOSED ∧
  isMounted (TaskDetail.conn st) = true ∧
  is_running (Some running) = true ∧
  "t1" ≠ EmptyString ∧
  isMounted (TaskDetail.conn stopped) = false ∧
  (Link.one_reconnect_scheduled (TaskDetail.conn st) (TaskDetail.conn (td_run st [Ev_close 0])) ∧
   Link.reconnected "t1" (TaskDetail.conn (td_run st [Ev_close 0]))
     (TaskDetail.conn (td_run st [Ev_close 0; Ev_timeout 1]))) ∧
  (isMounted (TaskDetail.conn (td_run td_start (Link.drops 3 0 1))) = true ∧
   length (sockets (TaskDetail.conn (td_run td_start (Link.drops 3 0 1)))) = 4%nat ∧
   state_of 3 (TaskDetail.conn (td_run td_start (Link.drops 3 0 1))) = Some CONNECTING ∧
   Link.one_reconnect_scheduled (TaskDetail.conn (td_run td_start (Link.drops 3 0 1)))
     (TaskDetail.conn
        (@TaskDetail.step sample_coercions "t1" (Some running)
           (td_run td_start (Link.drops 3 0 1)) (Ev_close 3)))) ∧
  Link.nothing_scheduled (TaskDetail.conn stopped)
    (TaskDetail.conn (td_run stopped [Ev_close 0])).
Proof.
  cbv zeta. split; [reflexivity|]. split; [discriminate|].
  do 2 (split; [reflexivity|]). split; [discriminate|]. split; [reflexivity|].
  destruct (@C5_reconnect_after_close sample_coercions) as (Hclose & Hdrops & Hoff & _).
  split; [|split].
  - apply (Hclose "t1" (Some running) (TaskDetail.init 1) [Ev_open 0%nat] 0%nat
             {| url := Api.ws_url "t1"; readyState := OPEN; onclose := true |});
      [reflexivity | discriminate | reflexivity | reflexivity].
  - apply (Hdrops "t1" (TaskDetail.init 1) 3%nat). discriminate.
  - apply (Hoff "t1" (Some running) (td_run (td_run td_start [Ev_open 0%nat]) [Ev_cleanup]) 0%nat).
    left. reflexivity.
Defined.

(** A ping and a pong on the first socket, open. *)
Lemma C7_ping_pong_witness :
  let st := td_run td_start [Ev_open 0] in
  state_of 0 (TaskDetail.conn st) = Some OPEN ∧
  sent (TaskDetail.conn st) = [] ∧
  @TaskDetail.onmessage sample_coercions "t1" Text_ping noon st =
    (TaskDetail.on_conn (set_sent (sent (TaskDetail.conn st) ++ [(0%nat, "pong")])) st, inr tt) ∧
  @TaskDetail.onmessage sample_coercions "t1" Text_pong noon st = (st, inr tt).
Proof.
  cbv zeta. do 2 (split; [reflexivity|]).
  apply (proj1 (@C7_ping_pong sample_coercions) "t1" (Some running) (TaskDetail.init 1)
           [Ev_open 0%nat] 0%nat noon).
  reflexivity.
Defined.

(** C8 as the specification words it fails on a frame that is JSON but not
    the expected envelope, a "progress" message that has no [data]: at
    either page a held snapshot is replaced by [undefined]. *)
Lemma C8_partial_envelope_displaces_snapshot :
  let frame := Text_JSON bare_progress in
  let td := td_run td_start [Ev_open 0; Ev_message 0 (progress_frame 5) noon] in
  let an := an_run an_start [Ev_open 0; Ev_message 0 (progress_frame 5) noon] in
  JSON_parse frame = inr bare_progress ∧
  get bare_progress "data" = inr JUndefined ∧
  TaskDetail.taskProgress td = progress_payload 5 ∧
  TaskDetail.taskProgress (td_run td [Ev_message 0 frame noon]) = JUndefined ∧
  Analysis.taskProgress an = progress_payload 5 ∧
  Analysis.taskProgress (an_run an [Ev_message 0 frame noon]) = JUndefined ∧
  TaskDetail.taskProgress (td_run td [Ev_message 0 frame noon]) ≠
    TaskDetail.taskProgress td.
Proof. cbv zeta. split_and!; try reflexivity. discriminate. Qed.

(** A text that is neither a keep-alive nor JSON, with a snapshot held. *)
Lemma C8_unparseable_frame_ignored_witness :
  let st := td_run td_start [Ev_open 0; Ev_message 0 (progress_frame 5) noon] in
  is_ping Text_other = false ∧ is_pong Text_other = false ∧
  JSON_parse Text_other = inl SyntaxError ∧
  other_kind (envelope "error" (JStr "Task failed")) = true ∧
  is_ping error_frame = false ∧
  TaskDetail.taskProgress st = progress_payload 5 ∧
  @TaskDetail.onmessage sample_coercions "t1" Text_other noon st = (st, inr tt) ∧
  @TaskDetail.onmessage sample_coercions "t1" error_frame noon st = (st, inr tt) ∧
  (@Analysis.onmessage sample_coercions error_frame noon an_start).2 = inr tt.
Proof.
  cbv zeta. do 6 (split; [reflexivity|]).
  destruct (@C8_unparseable_frame_ignored sample_coercions Text_other SyntaxError noon
              eq_refl eq_refl eq_refl) as (Hhandler & _ & _ & _ & Hkind & Hthrows).
  split; [apply Hhandler|]. split.
  - apply (Hkind (envelope "error" (JStr "Task failed")) "t1" _ an_start). reflexivity.
  - apply (Hthrows error_frame "t1" td_start an_start). reflexivity.
Defined.

(** C9 as the specification words it fails at the Analysis page: the open
    event, and then the close event, tell the owner nothing; no
    connectivity flag is set to anything. *)
Lemma C9_analysis_keeps_no_flag :
  let opened := an_run an_start [Ev_open 0] in
  let closed := an_run opened [Ev_close 0] in
  state_of 0 (Analysis.conn an_start) = Some CONNECTING ∧
  state_of 0 (Analysis.conn opened) = Some OPEN ∧
  Analysis.notices opened = [] ∧
  (Set_wsConnected true ∉ Analysis.notices opened) ∧
  state_of 0 (Analysis.conn closed) = Some CLOSED ∧
  Analysis.notices closed = [] ∧
  (Set_wsConnected false ∉ Analysis.notices closed).
Proof.
  cbv zeta. split_and!; try reflexivity; apply not_elem_of_nil.
Qed.

Lemma C9_connectivity_flag_witness :
  let s := {| url := Api.ws_url "t1"; readyState := OPEN; onclose := true |} in
  let opened := td_run td_start [Ev_open 0] in
  let closed := td_run opened [Ev_close 0] in
  state_of 0 (TaskDetail.conn td_start) = Some CONNECTING ∧
  sockets (TaskDetail.conn opened) !! 0%nat = Some s ∧
  readyState s ≠ CLOSED ∧ onclose s = true ∧
  TaskDetail.wsConnected td_start = false ∧
  (TaskDetail.wsConnected opened = true ∧
   TaskDetail.notices opened = (TaskDetail.notices td_start ++ [Set_wsConnected true])%list ∧
   TaskDetail.taskProgress opened = TaskDetail.taskProgress td_start) ∧
  (TaskDetail.wsConnected closed = false ∧
   TaskDetail.notices closed = (TaskDetail.notices opened ++ [Set_wsConnected false])%list ∧
   TaskDetail.taskProgress closed = TaskDetail.taskProgress opened).
Proof.
  cbv zeta. do 2 (split; [reflexivity|]). split; [discriminate|].
  do 2 (split; [reflexivity|]).
  destruct (@C9_connectivity_flag sample_coercions) as (Hopen & Hclose & _).
  split.
  - apply (Hopen "t1" (Some running) td_start 0%nat). reflexivity.
  - apply (Hclose "t1" (Some running) (td_run td_start [Ev_open 0%nat]) 0%nat
             {| url := Api.ws_url "t1"; readyState := OPEN; onclose := true |});
      [reflexivity | discriminate | reflexivity].
Defined.

(** ** More about the connection: what is sent, what is created, what
    the cleanup leaves, and what keeps the client connected *)

Section LinkMore.
Variable task : string.
Variable task_running : bool.

(** An event leaves what has been sent alone, or it is a ping and one
    "pong" is added. *)
Lemma link_step_sent c ev :
  sent (Link.step task task_running c ev) = sent c ∨
  (is_ping_event ev = true ∧
   ∃ i, sent (Link.step task task_running c ev) = (sent c ++ [(i, "pong")])%list).
Proof.
  destruct ev as [i|i data now|i|i|t| |]; simpl; try by left.
  - left. by destruct (state_of i c) as [[]|].
  - destruct (state_of i c) as [[]|]; try by left.
    destruct (is_ping data) eqn:Hping; [|by left]. unfold Link.pong.
    destruct (ws c) as [j|]; [|by left]. unfold send.
    destruct (state_of j c) as [[]|]; simpl; try by left.
    right. split; [done|]. by exists j.
  - left. destruct (sockets c !! i) as [s|]; [|done].
    unfold Link.onclose. simpl.
    by destruct (readyState s), (Browser.onclose s), (isMounted c && task_running).
  - left. destruct (is_pending t c); [|done]. unfold Link.connect. simpl.
    by destruct (isMounted c).
  - left. unfold Link.cleanup. simpl.
    set (c2 := match reconnectTimeout c with
               | Some t => clearTimeout t (set_isMounted false c)
               | None => set_isMounted false c
               end).
    assert (sent c2 = sent c) as Hs2 by (subst c2; by destruct (reconnectTimeout c)).
    destruct (ws c2) as [i|]; [|done].
    unfold close. by destruct (state_of i (assign_onclose i false c2)) as [[]|].
Qed.

Lemma link_run_sent c evs :
  Forall (λ m, m.2 = "pong") (sent c) →
  Forall (λ m, m.2 = "pong") (sent (Link.run task task_running c evs)) ∧
  (length (sent (Link.run task task_running c evs)) ≤
     length (sent c) + count is_ping_event evs)%nat.
Proof.
  revert c. induction evs as [|ev evs IH]; intros c Hc.
  { simpl. split; [done | lia]. }
  rewrite run_cons. cbn [count].
  destruct (link_step_sent c ev) as [Hsame|(Hping & i & Hmore)].
  - destruct (IH (Link.step task task_running c ev)) as [Hall Hlen]; [by rewrite Hsame|].
    split; [done|]. rewrite Hsame in Hlen. destruct (is_ping_event ev); lia.
  - destruct (IH (Link.step task task_running c ev)) as [Hall Hlen].
    { rewrite Hmore. apply Forall_app. split; [done|]. by repeat constructor. }
    split; [done|]. rewrite Hmore, length_app in Hlen. simpl in Hlen.
    rewrite Hping. lia.
Qed.

(** An event creates no socket, unless it is a timeout, which creates at
    most one. *)
Lemma link_step_sockets c ev :
  (length (sockets (Link.step task task_running c ev)) ≤
     length (sockets c) + (if is_timeout_event ev then 1 else 0))%nat.
Proof.
  destruct ev as [i|i data now|i|i|t| |]; simpl; try lia.
  - destruct (state_of i c) as [[]|]; simpl; rewrite ?length_alter; lia.
  - destruct (state_of i c) as [[]|]; try lia.
    destruct (is_ping data); [|lia]. unfold Link.pong.
    destruct (ws c) as [j|]; [|lia]. unfold send.
    destruct (state_of j c) as [[]|]; simpl; lia.
  - destruct (sockets c !! i) as [s|]; [|lia].
    unfold Link.onclose. simpl.
    destruct (readyState s), (Browser.onclose s), (isMounted c && task_running); simpl;
      rewrite ?length_alter; lia.
  - destruct (is_pending t c); [|lia]. unfold Link.connect. simpl.
    destruct (isMounted c); simpl; rewrite ?length_alter, ?length_app; simpl; lia.
  - rewrite cleanup_length. lia.
Qed.

Lemma link_run_sockets c evs :
  (length (sockets (Link.run task task_running c evs)) ≤
     length (sockets c) + count is_timeout_event evs)%nat.
Proof.
  revert c. induction evs as [|ev evs IH]; intros c; [simpl; lia|].
  rewrite run_cons. cbn [count].
  pose proof (IH (Link.step task task_running c ev)) as Hlen.
  pose proof (link_step_sockets c ev) as Hstep. lia.
Qed.

(** *** After the cleanup *)

Lemma cleanup_ws c : ws (Link.cleanup c) = ws c.
Proof.
  unfold Link.cleanup. simpl.
  set (c2 := match reconnectTimeout c with
             | Some t => clearTimeout t (set_isMounted false c)
             | None => set_isMounted false c
             end).
  assert (ws c2 = ws c) as Hw2 by (subst c2; by destruct (reconnectTimeout c)).
  destruct (ws c2) as [i|] eqn:Hw; [|congruence].
  unfold close. destruct (state_of i (assign_onclose i false c2)) as [[]|]; simpl; congruence.
Qed.

Lemma cleanup_sent c : sent (Link.cleanup c) = sent c.
Proof.
  destruct (link_step_sent c Ev_cleanup) as [Hsame|(Hping & _)]; done.
Qed.

Lemma silent_cleanup c : Link.Steady task c → Silent (Link.cleanup c).
Proof.
  intros HS. destruct (stopped_cleanup task c HS) as [Hm Ht].
  pose proof (steady_cleanup task c HS) as [Hlive _ _ _].
  split; [done|]. apply Forall_lookup. intros j s Hs.
  destruct (decide (readyState s = CLOSED)) as [|Hl]; [by left|]. right.
  pose proof (Hlive j s Hs Hl) as Hw. rewrite cleanup_ws in Hw.
  destruct (cleanup_detaches c j s Hw Hs) as [Hoff [Hr|Hr]]; done.
Qed.

(** Nothing comes out of a silent connection, whatever reaches it: it stays
    silent, sends nothing and creates no socket. *)
Lemma silent_step c ev :
  Silent c →
  Silent (Link.step task task_running c ev) ∧
  sent (Link.step task task_running c ev) = sent c ∧
  length (sockets (Link.step task task_running c ev)) = length (sockets c).
Proof.
  intros HQ. pose proof HQ as (Ht & Hall).
  assert (∀ i, state_of i c ≠ Some CONNECTING ∧ state_of i c ≠ Some OPEN) as Hquiet.
  { intros i. unfold state_of. destruct (sockets c !! i) as [s|] eqn:Hs; [|done].
    simpl. destruct (Forall_lookup_1 _ _ _ _ Hall Hs) as [Hr|[Hr _]]; rewrite Hr; done. }
  destruct ev as [i|i data now|i|i|t| |]; simpl; try done.
  - destruct (Hquiet i) as [H1 H2]. by destruct (state_of i c) as [[]|].
  - destruct (Hquiet i) as [H1 H2]. by destruct (state_of i c) as [[]|].
  - destruct (sockets c !! i) as [s|] eqn:Hs; [|done].
    destruct (Forall_lookup_1 _ _ _ _ Hall Hs) as [Hr|[Hr Hoff]]; rewrite Hr; [done|].
    rewrite Hoff. simpl. rewrite length_alter. split_and!; try done.
    split; [done|]. simpl. apply Forall_alter; [done|]. intros s' _. by left.
  - unfold is_pending. rewrite Ht. done.
  - split_and!; [|apply cleanup_sent|apply cleanup_length].
    unfold Link.cleanup. simpl.
    set (c2 := match reconnectTimeout c with
               | Some t => clearTimeout t (set_isMounted false c)
               | None => set_isMounted false c
               end).
    assert (timers c2 = [] ∧ sockets c2 = sockets c) as (Ht2 & Hs2).
    { subst c2. destruct (reconnectTimeout c); simpl; by rewrite ?Ht. }
    assert (Silent c2) as HS2 by (unfold Silent; by rewrite Ht2, Hs2).
    destruct (ws c2) as [i|]; [|done].
    assert (Silent (assign_onclose i false c2)) as HQ3.
    { split; [done|]. simpl. rewrite Hs2.
      apply Forall_alter; [done|]. intros s' Hs'. simpl.
      destruct (Forall_lookup_1 _ _ _ _ Hall Hs') as [Hr|[Hr _]]; eauto. }
    pose proof HQ3 as (Ht3 & Hall3).
    unfold close, state_of.
    destruct (sockets (assign_onclose i false c2) !! i) as [s|] eqn:Hs; [|done].
    simpl. by destruct (Forall_lookup_1 _ _ _ _ Hall3 Hs) as [Hr|[Hr _]]; rewrite Hr.
Qed.

Lemma silent_run c evs :
  Silent c →
  Silent (Link.run task task_running c evs) ∧
  sent (Link.run task task_running c evs) = sent c ∧
  length (sockets (Link.run task task_running c evs)) = length (sockets c).
Proof.
  revert c. induction evs as [|ev evs IH]; intros c HQ; [done|].
  rewrite run_cons. destruct (silent_step c ev HQ) as (HQ' & Hsent & Hlen).
  destruct (IH _ HQ') as (H1 & H2 & H3). split_and!; [done | congruence | congruence].
Qed.

Lemma silent_fresh n : Silent (fresh n).
Proof. split; [done | by constructor]. Qed.

(** *** While the effect is mounted *)

Lemma kept_start n : Kept (Link.connect task (fresh n)).
Proof.
  rewrite connect_mounted by done. split; [done|]. left.
  eexists 0%nat, _. simpl. split_and!; done.
Qed.

Lemma kept_step c ev :
  Link.Steady task c → Kept c → is_cleanup_event ev = false →
  Kept (Link.step task true c ev).
Proof.
  intros HS HK Hev. pose proof HK as [Hm Hup].
  destruct ev as [i|i data now|i|i|t| |]; simpl; try done.
  - unfold state_of. destruct (sockets c !! i) as [s|] eqn:Hs; simpl; [|done].
    destruct (readyState s) eqn:Hr; try done.
    split; [done|]. destruct Hup as [(j & s' & Hw & Hs' & Hl)|Htm]; [|by right].
    left. destruct (decide (i = j)) as [->|Hne].
    + eexists j, _. split_and!; [done| |].
      * unfold set_readyState. simpl. rewrite list_lookup_alter_eq, Hs'. done.
      * done.
    + exists j, s'. split_and!; try done.
      unfold set_readyState. simpl. by rewrite list_lookup_alter_ne.
  - destruct (state_of i c) as [[]|]; try done.
    destruct (is_ping data); [|done]. unfold Link.pong.
    destruct (ws c) as [j|]; [|done]. unfold send.
    destruct (state_of j c) as [[]|]; simpl; done.
  - destruct (sockets c !! i) as [s|] eqn:Hs; [|done].
    destruct (decide (readyState s = CLOSED)) as [Hr|Hl]; [by rewrite Hr|].
    pose proof (close_schedules task true c i s HS Hm eq_refl Hs Hl) as Hclose.
    simpl in Hclose. rewrite Hs in Hclose. rewrite Hclose.
    split; [done|]. by right.
  - destruct (is_pending t c) eqn:Hp; [|done].
    pose proof (timeout_connects task true c t HS Hp) as Hfire.
    simpl in Hfire. rewrite Hp in Hfire. rewrite Hfire.
    split; [done|]. left. eexists _, _. simpl. split_and!; [done| |].
    + rewrite lookup_app_r by lia. by rewrite Nat.sub_diag.
    + done.
Qed.

Lemma kept_run c evs :
  Link.Steady task c → Kept c → count is_cleanup_event evs = 0%nat →
  Kept (Link.run task true c evs).
Proof.
  revert c. induction evs as [|ev evs IH]; intros c HS HK Hno; [done|].
  rewrite run_cons. cbn [count] in Hno.
  destruct (is_cleanup_event ev) eqn:Hev; [lia|].
  apply IH; [by apply steady_step | by apply kept_step | lia].
Qed.
End LinkMore.

(** ** The two pages, over whole runs of their effects *)

Section PagesMore.
Context `{Coercions}.

(** Where the effect leaves the connection: as declared where the guard
    returns, after the first [connect] otherwise. *)
Lemma td_effect_conn taskId status st0 :
  let n := next_timer (TaskDetail.conn st0) in
  TaskDetail.conn (TaskDetail.effect taskId status st0) = fresh n ∨
  (∃ id, taskId = Some id ∧
         TaskDetail.conn (TaskDetail.effect taskId status st0) = Link.connect id (fresh n)).
Proof.
  unfold TaskDetail.effect. destruct taskId as [id|]; [|by left].
  destruct (String.eqb id EmptyString || negb (is_running status)); [by left|].
  right. exists id. split; [done|]. by rewrite td_connect_conn.
Qed.

Lemma an_effect_conn activeTask st0 :
  let n := next_timer (Analysis.conn st0) in
  Analysis.conn (Analysis.effect activeTask st0) = fresh n ∨
  (∃ id status, activeTask = Some (id, status) ∧
         Analysis.conn (Analysis.effect activeTask st0) = Link.connect id (fresh n)).
Proof.
  unfold Analysis.effect. destruct activeTask as [[id status]|]; [|by left].
  destruct (String.eqb id EmptyString || negb (is_running (Some status))); [by left|].
  right. exists id, status. split; [done|]. by rewrite an_connect_conn.
Qed.

Lemma connect_fresh_sent task n : sent (Link.connect task (fresh n)) = [].
Proof. by rewrite connect_mounted. Qed.

Lemma connect_fresh_sockets task n : length (sockets (Link.connect task (fresh n))) = 1%nat.
Proof. by rewrite connect_mounted. Qed.

(** What a page's owner sees does not move while its connection is
    silent. *)
Lemma td_silent_step taskId status st ev :
  Silent (TaskDetail.conn st) →
  let st' := TaskDetail.step taskId status st ev in
  TaskDetail.taskProgress st' = TaskDetail.taskProgress st ∧
  TaskDetail.wsConnected st' = TaskDetail.wsConnected st ∧
  TaskDetail.notices st' = TaskDetail.notices st.
Proof.
  intros (Ht & Hall).
  assert (∀ i, state_of i (TaskDetail.conn st) ≠ Some CONNECTING ∧
               state_of i (TaskDetail.conn st) ≠ Some OPEN) as Hquiet.
  { intros i. unfold state_of.
    destruct (sockets (TaskDetail.conn st) !! i) as [s|] eqn:Hs; [|done].
    simpl. destruct (Forall_lookup_1 _ _ _ _ Hall Hs) as [Hr|[Hr _]]; rewrite Hr; done. }
  destruct ev as [i|i data now|i|i|t| |]; simpl; try done.
  - destruct (Hquiet i) as [H1 H2]. by destruct (state_of i (TaskDetail.conn st)) as [[]|].
  - destruct (Hquiet i) as [H1 H2]. by destruct (state_of i (TaskDetail.conn st)) as [[]|].
  - destruct (sockets (TaskDetail.conn st) !! i) as [s|] eqn:Hs; [|done].
    destruct (Forall_lookup_1 _ _ _ _ Hall Hs) as [Hr|[Hr Hoff]]; rewrite Hr; [done|].
    by rewrite Hoff.
  - unfold is_pending. rewrite Ht. done.
Qed.

Lemma an_silent_step task_id status st ev :
  Silent (Analysis.conn st) →
  let st' := Analysis.step task_id status st ev in
  Analysis.taskProgress st' = Analysis.taskProgress st ∧
  Analysis.notices st' = Analysis.notices st.
Proof.
  intros (Ht & Hall).
  assert (∀ i, state_of i (Analysis.conn st) ≠ Some CONNECTING ∧
               state_of i (Analysis.conn st) ≠ Some OPEN) as Hquiet.
  { intros i. unfold state_of.
    destruct (sockets (Analysis.conn st) !! i) as [s|] eqn:Hs; [|done].
    simpl. destruct (Forall_lookup_1 _ _ _ _ Hall Hs) as [Hr|[Hr _]]; rewrite Hr; done. }
  destruct ev as [i|i data now|i|i|t| |]; simpl; try done.
  - destruct (Hquiet i) as [H1 H2]. by destruct (state_of i (Analysis.conn st)) as [[]|].
  - destruct (Hquiet i) as [H1 H2]. by destruct (state_of i (Analysis.conn st)) as [[]|].
  - destruct (sockets (Analysis.conn st) !! i) as [s|] eqn:Hs; [|done].
    destruct (Forall_lookup_1 _ _ _ _ Hall Hs) as [Hr|[Hr Hoff]]; rewrite Hr; [done|].
    by rewrite Hoff.
  - unfold is_pending. rewrite Ht. done.
Qed.

Lemma td_silent_run taskId status st evs :
  Silent (TaskDetail.conn st) →
  let st' := TaskDetail.run taskId status st evs in
  TaskDetail.taskProgress st' = TaskDetail.taskProgress st ∧
  TaskDetail.wsConnected st' = TaskDetail.wsConnected st ∧
  TaskDetail.notices st' = TaskDetail.notices st.
Proof.
  revert st. induction evs as [|ev evs IH]; intros st HQ; [done|].
  cbv zeta. cbn [TaskDetail.run fold_left].
  destruct (td_silent_step taskId status st ev HQ) as (H1 & H2 & H3).
  destruct (IH (TaskDetail.step taskId status st ev)) as (H4 & H5 & H6).
  { rewrite td_step_conn. by apply silent_step. }
  unfold TaskDetail.run in *. split_and!; congruence.
Qed.

Lemma an_silent_run task_id status st evs :
  Silent (Analysis.conn st) →
  let st' := Analysis.run task_id status st evs in
  Analysis.taskProgress st' = Analysis.taskProgress st ∧
  Analysis.notices st' = Analysis.notices st.
Proof.
  revert st. induction evs as [|ev evs IH]; intros st HQ; [done|].
  cbv zeta. cbn [Analysis.run fold_left].
  destruct (an_silent_step task_id status st ev HQ) as (H1 & H2).
  destruct (IH (Analysis.step task_id status st ev)) as (H4 & H5).
  { rewrite an_step_conn. by apply silent_step. }
  unfold Analysis.run in *. split_and!; congruence.
Qed.

(** X1. At both pages, in every state the effect can reach, a socket that is
    not closed is the one [ws] names; so no two sockets are live at once. *)
Theorem live_socket_is_current :
  (∀ taskId status st0 evs i j s s',
     let c := TaskDetail.conn
                (TaskDetail.run taskId status (TaskDetail.effect (Some taskId) status st0) evs) in
     sockets c !! i = Some s → readyState s ≠ CLOSED →
     sockets c !! j = Some s' → readyState s' ≠ CLOSED →
     ws c = Some i ∧ i = j) ∧
  (∀ task_id status st0 evs i j s s',
     let c := Analysis.conn
                (Analysis.run task_id status (Analysis.effect (Some (task_id, status)) st0) evs) in
     sockets c !! i = Some s → readyState s ≠ CLOSED →
     sockets c !! j = Some s' → readyState s' ≠ CLOSED →
     ws c = Some i ∧ i = j).
Proof.
  split.
  - intros taskId status st0 evs i j s s' c Hs Hl Hs' Hl'.
    destruct (td_reachable_steady taskId status st0 evs) as [Hlive _ _ _]. fold c in Hlive.
    pose proof (Hlive i s Hs Hl) as Hi. pose proof (Hlive j s' Hs' Hl') as Hj.
    split; [done | congruence].
  - intros task_id status st0 evs i j s s' c Hs Hl Hs' Hl'.
    destruct (an_reachable_steady task_id status st0 evs) as [Hlive _ _ _]. fold c in Hlive.
    pose proof (Hlive i s Hs Hl) as Hi. pose proof (Hlive j s' Hs' Hl') as Hj.
    split; [done | congruence].
Qed.

(** X2. At both pages, in every state the effect can reach, at most one
    timeout is pending; one that is pending was set for 2000 ms, is the one
    [reconnectTimeout] holds, and is pending only while the effect is
    mounted and every socket is closed. *)
Theorem at_most_one_timeout_pending :
  (∀ taskId status st0 evs,
     let c := TaskDetail.conn
                (TaskDetail.run taskId status (TaskDetail.effect (Some taskId) status st0) evs) in
     (length (timers c) ≤ 1)%nat ∧
     (∀ t ms, (t, ms) ∈ timers c →
        ms = 2000 ∧ reconnectTimeout c = Some t ∧ isMounted c = true ∧
        Forall (λ s, readyState s = CLOSED) (sockets c))) ∧
  (∀ task_id status st0 evs,
     let c := Analysis.conn
                (Analysis.run task_id status (Analysis.effect (Some (task_id, status)) st0) evs) in
     (length (timers c) ≤ 1)%nat ∧
     (∀ t ms, (t, ms) ∈ timers c →
        ms = 2000 ∧ reconnectTimeout c = Some t ∧ isMounted c = true ∧
        Forall (λ s, readyState s = CLOSED) (sockets c))).
Proof.
  assert (∀ task c, Link.Steady task c →
    (length (timers c) ≤ 1)%nat ∧
    (∀ t ms, (t, ms) ∈ timers c →
       ms = 2000 ∧ reconnectTimeout c = Some t ∧ isMounted c = true ∧
       Forall (λ s, readyState s = CLOSED) (sockets c))) as Hgen.
  { intros task c [_ [Ht|(t' & Ht & Hrt & Hclosed & Hm)] _ _]; rewrite Ht.
    - split; [simpl; lia|]. intros t ms Hin. by apply elem_of_nil in Hin.
    - split; [simpl; lia|]. intros t ms Hin.
      apply list_elem_of_singleton in Hin. injection Hin as -> ->. done. }
  split.
  - intros taskId status st0 evs. apply (Hgen taskId), td_reachable_steady.
  - intros task_id status st0 evs. apply (Hgen task_id), an_reachable_steady.
Qed.

(** X3. At both pages every socket the effect ever creates points at the
    address [createWebSocket] gives for the task, and the effect creates no
    more sockets than one and one for each timeout that has fired. *)
Theorem sockets_only_for_the_task :
  (∀ taskId status st0 evs,
     let c := TaskDetail.conn
                (TaskDetail.run taskId status (TaskDetail.effect (Some taskId) status st0) evs) in
     Forall (λ s, url s = Api.ws_url taskId) (sockets c) ∧
     (length (sockets c) ≤ 1 + count is_timeout_event evs)%nat) ∧
  (∀ task_id status st0 evs,
     let c := Analysis.conn
                (Analysis.run task_id status (Analysis.effect (Some (task_id, status)) st0) evs) in
     Forall (λ s, url s = Api.ws_url task_id) (sockets c) ∧
     (length (sockets c) ≤ 1 + count is_timeout_event evs)%nat).
Proof.
  split.
  - intros taskId status st0 evs c.
    destruct (td_reachable_steady taskId status st0 evs) as [_ _ _ Hurl].
    split; [exact Hurl|]. clear Hurl. subst c. rewrite td_run_conn.
    pose proof (link_run_sockets taskId (is_running status)
                  (TaskDetail.conn (TaskDetail.effect (Some taskId) status st0)) evs) as Hlen.
    assert (length (sockets (TaskDetail.conn (TaskDetail.effect (Some taskId) status st0))) ≤ 1)%nat
      as Hstart; [|lia].
    destruct (td_effect_conn (Some taskId) status st0) as [->|(id & _ & ->)];
      [simpl; lia | by rewrite connect_fresh_sockets].
  - intros task_id status st0 evs c.
    destruct (an_reachable_steady task_id status st0 evs) as [_ _ _ Hurl].
    split; [exact Hurl|]. clear Hurl. subst c. rewrite an_run_conn.
    pose proof (link_run_sockets task_id (is_running (Some status))
                  (Analysis.conn (Analysis.effect (Some (task_id, status)) st0)) evs) as Hlen.
    assert (length (sockets (Analysis.conn (Analysis.effect (Some (task_id, status)) st0))) ≤ 1)%nat
      as Hstart; [|lia].
    destruct (an_effect_conn (Some (task_id, status)) st0) as [->|(id & status' & _ & ->)];
      [simpl; lia | by rewrite connect_fresh_sockets].
Qed.

(** X4. The guard of the effect. At the TaskDetail page, without a task id or
    for a task whose status is not "running", the effect sets the
    connectivity flag to false and tells its owner so, once; at the Analysis
    page, without an active task or for one that is not running, it clears
    the held snapshot. Neither opens a socket or sets a timeout, and nothing
    that happens afterwards makes them open one, send anything or tell
    their owner anything more. *)
Theorem idle_task_opens_nothing :
  (∀ taskId status st0 id evs,
     taskId = None ∨ taskId = Some EmptyString ∨ is_running status = false →
     let st := TaskDetail.run id status (TaskDetail.effect taskId status st0) evs in
     (sockets (TaskDetail.conn st) = [] ∧ timers (TaskDetail.conn st) = [] ∧
      sent (TaskDetail.conn st) = []) ∧
     TaskDetail.wsConnected st = false ∧
     TaskDetail.taskProgress st = TaskDetail.taskProgress st0 ∧
     TaskDetail.notices st = (TaskDetail.notices st0 ++ [Set_wsConnected false])%list) ∧
  (∀ activeTask st0 id status' evs,
     match activeTask with
     | Some (task_id, status) => task_id = EmptyString ∨ status ≠ running
     | None => True
     end →
     let st := Analysis.run id status' (Analysis.effect activeTask st0) evs in
     (sockets (Analysis.conn st) = [] ∧ timers (Analysis.conn st) = [] ∧
      sent (Analysis.conn st) = []) ∧
     Analysis.taskProgress st = JNull ∧
     Analysis.notices st = (Analysis.notices st0 ++ [Set_taskProgress JNull])%list).
Proof.
  split.
  - intros taskId status st0 id evs Hguard st.
    assert (TaskDetail.effect taskId status st0 =
            TaskDetail.setWsConnected false
              (TaskDetail.on_conn (λ c, fresh (next_timer c)) st0)) as Heff.
    { unfold TaskDetail.effect. destruct Hguard as [->|[->|Hst]]; [done|done|].
      destruct taskId as [id'|]; [|done]. by rewrite Hst, orb_true_r. }
    set (start := TaskDetail.effect taskId status st0) in *.
    assert (Silent (TaskDetail.conn start)) as HQ by (rewrite Heff; apply silent_fresh).
    destruct (silent_run id (is_running status) _ evs HQ) as ((Ht & _) & Hsent & Hlen).
    destruct (td_silent_run id status start evs HQ) as (Hp & Hf & Hn).
    fold st in Hp, Hf, Hn. rewrite <- td_run_conn in Ht, Hsent, Hlen. fold st in Ht, Hsent, Hlen.
    rewrite Hp, Hf, Hn, Hsent, Ht. rewrite Heff in Hlen |- *. simpl in Hlen |- *.
    split_and!; try done. by apply nil_length_inv.
  - intros activeTask st0 id status' evs Hguard st.
    assert (Analysis.effect activeTask st0 =
            Analysis.setTaskProgress JNull
              (Analysis.on_conn (λ c, fresh (next_timer c)) st0)) as Heff.
    { unfold Analysis.effect. destruct activeTask as [[task_id status]|]; [|done].
      destruct Hguard as [->|Hst]; [done|].
      destruct status; try done; by rewrite orb_true_r. }
    set (start := Analysis.effect activeTask st0) in *.
    assert (Silent (Analysis.conn start)) as HQ by (rewrite Heff; apply silent_fresh).
    destruct (silent_run id (is_running (Some status')) _ evs HQ) as ((Ht & _) & Hsent & Hlen).
    destruct (an_silent_run id status' start evs HQ) as (Hp & Hn).
    fold st in Hp, Hn. rewrite <- an_run_conn in Ht, Hsent, Hlen. fold st in Ht, Hsent, Hlen.
    rewrite Hp, Hn, Hsent, Ht. rewrite Heff in Hlen |- *. simpl in Hlen |- *.
    split_and!; try done. by apply nil_length_inv.
Qed.

(** X5. After the cleanup, at both pages and whatever events follow, the effect
    tells its owner nothing more and sends nothing more: the held snapshot,
    the notices and what has been sent stay as the cleanup found them. At
    the TaskDetail page this includes the connectivity flag, which the
    cleanup does not reset: it keeps the value it had when the cleanup
    ran. *)
Theorem nothing_told_after_cleanup :
  (∀ taskId status st0 before after,
     let mounted :=
       TaskDetail.run taskId status (TaskDetail.effect (Some taskId) status st0) before in
     let later := TaskDetail.run taskId status mounted (Ev_cleanup :: after) in
     TaskDetail.taskProgress later = TaskDetail.taskProgress mounted ∧
     TaskDetail.wsConnected later = TaskDetail.wsConnected mounted ∧
     TaskDetail.notices later = TaskDetail.notices mounted ∧
     sent (TaskDetail.conn later) = sent (TaskDetail.conn mounted)) ∧
  (∀ task_id status st0 before after,
     let mounted :=
       Analysis.run task_id status (Analysis.effect (Some (task_id, status)) st0) before in
     let later := Analysis.run task_id status mounted (Ev_cleanup :: after) in
     Analysis.taskProgress later = Analysis.taskProgress mounted ∧
     Analysis.notices later = Analysis.notices mounted ∧
     sent (Analysis.conn later) = sent (Analysis.conn mounted)).
Proof.
  split.
  - intros taskId status st0 before after mounted later.
    pose proof (td_reachable_steady taskId status st0 before) as HS. fold mounted in HS.
    clearbody mounted.
    set (stopped := TaskDetail.step taskId status mounted Ev_cleanup).
    assert (Silent (TaskDetail.conn stopped)) as HQ.
    { subst stopped. rewrite td_step_conn. by eapply silent_cleanup. }
    destruct (td_silent_run taskId status stopped after HQ) as (Hp & Hf & Hn).
    destruct (silent_run taskId (is_running status) _ after HQ) as (_ & Hsent & _).
    rewrite <- td_run_conn in Hsent.
    change later with (TaskDetail.run taskId status stopped after).
    rewrite Hp, Hf, Hn, Hsent. subst stopped. rewrite td_cleanup_link.
    unfold TaskDetail.on_conn. cbn [TaskDetail.taskProgress TaskDetail.wsConnected
      TaskDetail.notices TaskDetail.conn].
    by rewrite (cleanup_sent taskId true).
  - intros task_id status st0 before after mounted later.
    pose proof (an_reachable_steady task_id status st0 before) as HS. fold mounted in HS.
    clearbody mounted.
    set (stopped := Analysis.step task_id status mounted Ev_cleanup).
    assert (Silent (Analysis.conn stopped)) as HQ.
    { subst stopped. rewrite an_step_conn. by eapply silent_cleanup. }
    destruct (an_silent_run task_id status stopped after HQ) as (Hp & Hn).
    destruct (silent_run task_id (is_running (Some status)) _ after HQ) as (_ & Hsent & _).
    rewrite <- an_run_conn in Hsent.
    change later with (Analysis.run task_id status stopped after).
    rewrite Hp, Hn, Hsent. subst stopped. rewrite an_cleanup_link.
    unfold Analysis.on_conn. cbn [Analysis.taskProgress Analysis.notices Analysis.conn].
    by rewrite (cleanup_sent task_id true).
Qed.

(** X6. At both pages the only text the effect ever hands to the transport is
    "pong", and it sends no more of them than pings have arrived. *)
Theorem only_pongs_are_sent :
  (∀ taskId status st0 evs,
     let c := TaskDetail.conn
                (TaskDetail.run taskId status (TaskDetail.effect (Some taskId) status st0) evs) in
     Forall (λ m, m.2 = "pong") (sent c) ∧
     (length (sent c) ≤ count is_ping_event evs)%nat) ∧
  (∀ task_id status st0 evs,
     let c := Analysis.conn
                (Analysis.run task_id status (Analysis.effect (Some (task_id, status)) st0) evs) in
     Forall (λ m, m.2 = "pong") (sent c) ∧
     (length (sent c) ≤ count is_ping_event evs)%nat).
Proof.
  split.
  - intros taskId status st0 evs c. subst c. rewrite td_run_conn.
    assert (sent (TaskDetail.conn (TaskDetail.effect (Some taskId) status st0)) = []) as Hstart.
    { destruct (td_effect_conn (Some taskId) status st0) as [->|(id & _ & ->)];
        [done | apply connect_fresh_sent]. }
    destruct (link_run_sent taskId (is_running status)
                (TaskDetail.conn (TaskDetail.effect (Some taskId) status st0)) evs)
      as [Hall Hlen].
    { rewrite Hstart. constructor. }
    rewrite Hstart in Hlen. done.
  - intros task_id status st0 evs c. subst c. rewrite an_run_conn.
    assert (sent (Analysis.conn (Analysis.effect (Some (task_id, status)) st0)) = [])
      as Hstart.
    { destruct (an_effect_conn (Some (task_id, status)) st0) as [->|(id & s & _ & ->)];
        [done | apply connect_fresh_sent]. }
    destruct (link_run_sent task_id (is_running (Some status))
                (Analysis.conn (Analysis.effect (Some (task_id, status)) st0)) evs)
      as [Hall Hlen].
    { rewrite Hstart. constructor. }
    rewrite Hstart in Hlen. done.
Qed.

(** X7. At both pages, for a running task and until the cleanup runs, the
    effect is never left without a way back: in every state it can reach it
    is mounted, and either the socket [ws] names is not closed or a
    reconnect is pending. *)
Theorem kept_connected_until_cleanup :
  (∀ taskId st0 evs,
     taskId ≠ EmptyString → count is_cleanup_event evs = 0%nat →
     Kept (TaskDetail.conn
             (TaskDetail.run taskId (Some running)
                (TaskDetail.effect (Some taskId) (Some running) st0) evs))) ∧
  (∀ task_id st0 evs,
     task_id ≠ EmptyString → count is_cleanup_event evs = 0%nat →
     Kept (Analysis.conn
             (Analysis.run task_id running
                (Analysis.effect (Some (task_id, running)) st0) evs))).
Proof.
  split.
  - intros taskId st0 evs Hid Hno. rewrite td_run_conn.
    apply kept_run; [apply td_effect_steady | | done].
    rewrite td_effect_running by done. apply kept_start.
  - intros task_id st0 evs Hid Hno. rewrite an_run_conn.
    apply kept_run; [apply an_effect_steady | | done].
    rewrite an_effect_running by done. apply kept_start.
Qed.
End PagesMore.

(** ** More about the message handler *)

Lemma status_count_Some `{Coercions} d n now :
  status_count d = Some n →
  ∃ message statusData snapshot,
    d = Text_JSON message ∧
    get message "type" = inr (JStr "status") ∧
    get message "data" = inr statusData ∧
    get statusData "processed_papers" = inr (JNum n) ∧
    snapshot_of_status statusData now = inr snapshot ∧
    get snapshot "processed" = inr (JNum n).
Proof.
  destruct d as [| |message|]; try done. simpl.
  destruct (get message "type") as [|type] eqn:Hty; [done|].
  destruct (get message "data") as [|statusData] eqn:Hdata; [done|].
  destruct (is_string type "status") eqn:Hst; [|done].
  destruct (get statusData "processed_papers") as [|[| |b|m|s| |]] eqn:Hn; try done.
  destruct (get statusData "current_paper_title") as [|title] eqn:Htitle; [done|].
  destruct (to_string (or title (JStr "..."))) as [|text] eqn:Htext; [done|].
  intros [= <-]. apply is_string_true in Hst as ->.
  destruct (snapshot_of_status_builds statusData now m title text Hn Htitle Htext)
    as [snapshot Hsnap].
  exists message, statusData, snapshot. split_and!; try done.
  by eapply snapshot_of_status_processed.
Qed.

Lemma status_counts_cons `{Coercions} d ds (ns : list Z) :
  status_count <$> (d :: ds) = Some <$> ns →
  ∃ n ns', ns = n :: ns' ∧ status_count d = Some n ∧ status_count <$> ds = Some <$> ns'.
Proof.
  destruct ns as [|n ns']; [done|]. rewrite !fmap_cons. intros [= Hd Hds].
  by exists n, ns'.
Qed.

Section MessagesMore.
Context `{Coercions}.

(** With a snapshot held that has processed [N] papers, a frame that is
    [superseded N] leaves the store alone; at this page the guard reads the
    store itself. *)
Lemma td_onmessage_superseded taskId N data now st :
  superseded N data = true →
  get (TaskDetail.taskProgress st) "processed" = inr (JNum N) →
  TaskDetail.taskProgress (TaskDetail.onmessage taskId data now st).1 =
    TaskDetail.taskProgress st.
Proof.
  intros Hsup HN. destruct data as [| |message|]; try done.
  - unfold TaskDetail.onmessage, bind, read, TaskDetail.ws_send. simpl.
    destruct (ws (TaskDetail.conn st)) as [i|] eqn:Hw; simpl; [|done].
    rewrite Hw. by destruct (send i "pong" (TaskDetail.conn st)).
  - simpl in Hsup. run_handler.
    destruct (get message "type") as [|type] eqn:Ht; simpl; [done|].
    destruct (get message "data") as [|payload] eqn:Hd; simpl.
    { exfalso. destruct message; simpl in *; congruence. }
    destruct (is_string type "status") eqn:Hst.
    + assert (is_string type "progress" = false) as ->.
      { destruct type; try done. simpl in *. apply String.eqb_eq in Hst as ->. done. }
      simpl. rewrite (truthy_of_processed _ _ HN). simpl.
      destruct (get payload "processed_papers") as [|[| |b|n|s| |]]; try done.
      rewrite HN. simpl. apply Z.leb_le in Hsup.
      by rewrite Z.gtb_ltb, (proj2 (Z.ltb_ge _ _)) by lia.
    + apply andb_prop in Hsup as [Hp Hc]. apply negb_true_iff in Hp, Hc.
      by rewrite Hp, Hc.
Qed.

Lemma pong_state_of i c : state_of i (Link.pong c) = state_of i c.
Proof.
  unfold Link.pong. destruct (ws c) as [j|]; [|done]. unfold send.
  by destruct (state_of j c) as [[]|].
Qed.

(** A message leaves every socket in the state it was in. *)
Lemma td_onmessage_state_of taskId data now st i :
  state_of i (TaskDetail.conn (TaskDetail.onmessage taskId data now st).1) =
    state_of i (TaskDetail.conn st).
Proof.
  rewrite td_onmessage_conn. destruct (is_ping data); [apply pong_state_of | done].
Qed.

Lemma an_onmessage_state_of data now st i :
  state_of i (Analysis.conn (Analysis.onmessage data now st).1) =
    state_of i (Analysis.conn st).
Proof.
  rewrite an_onmessage_conn. destruct (is_ping data); [apply pong_state_of | done].
Qed.

Lemma td_back_to_back_keeps taskId status N payload i now later st :
  get payload "processed" = inr (JNum N) →
  state_of i (TaskDetail.conn st) = Some OPEN →
  TaskDetail.taskProgress st = payload →
  forallb (superseded N) later = true →
  TaskDetail.taskProgress (TaskDetail.run taskId status st (back_to_back i now later)) =
    payload.
Proof.
  intros HN. revert st. induction later as [|d later IH]; intros st Hopen Hheld Hsup; [done|].
  simpl in Hsup. apply andb_prop in Hsup as [Hd Hlater].
  unfold back_to_back. rewrite fmap_cons. fold (back_to_back i now later).
  cbn [TaskDetail.run fold_left]. fold (TaskDetail.run taskId status).
  rewrite td_step_message by done. apply IH; [| |done].
  - by rewrite td_onmessage_state_of.
  - rewrite td_onmessage_superseded with (N := N); [done|done|]. by rewrite Hheld.
Qed.

(** X9. At the TaskDetail page the guard of the status branch reads the store,
    which every earlier write has reached. So once a "progress" message has
    arrived, its payload is still held at the end of any sequence of frames
    it supersedes (keep-alives, frames that do not parse, messages of other
    kinds, status messages whose processed count does not exceed the
    payload's), also when the frames arrive back to back with no render in
    between. *)
Theorem td_progress_kept_back_to_back taskId status st i now frame payload N later :
  state_of i (TaskDetail.conn st) = Some OPEN →
  progress_of frame = Some payload →
  get payload "processed" = inr (JNum N) →
  forallb (superseded N) later = true →
  TaskDetail.taskProgress
    (TaskDetail.run taskId status st (back_to_back i now (frame :: later))) = payload.
Proof.
  intros Hopen Hframe HN Hsup.
  destruct (progress_of_Some frame payload Hframe) as (message & -> & Hty & Hdata).
  unfold back_to_back. rewrite fmap_cons. fold (back_to_back i now later).
  cbn [TaskDetail.run fold_left]. fold (TaskDetail.run taskId status).
  rewrite td_step_message by done.
  rewrite (td_onmessage_progress taskId message payload) by done.
  by apply td_back_to_back_keeps with (N := N).
Qed.

(** X10. Under "status" messages alone the processed count that is held
    never goes down: starting from a held snapshot that has processed [N]
    papers, after status messages that have processed [ns], each with a
    title (if any) that can be converted to a string, the held count is the
    largest of [N] and [ns]. At the TaskDetail page this is so however the
    frames arrive; at the Analysis page, when React commits each result
    before the next frame arrives. *)
Theorem status_counts_only_grow i now N ds ns :
  status_count <$> ds = Some <$> ns →
  (∀ taskId status st,
     state_of i (TaskDetail.conn st) = Some OPEN →
     get (TaskDetail.taskProgress st) "processed" = inr (JNum N) →
     get (TaskDetail.taskProgress
            (TaskDetail.run taskId status st (back_to_back i now ds))) "processed" =
       inr (JNum (fold_left Z.max ns N))) ∧
  (∀ task_id status st,
     state_of i (Analysis.conn st) = Some OPEN →
     Analysis.taskProgressRef st = Analysis.taskProgress st →
     get (Analysis.taskProgress st) "processed" = inr (JNum N) →
     get (Analysis.taskProgress
            (Analysis.run task_id status st (in_turn i now ds))) "processed" =
       inr (JNum (fold_left Z.max ns N))).
Proof.
  intros Hds. split.
  - intros taskId status. revert N ns Hds.
    induction ds as [|d ds IH]; intros N ns Hds st Hopen HN.
    { destruct ns; [done|discriminate]. }
    apply status_counts_cons in Hds as (n & ns' & -> & Hd & Hds).
    apply (status_count_Some d n now) in Hd
      as (message & statusData & snapshot & -> & Hty & Hdata & Hn & Hsnap & Hp).
    destruct (td_recency_guard taskId message statusData n now st Hty Hdata Hn)
      as (_ & _ & Hheld).
    unfold back_to_back. rewrite fmap_cons. fold (back_to_back i now ds).
    cbn [TaskDetail.run fold_left]. fold (TaskDetail.run taskId status).
    rewrite td_step_message by done. rewrite (Hheld N HN), Hsnap. cbn [fold_left].
    destruct (n >? N) eqn:Hgt; cbn [fst].
    + apply Z.gtb_lt in Hgt. rewrite Z.max_r by lia. by apply IH.
    + rewrite Z.gtb_ltb in Hgt. apply Z.ltb_ge in Hgt. rewrite Z.max_l by lia. by apply IH.
  - intros task_id status. revert N ns Hds.
    induction ds as [|d ds IH]; intros N ns Hds st Hopen Href HN.
    { destruct ns; [done|discriminate]. }
    apply status_counts_cons in Hds as (n & ns' & -> & Hd & Hds).
    apply (status_count_Some d n now) in Hd
      as (message & statusData & snapshot & -> & Hty & Hdata & Hn & Hsnap & Hp).
    destruct (an_recency_guard message statusData n now st Hty Hdata Hn)
      as (_ & _ & Hheld).
    unfold in_turn. rewrite bind_cons. fold (in_turn i now ds).
    rewrite an_run_app. cbn [Analysis.run fold_left]. fold (Analysis.run task_id status).
    rewrite an_step_message by done. rewrite (Hheld N) by (by rewrite Href).
    rewrite Hsnap. cbn [fold_left].
    destruct (n >? N) eqn:Hgt; cbn [fst Analysis.step].
    + apply Z.gtb_lt in Hgt. rewrite Z.max_r by lia. by apply IH.
    + rewrite Z.gtb_ltb in Hgt. apply Z.ltb_ge in Hgt. rewrite Z.max_l by lia.
      apply IH; try done.
Qed.

(** X11. A "progress" message that has no [data] replaces the held snapshot
    by [undefined]; with that the guard of the status branch is open again,
    and the next status message that has a processed count, and a title (if
    any) that can be converted to a string, is taken whatever it has
    processed, also when it has processed less than the snapshot that was
    held before. At the Analysis page the same happens once React has
    committed. *)
Theorem progress_without_data_reopens_guard i now message d n :
  get message "type" = inr (JStr "progress") →
  get message "data" = inr JUndefined →
  status_count d = Some n →
  (∀ taskId status st,
     state_of i (TaskDetail.conn st) = Some OPEN →
     let st1 := TaskDetail.step taskId status st (Ev_message i (Text_JSON message) now) in
     TaskDetail.taskProgress st1 = JUndefined ∧
     get (TaskDetail.taskProgress
            (TaskDetail.step taskId status st1 (Ev_message i d now))) "processed" =
       inr (JNum n)) ∧
  (∀ task_id status st,
     state_of i (Analysis.conn st) = Some OPEN →
     let st1 := Analysis.run task_id status st
                  [Ev_message i (Text_JSON message) now; Ev_commit] in
     Analysis.taskProgress st1 = JUndefined ∧
     get (Analysis.taskProgress
            (Analysis.step task_id status st1 (Ev_message i d now))) "processed" =
       inr (JNum n)).
Proof.
  intros Hty Hdata Hd.
  apply (status_count_Some d n now) in Hd
    as (message' & statusData & snapshot & -> & Hty' & Hdata' & Hn & Hsnap & Hp).
  split.
  - intros taskId status st Hopen st1.
    assert (st1 = TaskDetail.setTaskProgress JUndefined st) as ->.
    { subst st1. rewrite td_step_message by done.
      by rewrite (td_onmessage_progress taskId message JUndefined). }
    split; [done|]. rewrite td_step_message by done.
    by rewrite (td_onmessage_status_first taskId message' statusData snapshot).
  - intros task_id status st Hopen st1.
    assert (st1 = Analysis.sync_ref (Analysis.setTaskProgress JUndefined st)) as ->.
    { subst st1. cbn [Analysis.run fold_left]. rewrite an_step_message by done.
      by rewrite (an_onmessage_progress message JUndefined). }
    split; [done|]. rewrite an_step_message by done.
    by rewrite (an_onmessage_status_first message' statusData snapshot).
Qed.

(** X12. A "status" message that cannot be compared is dropped, at both pages
    and with nothing thrown: one that has no payload ([data] missing or
    null), whatever is held; and one whose payload has no
    [processed_papers], whenever a snapshot is held. *)
Theorem status_without_count_ignored message statusData now :
  get message "type" = inr (JStr "status") →
  get message "data" = inr statusData →
  (∀ taskId st,
     statusData = JUndefined ∨ statusData = JNull ∨
       (truthy (TaskDetail.taskProgress st) = true ∧
        get statusData "processed_papers" = inr JUndefined) →
     TaskDetail.onmessage taskId (Text_JSON message) now st = (st, inr tt)) ∧
  (∀ st,
     statusData = JUndefined ∨ statusData = JNull ∨
       (truthy (Analysis.taskProgressRef st) = true ∧
        get statusData "processed_papers" = inr JUndefined) →
     Analysis.onmessage (Text_JSON message) now st = (st, inr tt)).
Proof.
  intros Hty Hdata. split.
  - intros taskId st Hcase. run_handler. rewrite Hty, Hdata. simpl.
    destruct Hcase as [->|[->|[Hheld Hn]]].
    + by destruct (truthy (TaskDetail.taskProgress st)).
    + by destruct (truthy (TaskDetail.taskProgress st)).
    + rewrite Hheld, Hn. simpl.
      destruct (TaskDetail.taskProgress st) as [| |b|m|s|items|fields]; try done.
  - intros st Hcase. run_handler. rewrite Hty, Hdata. simpl.
    destruct Hcase as [->|[->|[Hheld Hn]]].
    + by destruct (truthy (Analysis.taskProgressRef st)).
    + by destruct (truthy (Analysis.taskProgressRef st)).
    + rewrite Hheld, Hn. simpl.
      destruct (Analysis.taskProgressRef st) as [| |b|m|s|items|fields]; try done.
Qed.
End MessagesMore.

(** ** The connectivity flag of the TaskDetail page, over whole runs *)

Section FlagMore.
Context `{Coercions}.

Lemma pong_current_open c : current_open (Link.pong c) ↔ current_open c.
Proof.
  unfold current_open.
  assert (ws (Link.pong c) = ws c) as ->.
  { unfold Link.pong. destruct (ws c) as [j|] eqn:Hw; [|done]. unfold send.
    by destruct (state_of j c) as [[]|]. }
  split; intros (i & Hw & Hst); exists i; by rewrite pong_state_of in *.
Qed.

Lemma pong_isMounted c : isMounted (Link.pong c) = isMounted c.
Proof.
  unfold Link.pong. destruct (ws c) as [j|]; [|done]. unfold send.
  by destruct (state_of j c) as [[]|].
Qed.

Lemma td_connect_flag taskId st :
  TaskDetail.wsConnected (TaskDetail.connect taskId st) = TaskDetail.wsConnected st.
Proof. unfold TaskDetail.connect. by destruct (isMounted (TaskDetail.conn st)). Qed.

(** One event that is not the cleanup keeps the effect mounted and the
    flag true exactly when the socket [ws] names is open. *)
Lemma td_flag_step taskId status st ev :
  Link.Steady taskId (TaskDetail.conn st) →
  isMounted (TaskDetail.conn st) = true →
  (TaskDetail.wsConnected st = true ↔ current_open (TaskDetail.conn st)) →
  is_cleanup_event ev = false →
  let st' := TaskDetail.step taskId status st ev in
  isMounted (TaskDetail.conn st') = true ∧
  (TaskDetail.wsConnected st' = true ↔ current_open (TaskDetail.conn st')).
Proof.
  intros HS Hm Hflag Hev.
  destruct ev as [i|i data now|i|i|t| |]; cbv zeta; try done.
  - cbn [TaskDetail.step]. unfold state_of.
    destruct (sockets (TaskDetail.conn st) !! i) as [s|] eqn:Hs; [|done]. cbn [fmap option_fmap option_map].
    destruct (readyState s) eqn:Hr; try done.
    assert (ws (TaskDetail.conn st) = Some i) as Hw.
    { destruct HS as [Hlive _ _ _]. apply (Hlive i s Hs). unfold Link.live. congruence. }
    split; [done|]. split; [|done]. intros _. exists i. split; [done|].
    cbn [TaskDetail.onopen TaskDetail.setWsConnected TaskDetail.on_conn TaskDetail.conn].
    rewrite state_of_set_readyState, decide_True by done.
    unfold state_of. by rewrite Hs.
  - cbn [TaskDetail.step].
    destruct (state_of i (TaskDetail.conn st)) as [[]|]; try done.
    rewrite td_onmessage_flag, td_onmessage_conn.
    destruct (is_ping data); [|done].
    by rewrite pong_isMounted, pong_current_open.
  - cbn [TaskDetail.step].
    destruct (sockets (TaskDetail.conn st) !! i) as [s|] eqn:Hs; [|done].
    destruct (decide (readyState s = CLOSED)) as [Hr|Hl]; [by rewrite Hr|].
    assert (ws (TaskDetail.conn st) = Some i) as Hw.
    { destruct HS as [Hlive _ _ _]. by apply (Hlive i s Hs). }
    assert (Browser.onclose s = true) as Hon.
    { destruct HS as [_ _ Hhand _]. by apply (Forall_lookup_1 _ _ _ _ (Hhand Hm) Hs). }
    assert (∀ st1, isMounted (TaskDetail.conn st1) = true →
              ws (TaskDetail.conn st1) = Some i →
              state_of i (TaskDetail.conn st1) = Some CLOSED →
              isMounted (TaskDetail.conn (TaskDetail.onclose status st1)) = true ∧
              (TaskDetail.wsConnected (TaskDetail.onclose status st1) = true ↔
               current_open (TaskDetail.conn (TaskDetail.onclose status st1)))) as Hclose.
    { intros st1 Hm1 Hw1 Hst1. unfold TaskDetail.onclose. simpl. rewrite Hm1.
      destruct (is_running status); simpl.
      - split; [done|]. split; [done|]. intros (j & Hj & Hopen). simpl in Hj.
        rewrite Hw1 in Hj. injection Hj as <-. unfold state_of in *. simpl in Hopen.
        congruence.
      - split; [done|]. split; [done|]. intros (j & Hj & Hopen).
        rewrite Hw1 in Hj. injection Hj as <-. congruence. }
    rewrite Hon.
    assert (state_of i (set_readyState i CLOSED (TaskDetail.conn st)) = Some CLOSED) as Hst.
    { rewrite state_of_set_readyState, decide_True by done. unfold state_of. by rewrite Hs. }
    destruct (readyState s); try done; by apply Hclose.
  - cbn [TaskDetail.step].
    destruct (is_pending t (TaskDetail.conn st)) eqn:Hp; [|done].
    rewrite td_connect_flag. cbn [TaskDetail.wsConnected TaskDetail.on_conn].
    pose proof (td_step_conn taskId status st (Ev_timeout t)) as Hconn.
    cbn [TaskDetail.step] in Hconn. rewrite Hp in Hconn. rewrite Hconn.
    rewrite (timeout_connects taskId (is_running status) _ t HS Hp).
    assert (Forall (λ s, readyState s = CLOSED) (sockets (TaskDetail.conn st))) as Hclosed.
    { destruct HS as [_ [Ht|(t' & _ & _ & Hclosed & _)] _ _]; [|done].
      unfold is_pending in Hp. rewrite Ht in Hp. simpl in Hp. discriminate. }
    split; [done|]. split.
    + intros Htrue. apply Hflag in Htrue as (j & Hj & Hopen). unfold state_of in Hopen.
      destruct (sockets (TaskDetail.conn st) !! j) as [s|] eqn:Hs; [|done].
      pose proof (Forall_lookup_1 _ _ _ _ Hclosed Hs) as Hr. simpl in Hr, Hopen. congruence.
    + intros (j & Hj & Hopen). simpl in Hj. injection Hj as <-.
      unfold state_of in Hopen. simpl in Hopen.
      rewrite lookup_app_r in Hopen by lia. rewrite Nat.sub_diag in Hopen. done.
Qed.

(** X8. At the TaskDetail page, from a store whose connectivity flag is false
    when the effect starts and until the cleanup runs, the flag tells the
    truth in every state the effect can reach: it is true exactly when the
    socket [ws] names is open. *)
Theorem flag_true_iff_socket_open taskId status st0 evs :
  TaskDetail.wsConnected st0 = false →
  count is_cleanup_event evs = 0%nat →
  let st := TaskDetail.run taskId status (TaskDetail.effect (Some taskId) status st0) evs in
  TaskDetail.wsConnected st = true ↔ current_open (TaskDetail.conn st).
Proof.
  intros Hoff Hno st.
  assert (isMounted (TaskDetail.conn (TaskDetail.effect (Some taskId) status st0)) = true ∧
          (TaskDetail.wsConnected (TaskDetail.effect (Some taskId) status st0) = true ↔
           current_open (TaskDetail.conn (TaskDetail.effect (Some taskId) status st0))))
    as Hstart.
  { unfold TaskDetail.effect.
    destruct (String.eqb taskId EmptyString || negb (is_running status)).
    - split; [done|]. split; [done|]. by intros (i & Hw & _).
    - rewrite td_connect_flag, td_connect_conn, connect_mounted by done. simpl.
      split; [done|]. rewrite Hoff. split; [done|].
      intros (i & Hw & Hopen). simpl in Hw. injection Hw as <-. done. }
  pose proof (td_effect_steady taskId status st0) as HS.
  subst st. revert Hstart HS Hno.
  generalize (TaskDetail.effect (Some taskId) status st0). clear Hoff st0.
  induction evs as [|ev evs IH]; intros st [Hm Hflag] HS Hno; [done|].
  cbn [TaskDetail.run fold_left]. fold (TaskDetail.run taskId status).
  cbn [count] in Hno. destruct (is_cleanup_event ev) eqn:Hev; [lia|].
  apply IH; [|rewrite td_step_conn; by apply steady_step|lia].
  by apply td_flag_step.
Qed.
End FlagMore.

(** ** More about [fetchApi], and the form that submits through it *)

Section ApiMore.
Context `{Coercions}.
Import Api.

Lemma fetchApi_default endpoint options net :
  fetchApi endpoint options None net = fetchApi endpoint options (Some 2) net.
Proof. done. Qed.

Lemma asks_retry_ok response : ok response = true → asks_retry (Fulfilled response) = false.
Proof. intros Hok. unfold asks_retry, try_block. by rewrite Hok. Qed.

Lemma ends_ok response : ok response = true → ends (Fulfilled response) = json response.
Proof. intros Hok. unfold ends, try_block. by rewrite Hok. Qed.

Lemma try_block_nullish response :
  ok response = false → nullish_body response →
  try_block (Fulfilled response) = Caught TypeError.
Proof.
  intros Hok Hbody. unfold try_block. rewrite Hok. simpl. by destruct Hbody as [-> | ->].
Qed.

(** X13. With a negative [retries] the loop body never runs: no request is
    made, and the call ends in the error thrown after the loop. *)
Theorem fetchApi_negative_retries endpoint options retries net :
  retries < 0 →
  fetchApi endpoint options (Some retries) net = (inl (Error "Failed after retries"), []).
Proof.
  intros Hneg. unfold fetchApi. simpl.
  assert ((Z.of_nat 0 <=? retries) = false) as Hout by (apply Z.leb_gt; lia).
  destruct (Z.to_nat (retries + 1)); simpl; by rewrite Hout.
Qed.

(** X14. For any [retries] that is not negative, a call makes at most
    [retries + 1] requests, all of them the same request to [API_BASE]
    followed by the endpoint, with a wait of one second before each but the
    first; it ends as its last attempt ends, every attempt before the last
    having ended in a TypeError; the [throw] after the loop is not
    reached. *)
Theorem fetchApi_attempts_bounded endpoint options retries net :
  0 ≤ retries →
  ∃ k : nat,
    Z.of_nat k ≤ retries ∧
    fetchApi endpoint options (Some retries) net =
      (ends (net k), trace_of (Fetch (API_BASE +:+ endpoint) (with_json_header options)) k) ∧
    length (fetchApi endpoint options (Some retries) net).2 = (2 * k + 1)%nat ∧
    (∀ j, (j < k)%nat → asks_retry (net j) = true) ∧
    (Z.of_nat k < retries → asks_retry (net k) = false).
Proof.
  intros Hretries.
  destruct (fetchApi_runs endpoint options retries net Hretries)
    as (k & Hrun & Hk & Hbefore & Hlast).
  exists k. split_and!; try done. rewrite Hrun. cbn [snd].
  clear. induction k as [|k IH]; [done|]. cbn [trace_of length]. rewrite IH. lia.
Qed.

(** X15. A call returns what the first response that is [ok] gives, provided
    the attempts before it failed at the network and it comes within the
    retries ([retries + 1] attempts, three by default): the result is what
    [response.json()] settles to, a rejection included, which is handed to
    the caller as it is and not retried. *)
Theorem fetchApi_returns_first_answer endpoint options retries net k response :
  Z.of_nat k ≤ default 2 retries →
  (∀ j, (j < k)%nat → net j = Rejected TypeError) →
  net k = Fulfilled response → ok response = true →
  fetchApi endpoint options retries net =
    (json response, trace_of (Fetch (API_BASE +:+ endpoint) (with_json_header options)) k).
Proof.
  intros Hk Hdown Hup Hok.
  assert (fetchApi endpoint options retries net =
          fetchApi endpoint options (Some (default 2 retries)) net) as ->
    by (by destruct retries).
  destruct (fetchApi_runs endpoint options (default 2 retries) net)
    as (k' & Hrun & Hk' & Hbefore & Hlast); [lia|].
  assert (k' = k) as ->.
  { destruct (lt_eq_lt_dec k' k) as [[Hlt|Heq]|Hgt]; [|done|].
    - rewrite Hdown in Hlast by done. rewrite asks_retry_network_failure in Hlast.
      discriminate Hlast. lia.
    - specialize (Hbefore k Hgt). rewrite Hup, asks_retry_ok in Hbefore by done.
      discriminate Hbefore. }
  by rewrite Hrun, Hup, ends_ok.
Qed.

(** X16. A response that is not [ok] and whose body is the JSON text [null] is
    taken for a network failure: reading [detail] off the body throws a
    TypeError inside the [try], so each exported call asks again twice, a
    second apart, and ends in that TypeError and not in an error that names
    the response. *)
Theorem null_error_body_taken_for_network_failure c response :
  ok response = false → nullish_body response →
  ∃ request,
    call c (λ _, Fulfilled response) =
      (inl TypeError, [request; Sleep 1000; request; Sleep 1000; request]).
Proof.
  intros Hok Hbody. destruct (call_default c) as (request & _ & Hcall).
  exists request. rewrite Hcall. unfold asks_retry, ends.
  rewrite (try_block_nullish response Hok Hbody). cbn [instanceof_TypeError].
  by rewrite given_error.
Qed.
End ApiMore.

(** *** [includes] finds exactly the strings that contain the one sought *)

Lemma prefix_spec p s : String.prefix p s = true ↔ ∃ b, s = p +:+ b.
Proof.
  revert s. induction p as [|a p IH]; intros s.
  - simpl. split; [intros _; by exists s | by destruct s].
  - destruct s as [|a' s]; simpl.
    + split; [done | intros [b Hb]; discriminate].
    + destruct (Ascii.ascii_dec a a') as [->|Hne].
      * rewrite IH. split; intros [b Hb]; exists b; [by rewrite Hb|].
        change (String a' s = String a' (p +:+ b)) in Hb. by injection Hb.
      * split; [done|]. intros [b Hb].
        change (String a' s = String a (p +:+ b)) in Hb. congruence.
Qed.

Lemma includes_spec s sub :
  Utils.includes s sub = true ↔ ∃ a b, s = a +:+ sub +:+ b.
Proof.
  induction s as [|x s IH]; cbn [Utils.includes].
  - rewrite orb_false_r, prefix_spec. split.
    + intros [b Hb]. by exists EmptyString, b.
    + intros (a & b & Hab). destruct a; [by exists b|discriminate].
  - rewrite orb_true_iff, prefix_spec, IH. split.
    + intros [[b Hb]|(a & b & Hab)].
      * by exists EmptyString, b.
      * exists (String x a), b. by rewrite Hab.
    + intros (a & b & Hab). destruct a as [|y a].
      * left. by exists b.
      * right. exists a, b.
        change (String x s = String y (a +:+ sub +:+ b)) in Hab. by injection Hab.
Qed.

Section SubmitMore.
Context `{Coercions}.
Variable native_message : Exn → string.
Import Api Submit.

(** X17. The submitted form, when the backend answers it with a response
    that is not [ok].

    Where [fetchApi] can build its error from the response (the message is
    the body's [detail], "HTTP error" and the status, or "Unknown error"),
    the call of [startAnalysis] ends after that one request and [onError]
    shows one destructive toast. Which one is decided by the text of the
    message alone, not by the status code: if it contains "already running"
    it is the "Task Already Running" toast, and the active task is asked for
    again; otherwise it is the "Error" toast with that message, and nothing
    is refetched.

    In general, with the same response at every attempt, [onError] is given
    what the attempt throws: where building the error throws a TypeError
    (a body that is JSON [null], a [detail] that cannot be converted to a
    string) the request is made three times, a second apart, and the toast
    is chosen by the browser's message for that TypeError. *)
Theorem conflict_recognised_by_message request response :
  ok response = false →
  let post := Fetch (API_BASE +:+ "/api/analyze")
                (with_json_header (with_method "POST" (Some request))) in
  (∀ net message,
     net 0%nat = Fulfilled response → error_message response = inr message →
     failed_submit native_message request net =
       Some (if Utils.includes message "already running"
             then [Toast true "Task Already Running"
                     "Please wait for the current task to complete";
                   RefetchActiveTask]
             else [Toast true "Error" message],
             [post])) ∧
  failed_submit native_message request (λ _, Fulfilled response) =
    Some (onError native_message (thrown response),
          if instanceof_TypeError (thrown response)
          then [post; Sleep 1000; post; Sleep 1000; post]
          else [post]).
Proof.
  intros Hok post. pose proof (try_block_not_ok response Hok) as Htry.
  assert (∀ net, failed_submit native_message request net =
            match for_loop 3 (API_BASE +:+ "/api/analyze")
                    (with_json_header (with_method "POST" (Some request))) 2 net 0%nat with
            | (inl error, io) => Some (onError native_message error, io)
            | (inr _, _) => None
            end) as Hsubmit by done.
  split.
  - intros net message Hnet Hmsg. rewrite Hsubmit, for_loop_default.
    unfold asks_retry, ends. rewrite Hnet, Htry. unfold thrown. rewrite Hmsg.
    cbn [instanceof_TypeError]. cbv zeta. unfold onError. cbn [Submit.message].
    by destruct (Utils.includes message "already running").
  - rewrite Hsubmit, for_loop_default. unfold asks_retry, ends. rewrite Htry.
    by destruct (instanceof_TypeError (thrown response)).
Qed.
End SubmitMore.

(** ** [truncate] and the chart rows *)

Lemma substring_0_all s n : (String.length s ≤ n)%nat → String.substring 0 n s = s.
Proof.
  revert n. induction s as [|a s IH]; intros n Hn.
  - by destruct n.
  - destruct n as [|n]; simpl in *; [lia|]. rewrite IH; [done|lia].
Qed.

Lemma substring_0_length s n :
  String.length (String.substring 0 n s) = Nat.min n (String.length s).
Proof.
  revert n. induction s as [|a s IH]; intros n.
  - by destruct n.
  - destruct n as [|n]; simpl; [done|]. by rewrite IH.
Qed.

Lemma substring_0_append s t n :
  (n ≤ String.length s)%nat → String.substring 0 n (s +:+ t) = String.substring 0 n s.
Proof.
  revert n. induction s as [|a s IH]; intros n Hn.
  - simpl in Hn. assert (n = 0%nat) as -> by lia. by destruct t.
  - destruct n as [|n]; [done|]. simpl in Hn.
    change (String a s +:+ t) with (String a (s +:+ t)). simpl. rewrite IH; [done|lia].
Qed.

Lemma string_length_append s t :
  String.length (s +:+ t) = (String.length s + String.length t)%nat.
Proof.
  induction s as [|a s IH]; [done|].
  change (String a s +:+ t) with (String a (s +:+ t)). simpl. by rewrite IH.
Qed.

Lemma slice_from_0 str length :
  0 ≤ length ≤ Z.of_nat (String.length str) →
  Utils.slice str 0 (Some length) = String.substring 0 (Z.to_nat length) str.
Proof.
  intros Hlen. unfold Utils.slice, Utils.relative_index. simpl.
  assert ((length <? 0) = false) as -> by (apply Z.ltb_ge; lia).
  rewrite Z.min_l by lia. rewrite Z.min_l by lia.
  rewrite Z.sub_0_r, Z.max_l by lia. done.
Qed.

Lemma slice_from_1 a rest : Utils.slice (String a rest) 1 None = rest.
Proof.
  unfold Utils.slice, Utils.relative_index. cbn [default].
  change (1 <? 0) with false. cbv iota.
  assert ((Z.of_nat (String.length (String a rest)) <? 0) = false) as ->
    by (apply Z.ltb_ge; lia).
  rewrite Z.min_id. cbn [String.length]. rewrite Z.min_l by lia.
  change (Z.to_nat 1) with 1%nat. cbn [String.substring].
  apply substring_0_all. lia.
Qed.

Lemma truncate_short str length :
  Z.of_nat (String.length str) ≤ length → Utils.truncate str length = str.
Proof. intros Hlen. unfold Utils.truncate. by rewrite (proj2 (Z.leb_le _ _) Hlen). Qed.

Lemma truncate_long str length :
  0 ≤ length < Z.of_nat (String.length str) →
  Utils.truncate str length = String.substring 0 (Z.to_nat length) str +:+ "...".
Proof.
  intros Hlen. unfold Utils.truncate.
  rewrite (proj2 (Z.leb_gt _ _)) by lia. rewrite slice_from_0 by lia. done.
Qed.

Lemma truncate_long_length str length :
  0 ≤ length < Z.of_nat (String.length str) →
  Z.of_nat (String.length (Utils.truncate str length)) = length + 3.
Proof.
  intros Hlen. rewrite truncate_long by done.
  rewrite string_length_append, substring_0_length. simpl. lia.
Qed.

(** X18. [truncate], for a length that is not negative. A string of at most
    [length] code units comes back as it is. A longer one comes back as its
    first [length] code units followed by three dots, [length + 3] code
    units in all (so a string that is longer than [length] by one or two
    comes back longer than it was). Either way the result has at most
    [length + 3] code units, and truncating it again changes nothing. *)
Theorem truncate_shape str length :
  0 ≤ length →
  let len := Z.of_nat (String.length str) in
  (len ≤ length → Utils.truncate str length = str) ∧
  (length < len →
     Utils.truncate str length = String.substring 0 (Z.to_nat length) str +:+ "..." ∧
     Z.of_nat (String.length (Utils.truncate str length)) = length + 3) ∧
  Z.of_nat (String.length (Utils.truncate str length)) ≤ Z.max len (length + 3) ∧
  Utils.truncate (Utils.truncate str length) length = Utils.truncate str length.
Proof.
  intros Hpos len.
  assert (length < len →
          Z.of_nat (String.length (String.substring 0 (Z.to_nat length) str +:+ "...")) =
            length + 3) as Hcut.
  { intros Hlong. rewrite string_length_append, substring_0_length. simpl. lia. }
  split_and!.
  - apply truncate_short.
  - intros Hlong. rewrite truncate_long by lia. split; [done | by apply Hcut].
  - destruct (Z_le_gt_dec len length) as [Hshort|Hlong].
    + rewrite truncate_short by lia. lia.
    + rewrite truncate_long by lia. rewrite Hcut by lia. lia.
  - destruct (Z_le_gt_dec len length) as [Hshort|Hlong].
    + rewrite (truncate_short str) by lia. by rewrite truncate_short by lia.
    + rewrite (truncate_long str) by lia.
      rewrite truncate_long by (rewrite Hcut by lia; lia).
      rewrite substring_0_append by (rewrite substring_0_length; lia).
      rewrite (substring_0_all (String.substring _ _ _)); [done|].
      rewrite substring_0_length. lia.
Qed.

(** X19. [truncate] with a negative length: [slice] counts a negative end
    from the end of the string, so the result is the string without its last
    [-length] code units, followed by three dots; for a string of at most
    [-length] code units, the three dots alone. *)
Theorem truncate_negative_length str length :
  length < 0 →
  Utils.truncate str length =
    String.substring 0 (Z.to_nat (Z.of_nat (String.length str) + length)) str +:+ "...".
Proof.
  intros Hneg. unfold Utils.truncate.
  rewrite (proj2 (Z.leb_gt _ _)) by lia.
  assert (Utils.relative_index (Z.of_nat (String.length str)) 0 = 0) as Hfrom.
  { unfold Utils.relative_index. change (0 <? 0) with false. cbv iota. lia. }
  assert (Utils.relative_index (Z.of_nat (String.length str)) length =
          Z.max (Z.of_nat (String.length str) + length) 0) as Hto.
  { unfold Utils.relative_index. by rewrite (proj2 (Z.ltb_lt _ _) Hneg). }
  unfold Utils.slice.
  change (default (Z.of_nat (String.length str)) (Some length)) with length.
  cbv zeta. rewrite Hfrom, Hto.
  change (Z.to_nat 0) with 0%nat. rewrite Z.sub_0_r, Z.max_l by lia.
  f_equal. f_equal. lia.
Qed.

(** X20. The rows of the organizations chart: at most ten, in the order of the
    analytics, one for each of its first ten organizations; a row keeps the
    organization's full name and its author count, and shows the name cut
    to at most 23 code units (the name itself when it has at most 20, its
    first 20 and three dots otherwise). Without analytics there are no
    rows. *)
Theorem topOrgsData_rows :
  Charts.topOrgsData None = [] ∧
  ∀ orgs,
    length (Charts.topOrgsData (Some orgs)) = Nat.min 10 (length orgs) ∧
    ∀ i row, Charts.topOrgsData (Some orgs) !! i = Some row →
      ∃ org, orgs !! i = Some org ∧
             Charts.fullName row = Charts.name org ∧
             Charts.value row = Charts.author_count org ∧
             Charts.row_name row = Utils.truncate (Charts.name org) 20 ∧
             (String.length (Charts.row_name row) ≤ 23)%nat.
Proof.
  split; [done|]. intros orgs. unfold Charts.topOrgsData. split.
  - by rewrite length_fmap, length_take.
  - intros i row Hrow. rewrite list_lookup_fmap in Hrow.
    destruct (take 10 orgs !! i) as [org|] eqn:Horg; [|done].
    injection Hrow as <-. apply lookup_take_Some in Horg as [Horg _].
    exists org. split_and!; try done. cbn [Charts.row_name].
    destruct (Z_le_gt_dec (Z.of_nat (String.length (Charts.name org))) 20) as [Hle|Hgt].
    + rewrite truncate_short by done. lia.
    + pose proof (truncate_long_length (Charts.name org) 20) as Hlen. lia.
Qed.

Section Labels.
Import Stdlib.Strings.Ascii.

(** X21. The label of an organization type: the first code unit in upper case,
    then the rest with its first underscore turned into a space, and only
    the first; an underscore at the very start is kept. *)
Theorem org_type_label_first_underscore toUpperCase a before after :
  Utils.occurrences "_"%char before = 0%nat →
  Charts.org_type_label toUpperCase (String a before) =
    toUpperCase (String a EmptyString) +:+ before ∧
  Charts.org_type_label toUpperCase (String a (before +:+ "_" +:+ after)) =
    toUpperCase (String a EmptyString) +:+ before +:+ " " +:+ after.
Proof.
  intros Hnone. unfold Charts.org_type_label. rewrite !slice_from_1. cbn [Utils.charAt_0].
  assert (∀ rest, Utils.replace "_"%char " " (before +:+ rest) =
                  before +:+ Utils.replace "_"%char " " rest) as Hskip.
  { induction before as [|b before IH]; intros rest; [done|].
    change (String b before +:+ rest) with (String b (before +:+ rest)).
    cbn [Utils.occurrences] in Hnone. cbn [Utils.replace].
    destruct (Ascii.eqb b "_"%char); [discriminate|].
    rewrite IH by done. done. }
  split.
  - f_equal. specialize (Hskip EmptyString).
    assert (∀ s, s +:+ EmptyString = s) as Hnil.
    { induction s as [|c s IHs]; [done|].
      change (String c s +:+ EmptyString) with (String c (s +:+ EmptyString)).
      by rewrite IHs. }
    rewrite Hnil in Hskip. cbn [Utils.replace] in Hskip. by rewrite Hnil in Hskip.
  - f_equal. by rewrite Hskip.
Qed.

End Labels.

(** ** The theme store *)

(** X22. One use of [toggleTheme], from whatever the store held (a value that is
    neither "light" nor "dark" too) gives "light" or "dark", with the stored
    item and the class of the document in step with the store; from there on
    two more uses give the same page back. *)
Theorem toggleTheme_settles p :
  let p1 := Theme.toggleTheme p in
  (Theme.theme p1 = "light" ∨ Theme.theme p1 = "dark") ∧
  Theme.stored p1 = Some (Theme.theme p1) ∧
  Theme.dark p1 = String.eqb (Theme.theme p1) "dark" ∧
  Theme.theme (Theme.toggleTheme p1) ≠ Theme.theme p1 ∧
  Theme.toggleTheme (Theme.toggleTheme p1) = p1.
Proof.
  unfold Theme.toggleTheme. simpl.
  destruct (String.eqb (Theme.theme p) "light"); simpl; split_and!; by eauto.
Qed.

Lemma load_after_toggle q dark_class prefers_dark :
  Theme.load (Theme.stored (Theme.toggleTheme q)) dark_class prefers_dark =
    Theme.toggleTheme q.
Proof.
  unfold Theme.load, Theme.toggleTheme, Theme.initialize, Theme.create. simpl.
  destruct (String.eqb (Theme.theme q) "light"); reflexivity.
Qed.

(** X23. The theme survives a reload: once the theme has been toggled at least
    once, loading the page again from what is stored gives the same store,
    stored item and class back, whatever class the fresh document has and
    whatever the system prefers. *)
Theorem theme_survives_reload saved dark_class prefers_dark n dark_class' prefers_dark' :
  let p := Nat.iter (S n) Theme.toggleTheme (Theme.load saved dark_class prefers_dark) in
  Theme.load (Theme.stored p) dark_class' prefers_dark' = p.
Proof.
  intros p. subst p.
  change (Nat.iter (S n) Theme.toggleTheme (Theme.load saved dark_class prefers_dark))
    with (Theme.toggleTheme
            (Nat.iter n Theme.toggleTheme (Theme.load saved dark_class prefers_dark))).
  apply load_after_toggle.
Qed.

(** X24. What a load leaves. With a theme stored, or with a system that prefers
    dark, the store, the stored item and the class of the document agree.
    With nothing stored and a system that prefers light, the store says
    "dark" while nothing is stored and the class is left as the document had
    it. *)
Theorem load_agreement saved dark_class prefers_dark :
  let p := Theme.load saved dark_class prefers_dark in
  ((∃ s, saved = Some s ∧ s ≠ EmptyString) ∨ prefers_dark = true →
     Theme.stored p = Some (Theme.theme p) ∧
     Theme.dark p = String.eqb (Theme.theme p) "dark") ∧
  ((saved = None ∨ saved = Some EmptyString) ∧ prefers_dark = false →
     p = {| Theme.theme := "dark"; Theme.stored := saved; Theme.dark := dark_class |}).
Proof.
  unfold Theme.load, Theme.initialize, Theme.create. simpl. split.
  - intros [(s & Hsaved & Hs)|Hpref].
    + subst saved. apply String.eqb_neq in Hs. by rewrite Hs.
    + subst prefers_dark. destruct saved as [s|]; [|done].
      by destruct (String.eqb s EmptyString).
  - intros [[Hsaved|Hsaved] Hpref]; by subst.
Qed.

(** ** The further properties on concrete runs *)

Import MoreSamples.

(** The first socket opens and drops, and the timeout fires: socket 0 is
    closed, socket 1 is connecting and is the one [ws] names. *)
Lemma live_socket_is_current_witness :
  let c := TaskDetail.conn (td_run td_start [Ev_open 0; Ev_close 0; Ev_timeout 1]) in
  let s := {| url := Api.ws_url "t1"; readyState := CONNECTING; onclose := true |} in
  state_of 0 c = Some CLOSED ∧
  sockets c !! 1%nat = Some s ∧
  readyState s ≠ CLOSED ∧
  (ws c = Some 1%nat ∧ 1%nat = 1%nat).
Proof.
  cbv zeta. split; [reflexivity|]. split; [reflexivity|]. split; [discriminate|].
  apply (proj1 (@live_socket_is_current sample_coercions) "t1" (Some running)
           (TaskDetail.init 1) [Ev_open 0%nat; Ev_close 0%nat; Ev_timeout 1] 1%nat 1%nat
           {| url := Api.ws_url "t1"; readyState := CONNECTING; onclose := true |}
           {| url := Api.ws_url "t1"; readyState := CONNECTING; onclose := true |});
    first [reflexivity | discriminate].
Defined.

(** The first socket opens and drops: timeout 1 is pending. *)
Lemma at_most_one_timeout_pending_witness :
  let c := TaskDetail.conn (td_run td_start [Ev_open 0; Ev_close 0]) in
  timers c = [(1%positive, 2000)] ∧
  (2000 = 2000 ∧ reconnectTimeout c = Some 1%positive ∧ isMounted c = true ∧
   Forall (λ s, readyState s = CLOSED) (sockets c)).
Proof.
  cbv zeta. split; [reflexivity|].
  apply (proj2 (proj1 (@at_most_one_timeout_pending sample_coercions) "t1" (Some running)
                  (TaskDetail.init 1) [Ev_open 0%nat; Ev_close 0%nat]) 1%positive 2000).
  apply list_elem_of_singleton. reflexivity.
Defined.

(** Task "t1" completed: events that would move a connection, were there
    one, move nothing. *)
Lemma idle_task_opens_nothing_witness :
  let st := @TaskDetail.run sample_coercions "t1" (Some completed)
              (@TaskDetail.effect sample_coercions (Some "t1") (Some completed)
                 (TaskDetail.init 1))
              [Ev_open 0; Ev_timeout 1; Ev_close 0; Ev_cleanup] in
  is_running (Some completed) = false ∧
  (sockets (TaskDetail.conn st) = [] ∧ timers (TaskDetail.conn st) = [] ∧
   sent (TaskDetail.conn st) = []) ∧
  TaskDetail.wsConnected st = false ∧
  TaskDetail.taskProgress st = JNull ∧
  TaskDetail.notices st = [Set_wsConnected false].
Proof.
  cbv zeta. split; [reflexivity|].
  apply (proj1 (@idle_task_opens_nothing sample_coercions) (Some "t1") (Some completed)
           (TaskDetail.init 1) "t1" [Ev_open 0%nat; Ev_timeout 1; Ev_close 0%nat; Ev_cleanup]).
  right. right. reflexivity.
Defined.

(** The first socket opens and drops: the effect is mounted and a
    reconnect is pending. *)
Lemma kept_connected_until_cleanup_witness :
  "t1" ≠ EmptyString ∧
  count is_cleanup_event [Ev_open 0; Ev_close 0] = 0%nat ∧
  Kept (TaskDetail.conn (td_run td_start [Ev_open 0; Ev_close 0])).
Proof.
  split; [discriminate|]. split; [reflexivity|].
  apply (proj1 (@kept_connected_until_cleanup sample_coercions) "t1" (TaskDetail.init 1)
           [Ev_open 0%nat; Ev_close 0%nat]); [discriminate | reflexivity].
Defined.

(** status(3), then progress(5), status(4), a ping and a text that is not
    JSON, back to back: 5 stays. *)
Lemma td_progress_kept_back_to_back_witness :
  let st := td_run td_start [Ev_open 0; Ev_message 0 (status_frame 3) noon] in
  let later := [status_frame 4; Text_ping; Text_other] in
  state_of 0 (TaskDetail.conn st) = Some OPEN ∧
  progress_of (progress_frame 5) = Some (progress_payload 5) ∧
  get (progress_payload 5) "processed" = inr (JNum 5) ∧
  forallb (superseded 5) later = true ∧
  get (TaskDetail.taskProgress st) "processed" = inr (JNum 3) ∧
  TaskDetail.taskProgress (td_run st (back_to_back 0 noon (progress_frame 5 :: later))) =
    progress_payload 5.
Proof.
  cbv zeta. repeat (split; [reflexivity|]).
  apply (@td_progress_kept_back_to_back sample_coercions "t1" (Some running) _ 0%nat noon
           (progress_frame 5) (progress_payload 5) 5); reflexivity.
Defined.

(** With 5 held, status(7), status(4), status(9) back to back: 9. *)
Lemma status_counts_only_grow_witness :
  let st := td_run td_start [Ev_open 0; Ev_message 0 (progress_frame 5) noon] in
  let ds := [status_frame 7; status_frame 4; status_frame 9] in
  @status_count sample_coercions <$> ds = Some <$> [7; 4; 9] ∧
  state_of 0 (TaskDetail.conn st) = Some OPEN ∧
  get (TaskDetail.taskProgress st) "processed" = inr (JNum 5) ∧
  get (TaskDetail.taskProgress (td_run st (back_to_back 0 noon ds))) "processed" =
    inr (JNum 9).
Proof.
  cbv zeta. repeat (split; [reflexivity|]).
  apply (proj1 (@status_counts_only_grow sample_coercions 0%nat noon 5
                  [status_frame 7; status_frame 4; status_frame 9] [7; 4; 9] eq_refl)
           "t1" (Some running)); reflexivity.
Defined.

(** What the two statements about status messages leave aside: with 5
    held, a status message for 7 papers whose title cannot be converted to a
    string is dropped, the template literal throwing inside the [try]. *)
Lemma status_with_unreadable_title_dropped :
  let st := td_run td_start [Ev_open 0; Ev_message 0 (progress_frame 5) noon] in
  @status_count sample_coercions (unreadable_title 7) = None ∧
  td_run st [Ev_message 0 (unreadable_title 7) noon] = st.
Proof. cbv zeta. split; reflexivity. Qed.

(** With 5 held, a "progress" message without [data], then status(2): 2. *)
Lemma progress_without_data_reopens_guard_witness :
  let st := td_run td_start [Ev_open 0; Ev_message 0 (progress_frame 5) noon] in
  let st1 := td_run st [Ev_message 0 (Text_JSON bare_progress) noon] in
  get bare_progress "type" = inr (JStr "progress") ∧
  get bare_progress "data" = inr JUndefined ∧
  @status_count sample_coercions (status_frame 2) = Some 2 ∧
  state_of 0 (TaskDetail.conn st) = Some OPEN ∧
  get (TaskDetail.taskProgress st) "processed" = inr (JNum 5) ∧
  (TaskDetail.taskProgress st1 = JUndefined ∧
   get (TaskDetail.taskProgress (td_run st1 [Ev_message 0 (status_frame 2) noon]))
     "processed" = inr (JNum 2)).
Proof.
  cbv zeta. repeat (split; [reflexivity|]).
  apply (proj1 (@progress_without_data_reopens_guard sample_coercions 0%nat noon
                  bare_progress (status_frame 2) 2 eq_refl eq_refl eq_refl)
           "t1" (Some running)); reflexivity.
Defined.

(** A "status" message without [data], with nothing held. *)
Lemma status_without_count_ignored_witness :
  let st := td_run td_start [Ev_open 0] in
  get bare_status "type" = inr (JStr "status") ∧
  get bare_status "data" = inr JUndefined ∧
  @TaskDetail.onmessage sample_coercions "t1" (Text_JSON bare_status) noon st = (st, inr tt).
Proof.
  cbv zeta. repeat (split; [reflexivity|]).
  apply (proj1 (@status_without_count_ignored sample_coercions bare_status JUndefined noon
                  eq_refl eq_refl) "t1").
  left. reflexivity.
Defined.

Lemma fetchApi_negative_retries_witness :
  -1 < 0 ∧
  @Api.fetchApi sample_coercions "/health" None (Some (-1)) always_down =
    (inl (Error "Failed after retries"), []).
Proof.
  split; [reflexivity|].
  apply (@fetchApi_negative_retries sample_coercions "/health" None (-1) always_down).
  reflexivity.
Defined.

(** With [retries] 1 and the backend down: two requests, and the error of
    the second. *)
Lemma fetchApi_attempts_bounded_witness :
  0 ≤ 1 ∧
  ∃ k : nat,
    Z.of_nat k ≤ 1 ∧
    @Api.fetchApi sample_coercions "/health" None (Some 1) always_down =
      (@Api.ends sample_coercions (always_down k),
       Api.trace_of (Api.Fetch (Api.API_BASE +:+ "/health") (Api.with_json_header None)) k) ∧
    length (@Api.fetchApi sample_coercions "/health" None (Some 1) always_down).2 =
      (2 * k + 1)%nat ∧
    (∀ j, (j < k)%nat → @Api.asks_retry sample_coercions (always_down j) = true) ∧
    (Z.of_nat k < 1 → @Api.asks_retry sample_coercions (always_down k) = false).
Proof.
  split; [discriminate|].
  apply (@fetchApi_attempts_bounded sample_coercions "/health" None 1 always_down).
  discriminate.
Defined.

(** The backend down once, then a 200 whose body is not JSON: the
    rejection of [response.json()] is the caller's, after one retry. *)
Lemma fetchApi_returns_first_answer_witness :
  let request := Api.Fetch (Api.API_BASE +:+ "/health") (Api.with_json_header None) in
  Z.of_nat 1 ≤ default 2 None ∧
  down_then_unreadable 0%nat = Api.Rejected TypeError ∧
  down_then_unreadable 1%nat = Api.Fulfilled ok_without_body ∧
  Api.ok ok_without_body = true ∧
  @Api.fetchApi sample_coercions "/health" None None down_then_unreadable =
    (inl SyntaxError, [request; Api.Sleep 1000; request]).
Proof.
  cbv zeta. split; [discriminate|]. repeat (split; [reflexivity|]).
  apply (@fetchApi_returns_first_answer sample_coercions "/health" None None
           down_then_unreadable 1%nat ok_without_body); try reflexivity.
  - discriminate.
  - intros [|j] Hj; [reflexivity | lia].
Defined.

Lemma null_error_body_taken_for_network_failure_witness :
  Api.ok null_body = false ∧
  Api.nullish_body null_body ∧
  ∃ request,
    @Api.call sample_coercions Api.getActiveTask (λ _, Api.Fulfilled null_body) =
      (inl TypeError, [request; Api.Sleep 1000; request; Api.Sleep 1000; request]).
Proof.
  split; [reflexivity|]. split; [left; reflexivity|].
  apply (@null_error_body_taken_for_network_failure sample_coercions Api.getActiveTask
           null_body); [reflexivity | left; reflexivity].
Defined.

(** A 409 with the backend's detail gives the "Task Already Running" toast
    and a refetch; the same 409 with a body that is not JSON gives the
    "Error" toast, with "Unknown error"; a 500 whose body is JSON [null] is
    posted three times and gives the "Error" toast with the browser's
    message. *)
Lemma conflict_recognised_by_message_witness :
  let post :=
    Api.Fetch (Api.API_BASE +:+ "/api/analyze")
      (Api.with_json_header (Api.with_method "POST" (Some "{}"))) in
  Api.ok conflict = false ∧
  @Api.error_message sample_coercions conflict = inr "A task is already running" ∧
  @Api.error_message sample_coercions conflict_without_body = inr "Unknown error" ∧
  @Api.thrown sample_coercions null_body = TypeError ∧
  @Submit.failed_submit sample_coercions sample_native_message "{}"
      (λ _, Api.Fulfilled conflict) =
    Some ([Submit.Toast true "Task Already Running"
             "Please wait for the current task to complete";
           Submit.RefetchActiveTask], [post]) ∧
  @Submit.failed_submit sample_coercions sample_native_message "{}"
      (λ _, Api.Fulfilled conflict_without_body) =
    Some ([Submit.Toast true "Error" "Unknown error"], [post]) ∧
  @Submit.failed_submit sample_coercions sample_native_message "{}"
      (λ _, Api.Fulfilled null_body) =
    Some ([Submit.Toast true "Error" "Failed to fetch"],
          [post; Api.Sleep 1000; post; Api.Sleep 1000; post]).
Proof.
  cbv zeta. do 4 (split; [reflexivity|]). split; [|split].
  - apply (proj1 (@conflict_recognised_by_message sample_coercions sample_native_message
                    "{}" conflict eq_refl) (λ _, Api.Fulfilled conflict)
             "A task is already running"); reflexivity.
  - apply (proj1 (@conflict_recognised_by_message sample_coercions sample_native_message
                    "{}" conflict_without_body eq_refl)
             (λ _, Api.Fulfilled conflict_without_body) "Unknown error"); reflexivity.
  - apply (proj2 (@conflict_recognised_by_message sample_coercions sample_native_message
                    "{}" null_body eq_refl)).
Defined.

Lemma truncate_shape_witness :
  let str := "Massachusetts Institute of Technology" in
  0 ≤ 20 ∧
  20 < Z.of_nat (String.length str) ∧
  (Utils.truncate str 20 = "Massachusetts Instit..." ∧
   Z.of_nat (String.length (Utils.truncate str 20)) = 23).
Proof.
  cbv zeta. split; [discriminate|]. split; [reflexivity|].
  apply (proj1 (proj2 (truncate_shape "Massachusetts Institute of Technology" 20
                         ltac:(discriminate)))).
  reflexivity.
Defined.

Lemma truncate_negative_length_witness :
  -2 < 0 ∧ Utils.truncate "abcdef" (-2) = "abcd...".
Proof.
  split; [reflexivity|]. apply (truncate_negative_length "abcdef" (-2)). reflexivity.
Defined.

Lemma topOrgsData_rows_witness :
  let row := {| Charts.row_name := "Massachusetts Instit...";
                Charts.value := 7;
                Charts.fullName := "Massachusetts Institute of Technology" |} in
  Charts.topOrgsData (Some sample_orgs) !! 1%nat = Some row ∧
  ∃ org, sample_orgs !! 1%nat = Some org ∧
         Charts.fullName row = Charts.name org ∧
         Charts.value row = Charts.author_count org ∧
         Charts.row_name row = Utils.truncate (Charts.name org) 20 ∧
         (String.length (Charts.row_name row) ≤ 23)%nat.
Proof.
  cbv zeta. split; [reflexivity|].
  apply (proj2 (proj2 topOrgsData_rows sample_orgs) 1%nat). reflexivity.
Defined.

(** "research_and_development": only the first underscore goes. *)
Lemma org_type_label_first_underscore_witness :
  Utils.occurrences (Ascii.ascii_of_nat 95) "esearch" = 0%nat ∧
  Charts.org_type_label ascii_upper "research" = "Research" ∧
  Charts.org_type_label ascii_upper "research_and_development" =
    "Research and_development".
Proof.
  split; [reflexivity|].
  apply (org_type_label_first_underscore ascii_upper (Ascii.ascii_of_nat 114)
           "esearch" "and_development").
  reflexivity.
Defined.

(** Nothing stored, a system that prefers light, a document without the
    class: the store says "dark". *)
Lemma load_agreement_witness :
  (@None string = None ∨ @None string = Some EmptyString) ∧ false = false ∧
  Theme.load None false false =
    {| Theme.theme := "dark"; Theme.stored := None; Theme.dark := false |}.
Proof.
  split; [left; reflexivity|]. split; [reflexivity|].
  apply (proj2 (load_agreement None false false)).
  split; [left; reflexivity | reflexivity].
Defined.

(** The first socket has opened. *)
Lemma flag_true_iff_socket_open_witness :
  let st := td_run td_start [Ev_open 0] in
  TaskDetail.wsConnected (TaskDetail.init 1) = false ∧
  count is_cleanup_event [Ev_open 0] = 0%nat ∧
  TaskDetail.wsConnected st = true ∧
  (TaskDetail.wsConnected st = true ↔ current_open (TaskDetail.conn st)).
Proof.
  cbv zeta. repeat (split; [reflexivity|]).
  apply (@flag_true_iff_socket_open sample_coercions "t1" (Some running) (TaskDetail.init 1)
           [Ev_open 0%nat]); reflexivity.
Defined.
